(* ===== verification/_CoqProject ===== *)
-Q . S2P
Prelude.v
JsString.v
JsValue.v
Platform.v
MemPlatform.v
FileResolver.v
UriCodec.v
Media.v
Sections.v
Guard.v
HomePage.v
Permissions.v
Bootstrap.v
Admin.v
SeedScript.v
Schema.v
Middlewares.v
