(* ===== verification/Prelude.v ===== *)
(** * Pelagic seed bootstrap: a verification development

    This library models the seed/bootstrap logic of the Pelagic Strapi CMS
    repository (src/src/bootstrap.js, src/scripts/seed.js), the preview
    configuration (src/config/admin.js), the middleware stack
    (src/config/middlewares.js) and the generated component schemas
    (src/types/generated/components.d.ts), and proves what the code does.

    ** The program and how its parts interact

    The bootstrap hook [seedPelagicApp] asks the run-once guard
    [isFirstRun] whether seed data must be imported.  If so it calls
    [importSeedData], which grants public read permissions
    ([setPublicPermissions], a fan-out of concurrent permission creations
    joined by [Promise.all]) and imports the home page ([importHomePage]).
    The importer walks the fixture's SEO block and its sections; each
    section goes through [processSection], which resolves media paths
    through [checkFileExistsBeforeUpload]: a lookup of the media library
    by file name, falling back to [getFileData] (path parsing with
    [parseFilePath], [path.join], [fs.existsSync], [fs.statSync],
    [mime.lookup]) and [uploadFile].  Every effect goes to the Strapi
    platform (plugin key-value store, query engine, upload service,
    document service) or to the file system.

    The standalone script [main] of seed.js loads a Strapi instance and
    runs the same bootstrap.  The admin configuration builds draft-mode
    preview URLs from the document service; the middleware list and the
    generated schemas are data the platform reads.

    ** How the code is modelled (file, module, source)

    - [Prelude] (this file): the effect monad shared by all components.
      A computation [ST E S L A] takes the platform state [S] and returns
      an [out]: a [result] (a value or a thrown error of type [E]), the new
      state, and the console events of type [L] it printed.  JS [await] is
      the bind of this monad (stdpp's [MBind], notation [x ← m; k]);
      [try]/[catch] is [st_catch]; a sequential loop is [st_mapM].
      Computations are compared by the pointwise equivalence [≡], with
      [Proper] instances so that monad laws rewrite under binds; the
      [preserves] combinators, the run lemmas ([bind_ok], [catch_err],
      ...) and the reflexive-transitive closure [star] with its invariant
      rule are shared by all files.
    - [JsString]: the string methods the code calls ([split], [join],
      [includes], the regex replace [/\..*$/], [toLowerCase]).
    - [JsValue]: JS values (undefined, null, booleans, integers, strings,
      arrays, objects as ordered field lists), truthiness, property
      access, object spread, assignment and [delete].
    - [Platform]: the interface the code expects from Strapi and the file
      system, a type class [Platform] of operations (plugin store, query
      engine, upload service, document service, [fs], and the event
      loop's [schedule]: the order in which concurrently started
      operations complete) with the laws [PlatformLaws] the client
      theorems assume, and two observers for the specifications
      ([document_list], [query_rows]).  The laws are those of the code's
      own comments: a document creation stores what it returns (for a
      single type it may replace the existing document), a query creation
      appends a row, the schedule is a permutation of the start order.
    - [MemPlatform]: an in-memory implementation with fault injection
      that discharges the laws; every witness runs on it.
    - [FileResolver]: [parseFilePath], [path.join], [getFileData].
    - [UriCodec]: [encodeURIComponent] on UTF-8 bytes and the URL
      standard's percent-decoding.
    - [Media]: [uploadFile], [checkFileExistsBeforeUpload].
    - [Sections]: [processSection].
    - [Guard]: [isFirstRun]; the step relation [gstep] interleaves the
      read and the write of two concurrent startups.
    - [HomePage]: [importHomePage] split along its blocks, [createEntry].
    - [Permissions]: [setPublicPermissions].  Its synchronous loops run
      in a monad whose state is the list of started creates; the started
      creates then complete in the platform's [schedule] order, and
      [Promise.all] rejects with the first rejection in that order.  The
      flattened requests [permission_requests] are the reference the
      loops implement.
    - [Bootstrap]: [importSeedData], [seedPelagicApp].
    - [Admin] (src/config/admin.js): [getPreviewPathname], the [env]
      helpers, the configuration object and the preview [handler]; the
      reader [url_param] models how the front end reads the URL back
      ([new URL(url).searchParams.get]: tabs and newlines removed, the
      fragment cut at '#', pairs split at '&', names and values
      form-decoded).
    - [SeedScript] (src/scripts/seed.js): [main], over a [runtime] record
      of the outcomes of compileStrapi, load and destroy.
    - [Schema] (components.d.ts): every generated interface as a
      [component_schema] value and the [ComponentSchemas] registry.
    - [Middlewares] (src/config/middlewares.js): the middleware list.

    ** What the theorems show

    - Media (C1-C7): no upload when the asset is present, every entry
      present afterwards, idempotence, the error paths (invalid path,
      missing file, failure after earlier uploads), and refinement by an
      in-order loop up to the found-then-uploaded reordering.
    - FileResolver (C8-C9, C36): [parseFilePath] splits at the last '/'
      and the parts give the path back; a path without '..' segments
      resolves inside data/uploads (and one with them can leave it);
      what [getFileData] returns for an existing file.
    - Sections (C10-C11): pass-through of non-media sections, shape of
      the processed object.
    - Guard (C12-C15): the flag is written, the interleaving invariant,
      solo refinement, and the race from every fresh state.
    - HomePage (C16-C20): no document on error, the "already exists"
      branch, the stored document on success, the shape of the data.
    - Permissions (C21-C23): equivalence of the loops with the flattened
      requests, the rows the creates append in completion order and the
      rejection [Promise.all] reports, the missing role.
    - Bootstrap (C24-C29): only guard errors escape, import errors are
      swallowed, the import never runs twice, permissions come first,
      each import appends every permission once, and two concurrent
      startups can both import and duplicate every permission.
    - Admin (C30-C33): the preview path read back by the front end, the
      handler on every branch, the end-to-end path of the configured
      handler, and the path injected through an unencoded secret.
    - SeedScript (C34-C35): the exit code on every outcome, exit 0 after
      a failed import.
    - Schema and Middlewares carry no claim: they are data, transcribed
      with the lemmas that check them (registry well-formedness, the
      agreement of [processSection]'s media fields with the schemas, the
      middleware order).

    ** Bounds and fuel

    Every loop of the code iterates over a finite list (the path array,
    the sections, the permission entries), so the definitions are
    structurally recursive and total.  The one search with fuel,
    [Schema.media_paths] through nested components, reaches its fixpoint
    at fuel 3 ([media_paths_fuel]); the registry nests components at most
    two deep.  Each permission create is one atomic database call; the
    creates a rejection or a [TypeError] leaves running are run to
    completion before the rejection is returned, which no later step of
    the seed code can observe.  JS numbers are integers [Z]; NaN and fractions do not
    occur in the code's data.

    ** Not modelled

    Console formatting (events are structured), the Strapi internals
    behind the interface, the fixture file data/data.json (not part of
    the sources; the importer takes it as a parameter), Node's module
    system, Strapi's logger level (seed.js line 35), the [locale] and
    [status] parameters that the preview code receives but never reads,
    and the URL parser's trimming of leading and trailing spaces and
    control characters, which never touches the query of a preview URL.
*)

From stdpp Require Import base list.
From Stdlib Require Import ZArith.

Declare Scope pelagic_scope.
Delimit Scope pelagic_scope with pel.
Open Scope pelagic_scope.

(** ** Results of a computation: a value, or a thrown error. *)

Inductive result (E A : Type) : Type :=
| Ok (a : A)
| Throw (e : E).
Arguments Ok {E A} a.
Arguments Throw {E A} e.

Definition result_map {E A B} (f : A -> B) (r : result E A) : result E B :=
  match r with Ok a => Ok (f a) | Throw e => Throw e end.

Definition is_ok {E A} (r : result E A) : bool :=
  match r with Ok _ => true | Throw _ => false end.

(** ** Outcome of running a computation on a state. *)

Record out (E S L A : Type) : Type := Out {
  out_res : result E A;
  out_st : S;
  out_log : list L
}.
Arguments Out {E S L A} out_res out_st out_log.
Arguments out_res {E S L A} o.
Arguments out_st {E S L A} o.
Arguments out_log {E S L A} o.

(** A computation of the program: state in, outcome out. *)
Definition ST (E S L A : Type) : Type := S -> out E S L A.

Section Monad.
Context {E S L : Type}.

Definition st_ret {A} (a : A) : ST E S L A := fun s => Out (Ok a) s [].

Definition st_bind {A B} (k : A -> ST E S L B) (m : ST E S L A) : ST E S L B :=
  fun s =>
    match m s with
    | Out (Ok a) s1 l1 =>
        match k a s1 with Out r s2 l2 => Out r s2 (l1 ++ l2) end
    | Out (Throw e) s1 l1 => Out (Throw e) s1 l1
    end.

(** [throw e] *)
Definition st_throw {A} (e : E) : ST E S L A := fun s => Out (Throw e) s [].

(** [try { m } catch (e) { h e }] *)
Definition st_catch {A} (m : ST E S L A) (h : E -> ST E S L A) : ST E S L A :=
  fun s =>
    match m s with
    | Out (Ok a) s1 l1 => Out (Ok a) s1 l1
    | Out (Throw e) s1 l1 =>
        match h e s1 with Out r s2 l2 => Out r s2 (l1 ++ l2) end
    end.

(** A console call. *)
Definition st_log (x : L) : ST E S L unit := fun s => Out (Ok tt) s [x].

(** A call that reads the state and may fail, without changing it. *)
Definition st_read {A} (f : S -> result E A) : ST E S L A :=
  fun s => Out (f s) s [].

(** A call that may change the state or fail; a failed call leaves the
    state as it was. *)
Definition st_update_out {A} (r : result E (A * S)) (s : S) : out E S L A :=
  match r with
  | Ok (a, s') => Out (Ok a) s' []
  | Throw e => Out (Throw e) s []
  end.

Definition st_update {A} (f : S -> result E (A * S)) : ST E S L A :=
  fun s => st_update_out (f s) s.

(** Pointwise equality of computations. *)
Definition st_equiv {A} (m1 m2 : ST E S L A) : Prop := forall s, m1 s = m2 s.
End Monad.

#[export] Instance st_mret {E S L} : MRet (ST E S L) := @st_ret E S L.
#[export] Instance st_mbind {E S L} : MBind (ST E S L) := @st_bind E S L.
#[export] Instance st_Equiv {E S L A} : Equiv (ST E S L A) := @st_equiv E S L A.

(** [for (const x of xs) { ys.push(await f(x)) }]: sequential map. *)
Fixpoint st_mapM {E S L A B} (f : A -> ST E S L B) (xs : list A) : ST E S L (list B) :=
  match xs with
  | [] => mret []
  | x :: xs' => y ← f x; ys ← st_mapM f xs'; mret (y :: ys)
  end.

(** Run a computation on a state of its own, from [t]: its result and
    its final state, with its log kept. *)
Definition st_local {E S T L A} (m : ST E T L A) (t : T) : ST E S L (result E A * T) :=
  fun s => match m t with Out r t' l => Out (Ok (r, t')) s l end.

(** Run a computation and keep only its result. *)
Definition run_res {E S L A} (m : ST E S L A) (s : S) : result E A := out_res (m s).

(** ** Tactics *)

Create HintDb pelagic discriminated.
Create Rewrite HintDb pelagic_rw.

(** Unfold the monad's plumbing so that [simpl] or [cbn] can compute. *)
Ltac st_unfold :=
  unfold mbind, mret, st_mbind, st_mret, st_bind, st_ret, st_throw,
    st_catch, st_log, st_read, st_update, st_update_out in *.

(** Case analysis on the outcome of the computation that blocks reduction. *)
Ltac st_case :=
  match goal with
  | |- context [match ?m ?s with Out _ _ _ => _ end] =>
      let o := fresh "o" in destruct (m s) as [[? | ?] ? ?] eqn:?
  end.

(** ** Monad laws (up to [≡]) and their setoid structure *)

Section Laws.
Context {E S L : Type}.

#[export] Instance st_equiv_Equivalence {A} : Equivalence (≡@{ST E S L A}).
Proof.
  split.
  - by intros m s.
  - intros m1 m2 H s. by rewrite H.
  - intros m1 m2 m3 H1 H2 s. by rewrite H1, H2.
Qed.

#[export] Instance st_bind_Proper {A B} :
  Proper (pointwise_relation A (≡) ==> (≡) ==> (≡@{ST E S L B})) st_bind.
Proof.
  intros k1 k2 Hk m1 m2 Hm s. unfold st_bind. rewrite Hm.
  destruct (m2 s) as [[a | e] s1 l1]; [| done]. by rewrite (Hk a s1).
Qed.

#[export] Instance st_mbind_Proper {A B} :
  Proper (pointwise_relation A (≡) ==> (≡) ==> (≡@{ST E S L B})) (mbind (M := ST E S L)).
Proof. apply st_bind_Proper. Qed.

#[export] Instance st_catch_Proper {A} :
  Proper ((≡) ==> pointwise_relation E (≡) ==> (≡@{ST E S L A})) st_catch.
Proof.
  intros m1 m2 Hm h1 h2 Hh s. unfold st_catch. rewrite Hm.
  destruct (m2 s) as [[a | e] s1 l1]; [done |]. by rewrite (Hh e s1).
Qed.

Lemma st_bind_ret_l {A B} (a : A) (k : A -> ST E S L B) : (mret a ≫= k) ≡ k a.
Proof. intros s. cbv [mbind st_mbind st_bind mret st_mret st_ret]. by destruct (k a s). Qed.

Lemma st_bind_ret_r {A} (m : ST E S L A) : (m ≫= mret) ≡ m.
Proof.
  intros s. cbv [mbind st_mbind st_bind mret st_mret st_ret].
  destruct (m s) as [[a | e] s1 l1]; by rewrite ?app_nil_r.
Qed.

Lemma st_bind_assoc {A B C} (m : ST E S L A) (k1 : A -> ST E S L B)
    (k2 : B -> ST E S L C) :
  ((m ≫= k1) ≫= k2) ≡ (m ≫= (fun a => k1 a ≫= k2)).
Proof.
  intros s. cbv [mbind st_mbind st_bind].
  destruct (m s) as [[a | e] s1 l1]; [| done].
  destruct (k1 a s1) as [[b | e] s2 l2]; [| done].
  destruct (k2 b s2) as [r s3 l3]. by rewrite app_assoc.
Qed.

Lemma st_bind_throw {A B} (e : E) (k : A -> ST E S L B) :
  (st_throw e ≫= k) ≡ st_throw e.
Proof. by intros s. Qed.

Lemma st_catch_ret {A} (a : A) (h : E -> ST E S L A) :
  st_catch (mret a) h ≡ mret a.
Proof. by intros s. Qed.

Lemma st_catch_throw {A} (e : E) (h : E -> ST E S L A) :
  st_catch (st_throw e) h ≡ h e.
Proof. intros s. unfold st_catch, st_throw. by destruct (h e s). Qed.

Lemma st_mapM_ext {A B} (f g : A -> ST E S L B) xs :
  (forall x, f x ≡ g x) -> st_mapM f xs ≡ st_mapM g xs.
Proof.
  intros Hfg. induction xs as [| x xs IH]; simpl; [done |].
  by setoid_rewrite Hfg; setoid_rewrite IH.
Qed.

Lemma st_mapM_map {A B C} (f : B -> ST E S L C) (g : A -> B) xs :
  st_mapM f (map g xs) = st_mapM (f ∘ g) xs.
Proof. induction xs as [| x xs IH]; simpl; [done |]. rewrite IH. reflexivity. Qed.

(** A sequential map over [xs ++ ys] runs [xs], then [ys]. *)
Lemma st_mapM_app {A B} (f : A -> ST E S L B) xs ys :
  st_mapM f (xs ++ ys) ≡ (a ← st_mapM f xs; b ← st_mapM f ys; mret (a ++ b)).
Proof.
  induction xs as [| x xs IH]; simpl.
  - rewrite st_bind_ret_l. symmetry. apply st_bind_ret_r.
  - rewrite st_bind_assoc. apply st_bind_Proper; [intros y | done].
    rewrite IH, !st_bind_assoc. apply st_bind_Proper; [intros a | done].
    rewrite st_bind_assoc, st_bind_ret_l. apply st_bind_Proper; [intros b | done].
    by rewrite st_bind_ret_l.
Qed.
End Laws.

#[export] Hint Rewrite @st_bind_ret_l @st_bind_throw @st_catch_ret
  @st_catch_throw : pelagic_rw.

(** ** Running binds and catches step by step *)

Section Run.
Context {E S L : Type}.

Lemma out_eta {A} (o : out E S L A) : o = Out (out_res o) (out_st o) (out_log o).
Proof. by destruct o. Qed.

Lemma bind_ok {A B} (m : ST E S L A) (k : A -> ST E S L B) s a s1 l1 :
  m s = Out (Ok a) s1 l1 ->
  (m ≫= k) s = Out (out_res (k a s1)) (out_st (k a s1)) (l1 ++ out_log (k a s1)).
Proof. intros Hm. cbv beta delta [mbind st_mbind st_bind]. rewrite Hm. by destruct (k a s1). Qed.

Lemma bind_log {B} (x : L) (k : unit -> ST E S L B) s :
  (st_log x ≫= k) s = Out (out_res (k tt s)) (out_st (k tt s)) (x :: out_log (k tt s)).
Proof. cbv [mbind st_mbind st_bind st_log]. by destruct (k tt s). Qed.

Lemma bind_log_inv {B} (x : L) (k : unit -> ST E S L B) s r s' l :
  (st_log x ≫= k) s = Out r s' l -> exists l', k tt s = Out r s' l' /\ l = x :: l'.
Proof.
  rewrite bind_log. intros [= <- <- <-]. exists (out_log (k tt s)). split; [apply out_eta | done].
Qed.

Lemma bind_ok_nil {A B} (m : ST E S L A) (k : A -> ST E S L B) s a s1 :
  m s = Out (Ok a) s1 [] -> (m ≫= k) s = k a s1.
Proof. intros Hm. rewrite (bind_ok m k s a s1 [] Hm). simpl. apply eq_sym, out_eta. Qed.

Lemma bind_err {A B} (m : ST E S L A) (k : A -> ST E S L B) s e s1 l1 :
  m s = Out (Throw e) s1 l1 -> (m ≫= k) s = Out (Throw e) s1 l1.
Proof. intros Hm. cbv beta delta [mbind st_mbind st_bind]. by rewrite Hm. Qed.

Lemma catch_ok {A} (m : ST E S L A) (h : E -> ST E S L A) s a s1 l1 :
  m s = Out (Ok a) s1 l1 -> st_catch m h s = Out (Ok a) s1 l1.
Proof. intros Hm. unfold st_catch. by rewrite Hm. Qed.

Lemma catch_err {A} (m : ST E S L A) (h : E -> ST E S L A) s e s1 l1 :
  m s = Out (Throw e) s1 l1 ->
  st_catch m h s = Out (out_res (h e s1)) (out_st (h e s1)) (l1 ++ out_log (h e s1)).
Proof. intros Hm. unfold st_catch. rewrite Hm. by destruct (h e s1). Qed.

Lemma bind_ok_inv {A B} (m : ST E S L A) (k : A -> ST E S L B) s b s2 l :
  (m ≫= k) s = Out (Ok b) s2 l ->
  exists a s1 l1 l2, m s = Out (Ok a) s1 l1 /\ k a s1 = Out (Ok b) s2 l2 /\ l = l1 ++ l2.
Proof.
  cbv beta delta [mbind st_mbind st_bind].
  destruct (m s) as [[a | e] s1 l1]; [| done].
  destruct (k a s1) as [r s3 l2] eqn:Ek. intros [= -> -> <-].
  by exists a, s1, l1, l2.
Qed.

(** A [catch] whose handler always rethrows returns only what the
    protected block returns. *)
Lemma catch_ok_rethrow {A} (m : ST E S L A) (h : E -> ST E S L A) s a s' l :
  (forall e s0, is_ok (out_res (h e s0)) = false) ->
  st_catch m h s = Out (Ok a) s' l -> m s = Out (Ok a) s' l.
Proof.
  intros Hh. unfold st_catch. destruct (m s) as [[a' | e] s1 l1]; [done |].
  specialize (Hh e s1). destruct (h e s1) as [[a' | e'] s2 l2]; by simpl in *.
Qed.


(** Name the state and log of an outcome whose result is known. *)
Lemma out_res_eta {A} (o : out E S L A) r : out_res o = r -> o = Out r (out_st o) (out_log o).
Proof. intros <-. apply out_eta. Qed.
End Run.

(** Split a successful bind in hypothesis [H]: [a] is the value of the
    first half and [H1] its run; [H] becomes the run of the rest. *)
Ltac inv_bind H a H1 :=
  let s1 := fresh "s" in let l1 := fresh "l" in let l2 := fresh "l" in
  let Hl := fresh "Hl" in
  apply bind_ok_inv in H as (a & s1 & l1 & l2 & H1 & H & Hl).

(** Step over a bind whose first computation is known to return ([H :
    m s = Out (Ok a) s1 l1]) or to throw. *)
Ltac run_with H := erewrite bind_ok; [| exact H].
Ltac run_nil H := erewrite bind_ok_nil; [| exact H].
Ltac run_nil_in H' H := erewrite bind_ok_nil in H; [| exact H'].
Ltac fail_with H := erewrite bind_err; [| exact H].

(** ** Relating two runs *)

(** Both return related values, or both throw the same error. *)
Definition result_rel {E A B} (R : A -> B -> Prop) (r1 : result E A) (r2 : result E B) : Prop :=
  match r1, r2 with
  | Ok a, Ok b => R a b
  | Throw e1, Throw e2 => e1 = e2
  | _, _ => False
  end.

(** Same final state, same console output, related results. *)
Definition out_rel {E S L A B} (R : A -> B -> Prop) (o1 : out E S L A) (o2 : out E S L B) : Prop :=
  out_st o1 = out_st o2 /\ out_log o1 = out_log o2 /\ result_rel R (out_res o1) (out_res o2).

(** ** State invariants of computations *)

Section Preserves.
Context {E S L : Type}.

(** [m] keeps [P] true of the state, whether it returns or throws. *)
Definition preserves {A} (P : S -> Prop) (m : ST E S L A) : Prop :=
  forall s, P s -> P (out_st (m s)).

(** [m] does not change the state. *)
Definition read_only {A} (m : ST E S L A) : Prop := forall s0, preserves (eq s0) m.

Lemma preserves_ret {A} P (a : A) : preserves P (mret a : ST E S L A).
Proof. by intros s. Qed.

Lemma preserves_throw {A} P e : preserves P (st_throw e : ST E S L A).
Proof. by intros s. Qed.

Lemma preserves_log P x : preserves P (st_log x : ST E S L unit).
Proof. by intros s. Qed.

Lemma preserves_read {A} P (f : S -> result E A) : preserves P (st_read f : ST E S L A).
Proof. by intros s. Qed.

Lemma preserves_bind {A B} P (m : ST E S L A) (k : A -> ST E S L B) :
  preserves P m -> (forall a, preserves P (k a)) -> preserves P (m ≫= k).
Proof.
  intros Hm Hk s Hs. cbv beta delta [mbind st_mbind st_bind].
  specialize (Hm s Hs). destruct (m s) as [[a | e] s1 l1]; simpl in *; [| done].
  specialize (Hk a s1 Hm). by destruct (k a s1).
Qed.

Lemma preserves_catch {A} P (m : ST E S L A) (h : E -> ST E S L A) :
  preserves P m -> (forall e, preserves P (h e)) -> preserves P (st_catch m h).
Proof.
  intros Hm Hh s Hs. unfold st_catch.
  specialize (Hm s Hs). destruct (m s) as [[a | e] s1 l1]; simpl in *; [done |].
  specialize (Hh e s1 Hm). by destruct (h e s1).
Qed.

Lemma preserves_if {A} P (b : bool) (m1 m2 : ST E S L A) :
  preserves P m1 -> preserves P m2 -> preserves P (if b then m1 else m2).
Proof. by destruct b. Qed.

Lemma preserves_mapM {A B} P (f : A -> ST E S L B) xs :
  (forall x, preserves P (f x)) -> preserves P (st_mapM f xs).
Proof. intros Hf. induction xs as [| x xs IH]; simpl; eauto using preserves_bind, preserves_ret. Qed.

Lemma preserves_local {T A} P (m : ST E T L A) (t : T) : preserves P (st_local m t : ST E S L _).
Proof. intros s Hs. unfold st_local. by destruct (m t). Qed.

Lemma read_only_state {A} (m : ST E S L A) s : read_only m -> out_st (m s) = s.
Proof. intros Hm. symmetry. by apply (Hm s s). Qed.

Lemma read_only_out {A} (m : ST E S L A) s r s' l :
  read_only m -> m s = Out r s' l -> s' = s.
Proof. intros Hm Hs. pose proof (read_only_state m s Hm) as Hst. by rewrite Hs in Hst. Qed.

Lemma read_only_preserves {A} P (m : ST E S L A) : read_only m -> preserves P m.
Proof. intros Hm s Hs. by rewrite (read_only_state m s Hm). Qed.
End Preserves.

#[export] Hint Resolve preserves_ret preserves_throw preserves_log preserves_read
  preserves_bind preserves_catch preserves_if preserves_mapM preserves_local
  read_only_preserves : pelagic.

(** ** Finite sequences of transitions *)

Inductive star {A} (R : A -> A -> Prop) : A -> A -> Prop :=
| star_refl a : star R a a
| star_step a b c : R a b -> star R b c -> star R a c.

Lemma star_one {A} (R : A -> A -> Prop) a b : R a b -> star R a b.
Proof. intros H. eapply star_step; [exact H | constructor]. Qed.

Lemma star_trans {A} (R : A -> A -> Prop) a b c : star R a b -> star R b c -> star R a c.
Proof. induction 1; eauto using star. Qed.

(** An invariant of [R] holds along every sequence. *)
Lemma star_invariant {A} (R : A -> A -> Prop) (I : A -> Prop) a b :
  (forall x y, I x -> R x y -> I y) -> I a -> star R a b -> I b.
Proof. intros Hstep Ha Hs. induction Hs; eauto. Qed.

#[export] Hint Constructors star : pelagic.

(** ** Shared list lemmas *)

Lemma Forall_app_iff {A} (P : A -> Prop) (l1 l2 : list A) :
  Forall P (l1 ++ l2) <-> Forall P l1 /\ Forall P l2.
Proof. apply Forall_app. Qed.

#[export] Hint Resolve Forall_nil_2 : pelagic.
