(* ===== verification/JsString.v ===== *)
(** * JsString: the string methods that bootstrap.js calls

    [String.prototype.split] with a one-character separator, [Array.join],
    [String.prototype.includes], the regex replace [s.replace(/\..*$/, '')]
    and [toLowerCase], on Stdlib strings (ASCII; the only line terminators
    are LF and CR).  Each comes with the lemma that characterises it. *)

From stdpp Require Import base list.
From Stdlib Require Import String Ascii.
From S2P Require Import Prelude.

Local Open Scope string_scope.

(** ** [s.split(c)] for a one-character separator [c]. *)
Fixpoint split_on (c : ascii) (s : string) : list string :=
  match s with
  | EmptyString => [EmptyString]
  | String a s' =>
      let parts := split_on c s' in
      if ascii_dec a c then EmptyString :: parts
      else match parts with
           | p :: ps => String a p :: ps
           | [] => [String a EmptyString]
           end
  end.

(** [parts.join(sep)] *)
Fixpoint join_with (sep : string) (l : list string) : string :=
  match l with
  | [] => EmptyString
  | [p] => p
  | p :: ps => p ++ sep ++ join_with sep ps
  end.

(** [c] occurs in [s]. *)
Fixpoint has_char (c : ascii) (s : string) : bool :=
  match s with
  | EmptyString => false
  | String a s' => if ascii_dec a c then true else has_char c s'
  end.

(** [s.includes(sub)] *)
Fixpoint includes (s sub : string) : bool :=
  String.prefix sub s ||
  match s with
  | EmptyString => false
  | String _ s' => includes s' sub
  end.

(** The line terminators that [.] of a JS regex does not match. *)
Definition is_line_terminator (a : ascii) : bool :=
  if ascii_dec a "010"%char then true
  else if ascii_dec a "013"%char then true else false.

Fixpoint no_line_terminator (s : string) : bool :=
  match s with
  | EmptyString => true
  | String a s' => negb (is_line_terminator a) && no_line_terminator s'
  end.

(** [s.replace(/\..*$/, '')]: the leftmost match of [\..*$] starts at the
    first dot after which no line terminator occurs; the match extends to
    the end of the string and is removed. *)
Fixpoint strip_ext (s : string) : string :=
  match s with
  | EmptyString => EmptyString
  | String a s' =>
      if ascii_dec a "." then
        if no_line_terminator s' then EmptyString else String a (strip_ext s')
      else String a (strip_ext s')
  end.

(** [file.split('.').pop()]: the text after the last dot (the whole name
    when there is no dot). *)
Definition last_segment (c : ascii) (s : string) : string :=
  default EmptyString (last (split_on c s)).

Definition ascii_lower (a : ascii) : ascii :=
  let n := nat_of_ascii a in
  if ((65 <=? n) && (n <=? 90))%nat then ascii_of_nat (n + 32)%nat else a.

(** [s.toLowerCase()] *)
Fixpoint to_lower (s : string) : string :=
  match s with
  | EmptyString => EmptyString
  | String a s' => String (ascii_lower a) (to_lower s')
  end.

(** ** Lemmas *)

Lemma split_on_nonempty c s : split_on c s <> [].
Proof.
  induction s as [| a s IH]; simpl; [done |].
  destruct (ascii_dec a c); [done |]. by destruct (split_on c s).
Qed.

(** Joining the pieces of a split with the separator gives the string back. *)
Lemma join_split c s : join_with (String c EmptyString) (split_on c s) = s.
Proof.
  induction s as [| a s IH]; [done |]. cbn [split_on].
  pose proof (split_on_nonempty c s) as Hne.
  destruct (ascii_dec a c) as [-> |];
    destruct (split_on c s) as [| p ps]; try done; rewrite <- IH; by destruct ps.
Qed.

(** No piece of a split contains the separator. *)
Lemma split_on_no_sep c s : Forall (fun p => has_char c p = false) (split_on c s).
Proof.
  induction s as [| a s IH]; simpl; [by repeat constructor |].
  destruct (ascii_dec a c) as [-> | Hne].
  - by constructor.
  - destruct (split_on c s) as [| p ps]; inversion IH; subst; constructor; simpl;
      try destruct (ascii_dec a c); try done; by constructor.
Qed.

(** A string without the separator splits into itself. *)
Lemma split_on_no_char c s : has_char c s = false -> split_on c s = [s].
Proof.
  induction s as [| a s IH]; simpl; [done |].
  destruct (ascii_dec a c); [done |]. intros H. by rewrite IH.
Qed.

Lemma string_app_assoc s t u : (s ++ t ++ u)%string = ((s ++ t) ++ u)%string.
Proof. induction s as [| a s IH]; [done |]. cbv [append] in *. by rewrite IH. Qed.

Lemma append_empty_r s : (s ++ "")%string = s.
Proof. induction s as [| a s IH]; [done |]. cbv [append] in *. by rewrite IH. Qed.

Lemma has_char_app c s t : has_char c (s ++ t) = has_char c s || has_char c t.
Proof.
  induction s as [| a s IH]; [done |].
  change ((String a s ++ t)%string) with (String a (s ++ t)). simpl. by destruct (ascii_dec a c).
Qed.

(** Splitting at a separator between two strings splits each of them. *)
Lemma split_on_sep_app c s t :
  split_on c (s ++ String c t) = (split_on c s ++ split_on c t)%list.
Proof.
  induction s as [| a s IH].
  - change (("" ++ String c t)%string) with (String c t). simpl.
    by destruct (ascii_dec c c).
  - change ((String a s ++ String c t)%string) with (String a (s ++ String c t)).
    simpl. rewrite IH. destruct (ascii_dec a c); [done |].
    pose proof (split_on_nonempty c s) as Hne. by destruct (split_on c s).
Qed.

Lemma split_on_has_char c s : has_char c s = true -> (List.length (split_on c s) >= 2)%nat.
Proof.
  induction s as [| a s IH]; simpl; [done |].
  pose proof (split_on_nonempty c s) as Hne.
  destruct (ascii_dec a c).
  - destruct (split_on c s); simpl; [done | lia].
  - intros H. specialize (IH H). destruct (split_on c s); simpl in *; lia.
Qed.

Lemma prefix_app s t : String.prefix s (s ++ t) = true.
Proof.
  induction s as [| a s IH]; simpl; [by destruct t |].
  destruct (ascii_dec a a); [done | congruence].
Qed.

Lemma prefix_spec s u : String.prefix s u = true -> exists t, u = s ++ t.
Proof.
  revert u. induction s as [| a s IH]; intros u; simpl.
  - intros _. by exists u.
  - destruct u as [| b u]; simpl; [by intros ? |].
    destruct (ascii_dec a b) as [-> |]; [| by intros ?].
    intros H. destruct (IH u H) as [t ->]. by exists t.
Qed.

Lemma includes_prefix s sub : String.prefix sub s = true -> includes s sub = true.
Proof. intros H. destruct s; cbn [includes]; by rewrite H. Qed.

(** [includes] is substring search. *)
Lemma includes_spec s sub :
  includes s sub = true <-> exists a b, s = a ++ sub ++ b.
Proof.
  split.
  - induction s as [| c s IH]; cbn [includes]; intros H.
    + apply orb_true_iff in H as [H | H]; [| done].
      destruct (prefix_spec _ _ H) as [t Ht]. by exists "", t.
    + apply orb_true_iff in H as [H | H].
      * destruct (prefix_spec _ _ H) as [t Ht]. by exists "", t.
      * destruct (IH H) as (a & b & ->). by exists (String c a), b.
  - intros (a & b & ->). induction a as [| c a IH]; cbn [includes append].
    + apply includes_prefix, prefix_app.
    + rewrite IH. apply orb_true_r.
Qed.

Lemma strip_ext_no_dot s : has_char "." s = false -> strip_ext s = s.
Proof.
  induction s as [| a s IH]; simpl; [done |].
  destruct (ascii_dec a "."); [done |]. intros H. by rewrite IH.
Qed.

(** The regex removes everything from the first dot on, when no line
    terminator follows: the name keeps only the text before the first
    dot, not the text before the last one. *)
Lemma strip_ext_first_dot a b :
  has_char "." a = false -> no_line_terminator b = true ->
  strip_ext (a ++ String "." b) = a.
Proof.
  intros Ha Hb. induction a as [| c a IH]; simpl.
  - by rewrite Hb.
  - simpl in Ha. destruct (ascii_dec c "."); [done |]. simpl. by rewrite IH.
Qed.

#[export] Hint Resolve split_on_nonempty split_on_no_sep : pelagic.
#[export] Hint Rewrite join_split : pelagic_rw.
