(* ===== verification/JsValue.v ===== *)
(** * JsValue: the JavaScript values the seed code manipulates

    A value is undefined, null, a boolean, a number (an integer here), a
    string, an array or an object.  Objects are ordered lists of fields, as
    JS keeps string keys in insertion order.  This file gives truthiness
    ([if (x)], [!x]), property reads ([o.k], which throws a [TypeError] on
    undefined and null), object spread ([{...o}]), assignment ([o.k = v]),
    [delete o.k], [Array.isArray], array destructuring ([const [x] = v])
    and [String(v)] for template literals.  Thrown JS errors are
    [JsError name message]. *)

From stdpp Require Import base list sets strings pretty.
From Stdlib Require Import ZArith String.
From S2P Require Import Prelude JsString.

Local Open Scope string_scope.

#[local] Set Warnings "-register-all".
Inductive value : Type :=
| VUndef
| VNull
| VBool (b : bool)
| VNum (n : Z)
| VStr (s : string)
| VArr (xs : list value)
| VObj (fields : list (string * value)).

(** A thrown error object: its [name] ("Error", "TypeError", ...) and
    its [message]. *)
Record js_error : Type := JsError { err_name : string; err_message : string }.

(** [new Error(msg)] *)
Definition mk_error (msg : string) : js_error := JsError "Error" msg.
Definition type_error (msg : string) : js_error := JsError "TypeError" msg.

(** ** Truthiness *)
Definition truthy (v : value) : bool :=
  match v with
  | VUndef | VNull => false
  | VBool b => b
  | VNum n => negb (Z.eqb n 0)
  | VStr s => negb (String.eqb s "")
  | VArr _ | VObj _ => true
  end.

(** [Array.isArray(v)] *)
Definition is_array (v : value) : bool :=
  match v with VArr _ => true | _ => false end.

(** [typeof v === 'string'] *)
Definition as_string (v : value) : option string :=
  match v with VStr s => Some s | _ => None end.

(** [v === s] for a string literal [s]. *)
Definition strict_eq_str (v : value) (s : string) : bool :=
  match v with VStr t => String.eqb t s | _ => false end.

(** ** Objects as ordered field lists *)

Fixpoint field_get (fs : list (string * value)) (k : string) : option value :=
  match fs with
  | [] => None
  | (k', v) :: fs' => if String.eqb k' k then Some v else field_get fs' k
  end.

(** [o.k = v]: overwrite the field in place, or append it. *)
Fixpoint field_set (fs : list (string * value)) (k : string) (v : value)
    : list (string * value) :=
  match fs with
  | [] => [(k, v)]
  | (k', v') :: fs' =>
      if String.eqb k' k then (k', v) :: fs' else (k', v') :: field_set fs' k v
  end.

(** [delete o.k] *)
Definition field_delete (fs : list (string * value)) (k : string) : list (string * value) :=
  List.filter (fun kv => negb (String.eqb kv.1 k)) fs.

(** Keys of a JS object are unique. *)
Definition fields_wf (fs : list (string * value)) : Prop := NoDup (fs.*1).

(** Array-index keys, as [{...array}] produces them. *)
Fixpoint indexed {A} (f : A -> value) (i : nat) (xs : list A) : list (string * value) :=
  match xs with
  | [] => []
  | x :: xs' => (pretty (N.of_nat i), f x) :: indexed f (S i) xs'
  end.

Fixpoint string_chars (s : string) : list string :=
  match s with
  | EmptyString => []
  | String a s' => String a EmptyString :: string_chars s'
  end.

(** [{...v}]: the own enumerable fields of [v]. *)
Definition spread (v : value) : list (string * value) :=
  match v with
  | VObj fs => fs
  | VArr xs => indexed id 0 xs
  | VStr s => indexed VStr 0 (string_chars s)
  | _ => []
  end.

(** [String(v)], as a template literal prints it. *)
Fixpoint to_js_string (v : value) : string :=
  match v with
  | VUndef => "undefined"
  | VNull => "null"
  | VBool true => "true"
  | VBool false => "false"
  | VNum n => if Z.ltb n 0 then "-" ++ pretty (Z.to_N (- n)) else pretty (Z.to_N n)
  | VStr s => s
  | VArr xs =>
      let fix elems (xs : list value) : list string :=
        match xs with
        | [] => []
        | x :: xs' =>
            (match x with VUndef | VNull => "" | _ => to_js_string x end) :: elems xs'
        end in
      join_with "," (elems xs)
  | VObj _ => "[object Object]"
  end.

(** [v.k]: reading a property of undefined or null throws a TypeError. *)
Definition get_prop (v : value) (k : string) : result js_error value :=
  match v with
  | VUndef | VNull =>
      Throw (type_error ("Cannot read properties of " ++ to_js_string v ++
                         " (reading '" ++ k ++ "')"))
  | VObj fs => Ok (default VUndef (field_get fs k))
  | VArr xs => Ok (if String.eqb k "length" then VNum (Z.of_nat (List.length xs)) else VUndef)
  | VStr s => Ok (if String.eqb k "length" then VNum (Z.of_nat (String.length s)) else VUndef)
  | _ => Ok VUndef
  end.

(** [const [x] = v]: the first element of an iterable; a TypeError for
    values that are not iterable. *)
Definition destruct_first (v : value) : result js_error value :=
  match v with
  | VArr (x :: _) => Ok x
  | VArr [] => Ok VUndef
  | VStr (String a _) => Ok (VStr (String a EmptyString))
  | VStr EmptyString => Ok VUndef
  | _ => Throw (type_error (to_js_string v ++ " is not iterable"))
  end.

(** ** Lemmas on fields *)

Lemma field_get_set_eq fs k v : field_get (field_set fs k v) k = Some v.
Proof.
  induction fs as [| [k' v'] fs IH]; simpl; [by rewrite String.eqb_refl |].
  destruct (String.eqb_spec k' k) as [-> |]; simpl.
  - by rewrite String.eqb_refl.
  - by destruct (String.eqb_spec k' k).
Qed.

Lemma field_get_set_ne fs k k' v :
  k <> k' -> field_get (field_set fs k v) k' = field_get fs k'.
Proof.
  intros Hne. induction fs as [| [k0 v0] fs IH]; simpl.
  - by destruct (String.eqb_spec k k').
  - destruct (String.eqb_spec k0 k) as [-> |]; simpl.
    + by destruct (String.eqb_spec k k').
    + by rewrite IH.
Qed.

Lemma field_get_delete_eq fs k : field_get (field_delete fs k) k = None.
Proof.
  induction fs as [| [k' v'] fs IH]; [done |]. unfold field_delete in *. simpl.
  destruct (String.eqb_spec k' k); simpl; [done |].
  by destruct (String.eqb_spec k' k).
Qed.

Lemma field_get_delete_ne fs k k' :
  k <> k' -> field_get (field_delete fs k) k' = field_get fs k'.
Proof.
  intros Hne. induction fs as [| [k0 v0] fs IH]; [done |]. unfold field_delete in *. simpl.
  destruct (String.eqb_spec k0 k) as [-> |]; simpl.
  - rewrite IH. by destruct (String.eqb_spec k k').
  - by rewrite IH.
Qed.

(** Setting a field keeps the key list, or appends the new key. *)
Lemma field_set_keys fs k v :
  (field_set fs k v).*1 = if decide (k ∈ fs.*1) then fs.*1 else (fs.*1 ++ [k])%list.
Proof.
  induction fs as [| [k0 v0] fs IH]; cbn [field_set].
  - case_decide; simpl in *; set_solver.
  - destruct (String.eqb_spec k0 k) as [-> |]; rewrite !fmap_cons; simpl.
    + rewrite decide_True; set_solver.
    + rewrite IH. case_decide; case_decide; set_solver.
Qed.

Lemma field_set_wf fs k v : fields_wf fs -> fields_wf (field_set fs k v).
Proof.
  unfold fields_wf. rewrite field_set_keys. case_decide; [done |].
  intros Hnd. apply NoDup_app. split_and!; [done | | by apply NoDup_singleton].
  set_solver.
Qed.

Lemma field_delete_wf fs k : fields_wf fs -> fields_wf (field_delete fs k).
Proof.
  unfold fields_wf, field_delete. induction fs as [| [k0 v0] fs IH]; simpl; [done |].
  intros Hnd. apply NoDup_cons in Hnd as [Hnin Hnd].
  destruct (String.eqb_spec k0 k); simpl; [by apply IH |].
  apply NoDup_cons. split; [| by apply IH].
  intros Hin. apply Hnin. apply list_elem_of_fmap in Hin as ([k1 v1] & -> & Hin).
  apply list_elem_of_In, filter_In in Hin as [Hin _].
  apply list_elem_of_fmap. exists (k1, v1). split; [done |]. by apply list_elem_of_In.
Qed.

Lemma field_get_in fs k v : field_get fs k = Some v -> k ∈ fs.*1.
Proof.
  induction fs as [| [k' v'] fs IH]; simpl; [done |].
  destruct (String.eqb_spec k' k) as [-> |]; [intros _; by left |].
  intros H. right. by apply IH.
Qed.

(** Assigning an existing key keeps the key list. *)
Lemma field_set_keys_in fs k v : k ∈ fs.*1 -> (field_set fs k v).*1 = fs.*1.
Proof. intros Hk. rewrite field_set_keys. by rewrite decide_True. Qed.

#[export] Hint Resolve field_set_wf field_delete_wf : pelagic.
#[export] Hint Rewrite field_get_set_eq field_get_delete_eq : pelagic_rw.
