(* ===== verification/Platform.v ===== *)
(** * Platform: what the seed code expects from Strapi and Node

    bootstrap.js reaches every collaborator through the global [strapi]
    object and the [fs] module.  This file states that collaborator as an
    interface: the type class [Platform] lists the calls the code makes
    (plugin store get/set, [strapi.query(uid).findOne/create], the upload
    service, the document service, [fs.existsSync], [fs.statSync]), each a
    function of an abstract platform state that may throw, and the event
    loop's [schedule]: the order in which operations started together
    complete, any permutation of their start order.  [PlatformLaws]
    lists what the client theorems assume of them.  Two observers that
    the code never calls, [document_list] and [query_rows], let the
    specifications speak of the documents and rows the calls create.  The
    in-memory implementation of [MemPlatform] discharges the laws.

    The console calls of the code are the [event]s a computation logs. *)

From stdpp Require Import base list.
From Stdlib Require Import ZArith String.
From S2P Require Import Prelude JsString JsValue.

Local Open Scope string_scope.

(** ** Console output *)

Inductive level : Type := LvlLog | LvlWarn | LvlError.

(** One constructor per [console.log/warn/error] call of the sources,
    carrying the data the call prints. *)
Inductive event : Type :=
(* src/src/bootstrap.js *)
| EvSettingUp
| EvBootstrapComplete
| EvImportFailed
| EvErrorObject (e : js_error)
| EvAlreadyImported
| EvPublicRoleMissing
| EvPermissionsConfigured
| EvFileExists (fileName : string)
| EvUploaded (fileName : string)
| EvUploadFailed (filePath : value) (message : string)
| EvEntryCreated (model : string)
| EvEntryFailed (model : string) (message : string)
| EvProcessingHero
| EvProcessingMilan
| EvProcessingFaqs
| EvProcessingOther (component : value)
| EvImportingHomePage
| EvProcessingSeo
| EvProcessingSections (count : value)
| EvProcessingSection (index : Z) (count : value) (component : value)
| EvCreatingHomePage
| EvHomePageCreated
| EvHomePageExists
| EvHomePageExistsWarn
| EvHomePageFailed (e : js_error)
| EvStartingImport
| EvImportComplete
(* src/scripts/seed.js *)
| EvSeedStarting
| EvSeedCompiling
| EvSeedCreatingInstance
| EvSeedRunning
| EvSeedCompleted
| EvSeedDestroying
| EvSeedAllDone
| EvSeedFailed
(* src/config/admin.js *)
| EvPreviewError (uid : string) (e : js_error).

Definition event_level (ev : event) : level :=
  match ev with
  | EvImportFailed | EvErrorObject _ | EvUploadFailed _ _ | EvEntryFailed _ _
  | EvHomePageFailed _ | EvSeedFailed | EvPreviewError _ _ => LvlError
  | EvPublicRoleMissing | EvHomePageExistsWarn => LvlWarn
  | _ => LvlLog
  end.

(** ** The collaborator interface *)

(** [strapi.store({environment, type, name})] with a [key]. *)
Record store_key : Type := StoreKey {
  sk_environment : string; sk_type : string; sk_name : string; sk_key : string
}.

(** The media library's content type. *)
Definition upload_file_uid : string := "plugin::upload.file".

Class Platform (S : Type) : Type := {
  (** [strapi.config.environment] *)
  config_environment : S -> string;
  (** [pluginStore.get({key})]; undefined when unset. *)
  store_get : store_key -> S -> result js_error value;
  (** [pluginStore.set({key, value})] *)
  store_set : store_key -> value -> S -> result js_error S;
  (** [strapi.query(uid).findOne({where})]; null when nothing matches. *)
  query_findOne : string -> list (string * value) -> S -> result js_error value;
  (** [strapi.query(uid).create({data})] *)
  query_create : string -> value -> S -> result js_error (value * S);
  (** [strapi.plugin('upload').service('upload').upload(arg)] *)
  upload_service : value -> S -> result js_error (value * S);
  (** [strapi.documents(uid).create({data})] *)
  documents_create : string -> value -> S -> result js_error (value * S);
  (** [strapi.documents(uid).findOne({documentId})] *)
  documents_findOne : string -> value -> S -> result js_error value;
  (** The documents of a content type, in creation order: an observer for
      the specifications, the code never calls it. *)
  document_list : string -> S -> list value;
  (** The rows of a query table in insertion order, an observer as well. *)
  query_rows : string -> S -> list value;
  (** [fs.existsSync(p)] *)
  fs_exists : string -> S -> bool;
  (** [fs.statSync(p).size] *)
  fs_size : string -> S -> result js_error Z;
  (** The order in which [n] operations started together (numbered in
      start order) complete: the event loop's choice. *)
  schedule : nat -> S -> list nat
}.

(** The name under which an upload argument
    [{files, data: {fileInfo: {name}}}] registers the file. *)
Definition upload_arg_name (arg : value) : option string :=
  match arg with
  | VObj fs =>
      match field_get fs "data" with
      | Some (VObj d) =>
          match field_get d "fileInfo" with
          | Some (VObj fi) => match field_get fi "name" with Some (VStr n) => Some n | _ => None end
          | _ => None
          end
      | _ => None
      end
  | _ => None
  end.

(** The media library has an entry named [n]. *)
Definition file_present {S : Type} `{Platform S} (n : string) (s : S) : Prop :=
  exists e, query_findOne upload_file_uid [("name", VStr n)] s = Ok e /\ truthy e = true.

(** What the client theorems assume of the platform. *)
Class PlatformLaws (S : Type) `{Platform S} : Prop := {
  (** A read after a write never returns a stale value (it may throw). *)
  store_get_set k v s s' v' :
    store_set k v s = Ok s' -> store_get k s' = Ok v' -> v' = v;
  (** Writing the plugin store does not change the configuration. *)
  store_set_env k v s s' :
    store_set k v s = Ok s' -> config_environment s' = config_environment s;
  (** An upload registers the file under the name of its [fileInfo]. *)
  upload_registers arg n s r s' :
    upload_service arg s = Ok (r, s') -> upload_arg_name arg = Some n ->
    file_present n s';
  (** Uploads do not remove media library entries. *)
  upload_keeps_files arg n s r s' :
    upload_service arg s = Ok (r, s') -> file_present n s -> file_present n s';
  (** Uploads, query creations and document creations leave the plugin
      store alone. *)
  upload_store arg s r s' k :
    upload_service arg s = Ok (r, s') -> store_get k s' = store_get k s;
  query_create_store uid d s r s' k :
    query_create uid d s = Ok (r, s') -> store_get k s' = store_get k s;
  documents_create_store uid d s r s' k :
    documents_create uid d s = Ok (r, s') -> store_get k s' = store_get k s;
  (** A document creation stores the document it returns (for a single
      type it may replace the existing one: bootstrap.js, line 304);
      uploads, query creations and plugin store writes leave the
      documents alone. *)
  documents_create_stores uid d s r s' :
    documents_create uid d s = Ok (r, s') -> r ∈ document_list uid s';
  upload_documents arg s r s' uid :
    upload_service arg s = Ok (r, s') -> document_list uid s' = document_list uid s;
  query_create_documents uid' d s r s' uid :
    query_create uid' d s = Ok (r, s') -> document_list uid s' = document_list uid s;
  store_set_documents k v s s' uid :
    store_set k v s = Ok s' -> document_list uid s' = document_list uid s;
  (** A query creation appends one row, the data with a fresh [id] first,
      to its own table; the other calls leave the query tables alone
      (uploads apart, which write the media library's table). *)
  query_create_rows uid d s r s' :
    query_create uid d s = Ok (r, s') -> query_rows uid s' = (query_rows uid s ++ [r])%list;
  query_create_row uid d s r s' :
    query_create uid d s = Ok (r, s') -> exists id, r = VObj (("id", id) :: spread d);
  query_create_rows_ne uid d s r s' uid' :
    query_create uid d s = Ok (r, s') -> uid' <> uid -> query_rows uid' s' = query_rows uid' s;
  upload_rows arg s r s' uid :
    upload_service arg s = Ok (r, s') -> uid <> upload_file_uid -> query_rows uid s' = query_rows uid s;
  documents_create_rows uid' d s r s' uid :
    documents_create uid' d s = Ok (r, s') -> query_rows uid s' = query_rows uid s;
  store_set_rows k v s s' uid :
    store_set k v s = Ok s' -> query_rows uid s' = query_rows uid s;
  (** The configuration does not change while the server runs. *)
  upload_env arg s r s' :
    upload_service arg s = Ok (r, s') -> config_environment s' = config_environment s;
  query_create_env uid d s r s' :
    query_create uid d s = Ok (r, s') -> config_environment s' = config_environment s;
  documents_create_env uid d s r s' :
    documents_create uid d s = Ok (r, s') -> config_environment s' = config_environment s;
  (** Every operation started completes exactly once. *)
  schedule_perm n s : schedule n s ≡ₚ seq 0 n
}.

(** ** Platform calls as computations *)

(** The computations of the seed code: errors are JS errors, the log is
    the console. *)
Abbreviation M S := (ST js_error S event).

Section Calls.
Context {S : Type} `{Platform S}.

Definition c_store_get (k : store_key) : M S value := st_read (store_get k).
Definition c_store_set (k : store_key) (v : value) : M S unit :=
  st_update (fun s => result_map (fun s' => (tt, s')) (store_set k v s)).
Definition c_findOne (uid : string) (wh : list (string * value)) : M S value :=
  st_read (query_findOne uid wh).
Definition c_query_create (uid : string) (d : value) : M S value :=
  st_update (query_create uid d).
Definition c_upload (arg : value) : M S value := st_update (upload_service arg).
Definition c_documents_create (uid : string) (d : value) : M S value :=
  st_update (documents_create uid d).
Definition c_documents_findOne (uid : string) (id : value) : M S value :=
  st_read (documents_findOne uid id).
Definition c_exists (p : string) : M S bool := st_read (fun s => Ok (fs_exists p s)).
Definition c_size (p : string) : M S Z := st_read (fs_size p).
Definition c_config_environment : M S string :=
  st_read (fun s => Ok (config_environment s)).

(** The completion order of [n] operations started together. *)
Definition c_schedule (n : nat) : M S (list nat) := st_read (fun s => Ok (schedule n s)).
End Calls.

(** A JS step that may throw, without effect, on any state. *)
Definition lift {S A} (r : result js_error A) : M S A := st_read (fun _ => r).

Lemma lift_Ok_bind {S A B} (a : A) (k : A -> M S B) : (lift (Ok a) ≫= k) ≡ k a.
Proof. intros s. cbv [lift mbind st_mbind st_bind st_read]. by destruct (k a s). Qed.

Lemma lift_Throw_bind {S A B} (e : js_error) (k : A -> M S B) :
  (lift (Throw e) ≫= k) ≡ st_throw e.
Proof. by intros s. Qed.

#[export] Hint Rewrite @lift_Ok_bind @lift_Throw_bind : pelagic_rw.

Section ReadOnly.
Context {S : Type} `{Platform S}.

Lemma c_store_get_preserves (P : S -> Prop) k : preserves P (c_store_get k).
Proof. apply preserves_read. Qed.
Lemma c_findOne_preserves (P : S -> Prop) uid wh : preserves P (c_findOne uid wh).
Proof. apply preserves_read. Qed.
Lemma c_documents_findOne_preserves (P : S -> Prop) uid id : preserves P (c_documents_findOne uid id).
Proof. apply preserves_read. Qed.
Lemma c_exists_preserves (P : S -> Prop) p : preserves P (c_exists p).
Proof. apply preserves_read. Qed.
Lemma c_size_preserves (P : S -> Prop) p : preserves P (c_size p).
Proof. apply preserves_read. Qed.
Lemma c_config_environment_preserves (P : S -> Prop) : preserves P c_config_environment.
Proof. apply preserves_read. Qed.
Lemma c_schedule_preserves (P : S -> Prop) n : preserves P (c_schedule n).
Proof. apply preserves_read. Qed.
Lemma lift_preserves {A} (P : S -> Prop) (r : result js_error A) : preserves P (lift r).
Proof. apply preserves_read. Qed.
End ReadOnly.

(** A property of the platform state that uploads keep. *)
Definition upload_stable {S : Type} `{Platform S} (P : S -> Prop) : Prop :=
  forall arg s r s', upload_service arg s = Ok (r, s') -> P s -> P s'.

Lemma c_upload_preserves {S : Type} `{Platform S} (P : S -> Prop) arg :
  upload_stable P -> preserves P (c_upload arg).
Proof.
  intros HP s Hs. unfold c_upload, st_update.
  destruct (upload_service arg s) as [[r s'] | e] eqn:E; simpl; [| done].
  by eapply HP.
Qed.

(** A property that uploads and document creations keep. *)
Definition doc_stable {S : Type} `{Platform S} (P : S -> Prop) : Prop :=
  upload_stable P /\
  (forall uid d s r s', documents_create uid d s = Ok (r, s') -> P s -> P s').

(** A property of the platform state that every creation keeps. *)
Definition create_stable {S : Type} `{Platform S} (P : S -> Prop) : Prop :=
  doc_stable P /\ (forall uid d s r s', query_create uid d s = Ok (r, s') -> P s -> P s').

Lemma doc_upload_stable {S : Type} `{Platform S} (P : S -> Prop) :
  doc_stable P -> upload_stable P.
Proof. by intros [? _]. Qed.

Lemma create_doc_stable {S : Type} `{Platform S} (P : S -> Prop) :
  create_stable P -> doc_stable P.
Proof. by intros [? _]. Qed.

Lemma c_query_create_preserves {S : Type} `{Platform S} (P : S -> Prop) uid d :
  create_stable P -> preserves P (c_query_create uid d).
Proof.
  intros (_ & HP) s Hs. unfold c_query_create, st_update.
  destruct (query_create uid d s) as [[r s'] | e] eqn:E; simpl; [| done].
  by eapply HP.
Qed.

Lemma c_documents_create_preserves {S : Type} `{Platform S} (P : S -> Prop) uid d :
  doc_stable P -> preserves P (c_documents_create uid d).
Proof.
  intros (_ & HP) s Hs. unfold c_documents_create, st_update.
  destruct (documents_create uid d s) as [[r s'] | e] eqn:E; simpl; [| done].
  by eapply HP.
Qed.

#[export] Hint Resolve c_upload_preserves doc_upload_stable create_doc_stable c_query_create_preserves
  c_documents_create_preserves : pelagic.

#[export] Hint Resolve c_store_get_preserves c_findOne_preserves
  c_documents_findOne_preserves c_exists_preserves c_size_preserves
  c_config_environment_preserves c_schedule_preserves lift_preserves : pelagic.

(** Prove [preserves P m] by following the structure of [m]. *)
Ltac solve_preserves :=
  repeat match goal with
  | |- read_only _ => intros ?
  | |- forall _, _ => intros ?
  | |- preserves _ (match ?x with _ => _ end) => destruct x
  | |- preserves _ (let _ := _ in _) => cbv zeta
  | |- preserves _ (if _ then _ else _) => apply preserves_if
  | |- preserves _ (mbind _ _) => apply preserves_bind
  | |- preserves _ (st_catch _ _) => apply preserves_catch
  | |- _ => progress (eauto with pelagic)
  end.

(** Unfold the calls and the monad so that a computation on concrete
    inputs reduces. *)
Ltac calls_unfold :=
  unfold c_store_get, c_store_set, c_findOne, c_query_create, c_upload,
    c_documents_create, c_documents_findOne, c_exists, c_size,
    c_config_environment, c_schedule, lift in *; st_unfold.
