(* ===== verification/MemPlatform.v ===== *)
(** * MemPlatform: an in-memory Strapi satisfying the interface

    A concrete [Platform] instance: the plugin store and the file system
    are stdpp finite maps, every content type ([strapi.query(uid)] and
    [strapi.documents(uid)]) is a table of rows in insertion order, ids
    come from a counter, and a list of [fault]s makes chosen calls throw.
    [mem_laws] proves that it satisfies [PlatformLaws]; the witnesses of
    the client theorems run on it.  The filters of [findOne] compare
    string fields, which is all the seed code asks. *)

From stdpp Require Import base list gmap strings pretty.
From Stdlib Require Import ZArith String.
From S2P Require Import Prelude JsString JsValue Platform.

Local Open Scope string_scope.
Local Open Scope list_scope.

(** Calls that the test platform makes throw. *)
Inductive fault : Type :=
| FailStoreGet (msg : string)
| FailStoreSet (msg : string)
| FailQueryCreate (uid : string) (msg : string)
| FailUpload (name : string) (msg : string)
| FailDocumentCreate (uid : string) (msg : string).

Record mem : Type := Mem {
  m_env : string;
  m_store : gmap (string * string * string * string) value;
  m_tables : gmap string (list value);
  m_docs : gmap string (list value);
  m_fs : gmap string Z;
  m_next_id : Z;
  m_faults : list fault
}.

Definition sk_tuple (k : store_key) : string * string * string * string :=
  (sk_environment k, sk_type k, sk_name k, sk_key k).

Definition find_fault {A} (f : fault -> option A) (m : mem) : option A :=
  head (omap f (m_faults m)).

(** A row matches a [where] filter when every filtered field holds the
    same string. *)
Definition row_matches (wh : list (string * value)) (row : value) : bool :=
  match row with
  | VObj fs =>
      forallb (fun '(k, v) =>
        match field_get fs k, v with
        | Some (VStr a), VStr b => String.eqb a b
        | _, _ => false
        end) wh
  | _ => false
  end.

Fixpoint find_row (wh : list (string * value)) (rows : list value) : value :=
  match rows with
  | [] => VNull
  | r :: rows' => if row_matches wh r then r else find_row wh rows'
  end.

Definition table (m : mem) (uid : string) : list value := default [] (m_tables m !! uid).

Definition with_tables (m : mem) (t : gmap string (list value)) (next : Z) : mem :=
  Mem (m_env m) (m_store m) t (m_docs m) (m_fs m) next (m_faults m).

(** Append a row with a fresh [id] to a table. *)
Definition insert_row (uid : string) (fields : list (string * value)) (m : mem) : value * mem :=
  let row := VObj (("id", VNum (m_next_id m)) :: fields) in
  (row, with_tables m (<[uid := table m uid ++ [row]]> (m_tables m)) (m_next_id m + 1)).

Definition mem_store_get (k : store_key) (m : mem) : result js_error value :=
  match find_fault (fun f => match f with FailStoreGet msg => Some msg | _ => None end) m with
  | Some msg => Throw (mk_error msg)
  | None => Ok (default VUndef (m_store m !! sk_tuple k))
  end.

Definition mem_store_set (k : store_key) (v : value) (m : mem) : result js_error mem :=
  match find_fault (fun f => match f with FailStoreSet msg => Some msg | _ => None end) m with
  | Some msg => Throw (mk_error msg)
  | None => Ok (Mem (m_env m) (<[sk_tuple k := v]> (m_store m)) (m_tables m) (m_docs m)
                   (m_fs m) (m_next_id m) (m_faults m))
  end.

Definition mem_findOne (uid : string) (wh : list (string * value)) (m : mem)
    : result js_error value :=
  Ok (find_row wh (table m uid)).

Definition mem_query_create (uid : string) (d : value) (m : mem)
    : result js_error (value * mem) :=
  match find_fault (fun f => match f with
                             | FailQueryCreate u msg => if String.eqb u uid then Some msg else None
                             | _ => None end) m with
  | Some msg => Throw (mk_error msg)
  | None => Ok (insert_row uid (spread d) m)
  end.

(** The upload service stores the file entity under its [fileInfo] name
    and returns the array of stored entities. *)
Definition mem_upload (arg : value) (m : mem) : result js_error (value * mem) :=
  match upload_arg_name arg with
  | None => Throw (mk_error "ValidationError: missing file name")
  | Some n =>
      match find_fault (fun f => match f with
                                 | FailUpload u msg => if String.eqb u n then Some msg else None
                                 | _ => None end) m with
      | Some msg => Throw (mk_error msg)
      | None =>
          let '(row, m') := insert_row upload_file_uid [("name", VStr n)] m in
          Ok (VArr [row], m')
      end
  end.

Definition mem_documents_create (uid : string) (d : value) (m : mem)
    : result js_error (value * mem) :=
  match find_fault (fun f => match f with
                             | FailDocumentCreate u msg => if String.eqb u uid then Some msg else None
                             | _ => None end) m with
  | Some msg => Throw (mk_error msg)
  | None =>
      let row := VObj (("documentId", VStr (pretty (Z.to_N (m_next_id m)))) :: spread d) in
      Ok (row, Mem (m_env m) (m_store m) (m_tables m)
                   (<[uid := default [] (m_docs m !! uid) ++ [row]]> (m_docs m))
                   (m_fs m) (m_next_id m + 1) (m_faults m))
  end.

Definition mem_documents_findOne (uid : string) (id : value) (m : mem) : result js_error value :=
  Ok (find_row [("documentId", id)] (default [] (m_docs m !! uid))).

Definition mem_fs_size (p : string) (m : mem) : result js_error Z :=
  match m_fs m !! p with
  | Some n => Ok n
  | None => Throw (mk_error ("ENOENT: no such file or directory, stat '" ++ p ++ "'"))
  end.

#[export] Instance mem_platform : Platform mem := {
  config_environment := m_env;
  store_get := mem_store_get;
  store_set := mem_store_set;
  query_findOne := mem_findOne;
  query_create := mem_query_create;
  upload_service := mem_upload;
  documents_create := mem_documents_create;
  documents_findOne := mem_documents_findOne;
  document_list uid m := default [] (m_docs m !! uid);
  query_rows uid m := table m uid;
  fs_exists p m := bool_decide (is_Some (m_fs m !! p));
  fs_size := mem_fs_size;
  (** A single connection: operations complete in the order they start. *)
  schedule n _ := seq 0 n
}.

(** ** The laws *)

Definition ok_or {E A} (d : A) (r : result E A) : A :=
  match r with Ok a => a | Throw _ => d end.

Lemma row_matches_name n fs :
  row_matches [("name", VStr n)] (VObj (("id", fs) :: [("name", VStr n)])) = true.
Proof. simpl. by rewrite String.eqb_refl. Qed.

Lemma find_row_truthy wh rows :
  (exists r, r ∈ rows /\ row_matches wh r = true) -> truthy (find_row wh rows) = true.
Proof.
  intros (r & Hin & Hm). induction rows as [| r' rows IH]; [set_solver |].
  simpl. destruct (row_matches wh r') eqn:E.
  - by destruct r'.
  - apply IH. apply elem_of_cons in Hin as [-> | Hin]; [congruence | done].
Qed.

Lemma find_row_present wh rows :
  truthy (find_row wh rows) = true -> exists r, r ∈ rows /\ row_matches wh r = true.
Proof.
  induction rows as [| r rows IH]; simpl; [done |].
  destruct (row_matches wh r) eqn:E.
  - intros _. exists r. split; [set_solver | done].
  - intros H. destruct (IH H) as (r' & ? & ?). exists r'. split; [set_solver | done].
Qed.

Lemma file_present_mem n (m : mem) :
  file_present n m <-> exists r, r ∈ table m upload_file_uid /\ row_matches [("name", VStr n)] r = true.
Proof.
  unfold file_present. simpl. unfold mem_findOne. split.
  - intros (e & [= <-] & Ht). by apply find_row_present.
  - intros H. eexists. split; [done |]. by apply find_row_truthy.
Qed.

Lemma table_insert_row uid fields m uid' :
  table (insert_row uid fields m).2 uid' =
  if String.eqb uid uid' then table m uid ++ [(insert_row uid fields m).1] else table m uid'.
Proof.
  unfold table, insert_row. simpl. destruct (String.eqb_spec uid uid') as [-> |].
  - by rewrite lookup_insert_eq.
  - by rewrite lookup_insert_ne.
Qed.

Lemma mem_upload_ok arg m r m' :
  mem_upload arg m = Ok (r, m') ->
  exists n, upload_arg_name arg = Some n /\ m' = (insert_row upload_file_uid [("name", VStr n)] m).2.
Proof.
  unfold mem_upload. destruct (upload_arg_name arg) as [n |]; [| done].
  destruct (find_fault _ m); [done |]. intros [= _ <-]. by exists n.
Qed.

#[export] Instance mem_laws : PlatformLaws mem.
Proof.
  split.
  - intros k v m m' v'. simpl. unfold mem_store_set, mem_store_get.
    intros H1 H2. repeat case_match; simplify_eq/=.
    by rewrite lookup_insert_eq.
  - intros k v m m'. simpl. unfold mem_store_set. case_match; [done |]. by intros [= <-].
  - intros arg n m r m' Hup Hn. apply mem_upload_ok in Hup as (n' & Hn' & ->).
    rewrite Hn in Hn'. injection Hn' as <-. apply file_present_mem.
    rewrite table_insert_row, String.eqb_refl. eexists. split.
    + apply elem_of_app. right. by apply list_elem_of_singleton.
    + apply row_matches_name.
  - intros arg n m r m' Hup Hp. apply mem_upload_ok in Hup as (n' & _ & ->).
    apply file_present_mem in Hp as (row & Hin & Hm). apply file_present_mem.
    rewrite table_insert_row, String.eqb_refl. exists row. split; [set_solver | done].
  - intros arg m r m' k Hup. apply mem_upload_ok in Hup as (n & _ & ->). done.
  - intros uid d m r m' k. simpl. unfold mem_query_create.
    destruct (find_fault _ m); [done |]. by intros [= _ <-].
  - intros uid d m r m' k. simpl. unfold mem_documents_create.
    destruct (find_fault _ m); [done |]. by intros [= _ <-].
  - intros uid d m r m'. simpl. unfold mem_documents_create.
    destruct (find_fault _ m); [done |]. intros [= <- <-]. simpl.
    rewrite lookup_insert_eq. simpl. apply elem_of_app. right. by apply list_elem_of_singleton.
  - intros arg m r m' uid Hup. by apply mem_upload_ok in Hup as (n & _ & ->).
  - intros uid' d m r m' uid. simpl. unfold mem_query_create.
    destruct (find_fault _ m); [done |]. by intros [= _ <-].
  - intros k v m m' uid. simpl. unfold mem_store_set. case_match; [done |]. by intros [= <-].
  - intros uid d m r m'. simpl. unfold mem_query_create.
    destruct (find_fault _ m); [done |]. intros Hq%(f_equal (ok_or (r, m'))).
    cbn [ok_or] in Hq. replace m' with (insert_row uid (spread d) m).2 by by rewrite Hq.
    replace r with (insert_row uid (spread d) m).1 by by rewrite Hq.
    by rewrite table_insert_row, String.eqb_refl.
  - intros uid d m r m'. simpl. unfold mem_query_create.
    destruct (find_fault _ m); [done |]. intros [= <- _]. by eexists.
  - intros uid d m r m' uid'. simpl. unfold mem_query_create.
    destruct (find_fault _ m); [done |]. intros Hq%(f_equal (ok_or (r, m'))) Hne.
    cbn [ok_or] in Hq. replace m' with (insert_row uid (spread d) m).2 by by rewrite Hq.
    rewrite table_insert_row. by destruct (String.eqb_spec uid uid').
  - intros arg m r m' uid Hup Hne. apply mem_upload_ok in Hup as (n & _ & ->).
    cbn [query_rows mem_platform]. rewrite table_insert_row. by destruct (String.eqb_spec upload_file_uid uid).
  - intros uid' d m r m' uid. simpl. unfold mem_documents_create.
    destruct (find_fault _ m); [done |]. by intros [= _ <-].
  - intros k v m m' uid. simpl. unfold mem_store_set. case_match; [done |]. by intros [= <-].
  - intros arg m r m' Hup. by apply mem_upload_ok in Hup as (n & _ & ->).
  - intros uid d m r m'. simpl. unfold mem_query_create.
    destruct (find_fault _ m); [done |]. intros Hq%(f_equal (ok_or (r, m'))).
    cbn [ok_or] in Hq. by replace m' with (insert_row uid (spread d) m).2 by by rewrite Hq.
  - intros uid d m r m'. simpl. unfold mem_documents_create.
    destruct (find_fault _ m); [done |]. by intros [= _ <-].
  - done.
Qed.

(** An empty platform with the given files on disk. *)
Definition mem_init (files : list (string * Z)) : mem :=
  Mem "development" ∅ ∅ ∅ (list_to_map files) 1 [].

Definition with_faults (m : mem) (fs : list fault) : mem :=
  Mem (m_env m) (m_store m) (m_tables m) (m_docs m) (m_fs m) (m_next_id m) fs.

(** ** Sample platforms for the witnesses *)

(** Two hero images on disk, an empty media library. *)
Definition demo_files : list (string * Z) :=
  [("data/uploads/hero/a.jpg", 10%Z); ("data/uploads/hero/b.jpg", 20%Z)].

Definition demo0 : mem := mem_init demo_files.

(** The same, with [b] already in the media library (entity id 1). *)
Definition demo_b : mem := (insert_row upload_file_uid [("name", VStr "b")] demo0).2.
