(* ===== verification/UriCodec.v ===== *)
(** * UriCodec: [encodeURIComponent] and [decodeURIComponent]

    The percent-encoding that src/config/admin.js applies to the preview
    path (line 76), modelled from ECMA-262: a string is the sequence of
    its UTF-8 bytes, the unreserved characters [A-Z a-z 0-9 - _ . ! ~ * '
    ( )] are kept and every other byte becomes [%HH] with upper-case hex
    digits.  (JS strings are UTF-16; for well-formed text the UTF-8 bytes
    of a code point are exactly what [encodeURIComponent] percent-encodes,
    and lone surrogates, which make it throw, have no UTF-8 form.)
    [percent_decode] is the URL standard's percent-decoding, which the
    front end's [URLSearchParams] applies: '%' and two hex digits of
    either case give a byte, any other '%' is kept.

    The theorems: decoding an encoding gives the string back, and an
    encoding only holds unreserved characters, '%' and hex digits, so it
    never holds a query separator, a fragment mark or a tab. *)

From stdpp Require Import base list.
From Stdlib Require Import ZArith NArith String Ascii Lia.
From S2P Require Import Prelude JsString.

Local Open Scope string_scope.
Local Open Scope list_scope.

(** The characters [encodeURIComponent] leaves alone. *)
Definition is_unreserved (c : ascii) : bool :=
  let n := N_of_ascii c in
  ((65 <=? n) && (n <=? 90))%N || ((97 <=? n) && (n <=? 122))%N ||
  ((48 <=? n) && (n <=? 57))%N ||
  has_char c "-_.!~*'()".

(** The hex digit of a number below 16, upper case. *)
Definition hex_digit (n : N) : ascii :=
  if (n <? 10)%N then ascii_of_N (48 + n) else ascii_of_N (55 + n).

(** The value of a hex digit of either case. *)
Definition hex_value (c : ascii) : option N :=
  let n := N_of_ascii c in
  if ((48 <=? n) && (n <=? 57))%N then Some (n - 48)%N
  else if ((65 <=? n) && (n <=? 70))%N then Some (n - 55)%N
  else if ((97 <=? n) && (n <=? 102))%N then Some (n - 87)%N
  else None.

(** [%HH] for one byte. *)
Definition percent_byte (c : ascii) : string :=
  String "%" (String (hex_digit (N_of_ascii c / 16)) (String (hex_digit (N_of_ascii c mod 16)) EmptyString)).

(** [encodeURIComponent(s)] *)
Fixpoint encodeURIComponent (s : string) : string :=
  match s with
  | EmptyString => EmptyString
  | String c s' =>
      if is_unreserved c then String c (encodeURIComponent s')
      else percent_byte c ++ encodeURIComponent s'
  end.

(** The URL standard's percent-decoding of a byte sequence. *)
Fixpoint percent_decode (s : string) : string :=
  match s with
  | EmptyString => EmptyString
  | String "%" ((String h1 (String h2 s')) as rest) =>
      match hex_value h1, hex_value h2 with
      | Some v1, Some v2 => String (ascii_of_N (16 * v1 + v2)%N) (percent_decode s')
      | _, _ => String "%" (percent_decode rest)
      end
  | String c s' => String c (percent_decode s')
  end.

(** The characters an encoding is made of. *)
Definition uri_char (c : ascii) : bool :=
  is_unreserved c || Ascii.eqb c "%"%char || bool_decide (is_Some (hex_value c)).

Fixpoint string_forall (p : ascii -> bool) (s : string) : bool :=
  match s with
  | EmptyString => true
  | String c s' => p c && string_forall p s'
  end.

(** ** Lemmas *)

Lemma hex_value_digit n : (n < 16)%N -> hex_value (hex_digit n) = Some n.
Proof.
  intros Hn. rewrite <- (N2Nat.id n). assert (Hm : (N.to_nat n < 16)%nat) by lia.
  generalize (N.to_nat n) Hm. clear. intros m Hm.
  do 16 (destruct m as [| m]; [reflexivity |]). lia.
Qed.

Lemma hex_digit_uri n : (n < 16)%N -> uri_char (hex_digit n) = true.
Proof.
  intros Hn. unfold uri_char. rewrite (hex_value_digit n Hn). by rewrite !orb_true_r.
Qed.

Lemma N_of_ascii_lt c : (N_of_ascii c < 256)%N.
Proof. destruct c as [[] [] [] [] [] [] [] []]; cbv; done. Qed.

Lemma percent_byte_decode c s :
  percent_decode (percent_byte c ++ s) = String c (percent_decode s).
Proof.
  pose proof (N_of_ascii_lt c) as Hc.
  assert (H1 : (N_of_ascii c / 16 < 16)%N) by (apply N.Div0.div_lt_upper_bound; lia).
  assert (H2 : (N_of_ascii c mod 16 < 16)%N) by (apply N.mod_lt; lia).
  unfold percent_byte. simpl. rewrite !hex_value_digit by done.
  by rewrite <- N.div_mod', ascii_N_embedding.
Qed.

Lemma decode_cons c s :
  c <> "%"%char -> percent_decode (String c s) = String c (percent_decode s).
Proof.
  intros Hc. destruct c as [[] [] [] [] [] [] [] []]; try done.
Qed.

Lemma unreserved_not_percent c : is_unreserved c = true -> c <> "%"%char.
Proof. by intros Hu ->. Qed.

Lemma string_forall_app p s t :
  string_forall p (s ++ t) = string_forall p s && string_forall p t.
Proof. induction s as [| c s IH]; simpl; [done |]. by rewrite IH, andb_assoc. Qed.

Lemma string_forall_has_char p c s :
  string_forall p s = true -> p c = false -> has_char c s = false.
Proof.
  induction s as [| a s IH]; simpl; [done |].
  intros [Ha Hs]%andb_prop Hc. destruct (ascii_dec a c) as [-> |]; [congruence |]. by apply IH.
Qed.

(** ** Theorems *)

(** Percent-decoding inverts [encodeURIComponent]. *)
Lemma uri_roundtrip s : percent_decode (encodeURIComponent s) = s.
Proof.
  induction s as [| c s IH]; simpl; [done |].
  destruct (is_unreserved c) eqn:Hu.
  - rewrite decode_cons by (by apply unreserved_not_percent). by rewrite IH.
  - rewrite <- IH at 2. apply percent_byte_decode.
Qed.

(** An encoding is made of unreserved characters, '%' and hex digits. *)
Lemma encode_uri_chars s : string_forall uri_char (encodeURIComponent s) = true.
Proof.
  induction s as [| c s IH]; simpl; [done |].
  destruct (is_unreserved c) eqn:Hu; simpl.
  - by rewrite IH, andb_true_r; unfold uri_char; rewrite Hu.
  - pose proof (N_of_ascii_lt c) as Hc.
    rewrite !hex_digit_uri, IH; [done | apply N.mod_lt; lia | apply N.Div0.div_lt_upper_bound; lia].
Qed.

(** So an encoding never holds a character that is not one of them, such
    as the query separators '&', '=', '#' and '?'. *)
Lemma encode_no_char c s : uri_char c = false -> has_char c (encodeURIComponent s) = false.
Proof. intros Hc. apply (string_forall_has_char uri_char); [apply encode_uri_chars | done]. Qed.
