(* ===== verification/Media.v ===== *)
(** * Media: the media uploader

    Models [uploadFile] and [checkFileExistsBeforeUpload] of
    src/src/bootstrap.js (lines 131-191).  The uploader takes a path or an
    array of paths, skips falsy entries, derives each entry's asset name
    (the file name with [/\..*$/] removed), reuses a media library entry
    with that name or uploads the file, and returns the entries found
    followed by the entries uploaded, unwrapped when there is exactly one.

    The theorems are proved against the laws of [Platform]: deduplication
    by name (no upload, no state change, when every name is present), the
    refinement of an in-order loop up to permutation (the reordering),
    the postcondition that every name is present afterwards, idempotence,
    and the error paths (an invalid path throws before the [try]; a failed
    entry keeps the uploads of the entries before it). *)

From stdpp Require Import base list.
From Stdlib Require Import ZArith String Ascii.
From S2P Require Import Prelude JsString JsValue Platform MemPlatform FileResolver.

Local Open Scope string_scope.
Local Open Scope list_scope.

(** [fileName.replace(/\..*$/, '')] of the file part of a path. *)
Definition media_name (fileName : string) : string := strip_ext fileName.

(** [Array.isArray(filePaths) ? filePaths : [filePaths]] *)
Definition files_array (filePaths : value) : list value :=
  match filePaths with VArr xs => xs | v => [v] end.

(** [allFiles.length === 1 ? allFiles[0] : allFiles] *)
Definition unwrap_single (allFiles : list value) : value :=
  match allFiles with [f] => f | _ => VArr allFiles end.

(** The argument of the upload service for a file descriptor and a name. *)
Definition upload_arg (file : value) (name : string) : value :=
  VObj [("files", file);
        ("data", VObj [("fileInfo", VObj [("alternativeText", VStr ("Uploaded media file: " ++ name));
                                          ("caption", VStr name);
                                          ("name", VStr name)])])].

Section Uploader.
Context {S : Type} `{Platform S}.

(** [uploadFile(file, name)] *)
Definition uploadFile (file : value) (name : string) : M S value :=
  c_upload (upload_arg file name).

(** The [try] block of the loop: resolve, upload, destructure. *)
Definition upload_new (filePathString : value) (fileName name : string) : M S value :=
  st_catch
    (fileData ← getFileData filePathString;
     res ← uploadFile fileData name;
     file ← lift (destruct_first res);
     st_log (EvUploaded fileName);;
     mret file)
    (fun error =>
       st_log (EvUploadFailed filePathString (err_message error));;
       st_throw error).

(** One iteration of [for (const filePathString of filesArray)], with
    the two accumulators [existingFiles] and [uploadedFiles]. *)
Definition upload_step (filePathString : value) (acc : list value * list value)
    : M S (list value * list value) :=
  if negb (truthy filePathString) then mret acc
  else
    '(_, fileName) ← lift (parseFilePath filePathString);
    let name := media_name fileName in
    fileWhereName ← c_findOne upload_file_uid [("name", VStr name)];
    if truthy fileWhereName then
      st_log (EvFileExists fileName);;
      mret (acc.1 ++ [fileWhereName], acc.2)
    else
      file ← upload_new filePathString fileName name;
      mret (acc.1, acc.2 ++ [file]).

Fixpoint upload_loop (paths : list value) (acc : list value * list value)
    : M S (list value * list value) :=
  match paths with
  | [] => mret acc
  | p :: ps => acc' ← upload_step p acc; upload_loop ps acc'
  end.

(** [checkFileExistsBeforeUpload(filePaths)] *)
Definition checkFileExistsBeforeUpload (filePaths : value) : M S value :=
  '(existingFiles, uploadedFiles) ← upload_loop (files_array filePaths) ([], []);
  mret (unwrap_single (existingFiles ++ uploadedFiles)).
End Uploader.

(** ** Branches of one iteration *)

(** The asset name the loop derives from a path string. *)
Definition entry_name (p : string) : string := media_name (path_file p).

Section UploaderLemmas.
Context {S : Type} `{Platform S}.

(** The media library has [e] under the asset name of entry [p]. *)
Definition found_in (s : S) (p : value) (e : value) : Prop :=
  exists str, p = VStr str /\
    query_findOne upload_file_uid [("name", VStr (entry_name str))] s = Ok e /\
    truthy e = true.

Lemma upload_step_skip p acc s :
  truthy p = false -> upload_step p acc s = Out (Ok acc) s [].
Proof. intros Hp. unfold upload_step. by rewrite Hp. Qed.

Lemma upload_step_found p acc s e :
  truthy p = true -> found_in s p e ->
  upload_step p acc s = Out (Ok (acc.1 ++ [e], acc.2)) s [EvFileExists (path_file (default "" (as_string p)))].
Proof.
  intros Hp (str & -> & Hf & He). unfold upload_step. rewrite Hp, parseFilePath_VStr.
  calls_unfold. cbn. unfold entry_name in Hf. rewrite Hf. cbn. by rewrite He.
Qed.
Lemma upload_loop_all_found ps acc s es :
  Forall2 (found_in s) (List.filter truthy ps) es ->
  exists l, upload_loop ps acc s = Out (Ok (acc.1 ++ es, acc.2)) s l.
Proof.
  induction ps as [| p ps IH] in acc, es |- *; cbn [List.filter upload_loop].
  - intros Hes. inversion Hes. exists []. destruct acc. by rewrite app_nil_r.
  - destruct (truthy p) eqn:Ht.
    + intros Hes. inversion Hes as [| ? e ? es' Hf Hrest]; subst.
      destruct (IH (acc.1 ++ [e], acc.2) _ Hrest) as [l Hl]. eexists.
      run_with (upload_step_found p acc s e Ht Hf). rewrite Hl. simpl.
      by rewrite <- app_assoc.
    + intros Hes. destruct (IH acc _ Hes) as [l Hl]. eexists.
      run_with (upload_step_skip p acc s Ht). by rewrite Hl.
Qed.
End UploaderLemmas.

(** ** Deduplication by name *)

Section Dedup.
Context {S : Type} `{Platform S}.

Lemma check_all_found (fp : value) (s : S) (es : list value) :
  Forall2 (found_in s) (List.filter truthy (files_array fp)) es ->
  exists l, checkFileExistsBeforeUpload fp s = Out (Ok (unwrap_single es)) s l.
Proof.
  intros Hes. destruct (upload_loop_all_found _ ([], []) _ _ Hes) as [l Hl].
  unfold checkFileExistsBeforeUpload. eexists. run_with Hl. simpl. by rewrite app_nil_r.
Qed.

(** C1. When the media library already holds an entry named after every
    non-empty path, [checkFileExistsBeforeUpload] uploads nothing and
    writes nothing: the platform state is unchanged, and the result is
    the list of found entries in input order, unwrapped when there is
    exactly one. *)
Theorem check_present_no_upload (fp : value) (s : S) (es : list value) :
  Forall2 (found_in s) (List.filter truthy (files_array fp)) es ->
  exists l, checkFileExistsBeforeUpload fp s = Out (Ok (unwrap_single es)) s l.
Proof. apply check_all_found. Qed.
End Dedup.

(** ** The reordering: refinement of an in-order loop up to permutation *)

(** What one iteration does with an entry. *)
Inductive entry_kind : Type :=
| Skipped
| Found (v : value)
| Uploaded (v : value).

Definition kind_values (k : entry_kind) : list value :=
  match k with Skipped => [] | Found v | Uploaded v => [v] end.

(** Where the code pushes the entry: [existingFiles] or [uploadedFiles]. *)
Definition push_kind (k : entry_kind) (acc : list value * list value) : list value * list value :=
  match k with
  | Skipped => acc
  | Found v => (acc.1 ++ [v], acc.2)
  | Uploaded v => (acc.1, acc.2 ++ [v])
  end.

Section Reorder.
Context {S : Type} `{Platform S}.

(** The effects of one iteration, without the push. *)
Definition classify (filePathString : value) : M S entry_kind :=
  if negb (truthy filePathString) then mret Skipped
  else
    '(_, fileName) ← lift (parseFilePath filePathString);
    let name := media_name fileName in
    fileWhereName ← c_findOne upload_file_uid [("name", VStr name)];
    if truthy fileWhereName then
      st_log (EvFileExists fileName);; mret (Found fileWhereName)
    else
      file ← upload_new filePathString fileName name;
      mret (Uploaded file).

(** The loop the spec's design notes ask for: one list, input order. *)
Fixpoint upload_loop_inorder (paths : list value) (acc : list value) : M S (list value) :=
  match paths with
  | [] => mret acc
  | p :: ps => k ← classify p; upload_loop_inorder ps (acc ++ kind_values k)
  end.

Definition checkFileExists_inorder (filePaths : value) : M S value :=
  allFiles ← upload_loop_inorder (files_array filePaths) [];
  mret (unwrap_single allFiles).

(** An iteration of the code is [classify] followed by the push. *)
Lemma upload_step_classify p acc :
  upload_step p acc ≡ (k ← classify p; mret (push_kind k acc)).
Proof.
  intros s. unfold upload_step, classify.
  destruct (truthy p); simpl; [| done].
  destruct (parseFilePath p) as [[dir file] | e]; calls_unfold; cbn; [| done].
  destruct (query_findOne _ _ s) as [fw | e]; cbn; [| done].
  destruct (truthy fw); cbn; [done |].
  destruct (upload_new p file (media_name file) s) as [[v | e] s' l]; cbn; by rewrite ?app_nil_r.
Qed.
End Reorder.

Section ReorderProofs.
Context {S : Type} `{Platform S}.

Lemma upload_step_via_classify p acc s k s1 l1 :
  classify p s = Out (Ok k) s1 l1 ->
  upload_step p acc s = Out (Ok (push_kind k acc)) s1 (l1 ++ []).
Proof. intros Hc. rewrite (upload_step_classify p acc s). by run_with Hc. Qed.

Lemma upload_step_via_classify_err p acc s e s1 l1 :
  classify p s = Out (Throw e) s1 l1 -> upload_step p acc s = Out (Throw e) s1 l1.
Proof. intros Hc. rewrite (upload_step_classify p acc s). by fail_with Hc. Qed.

Lemma push_kind_perm k acc acc' :
  acc.1 ++ acc.2 ≡ₚ acc' ->
  (push_kind k acc).1 ++ (push_kind k acc).2 ≡ₚ acc' ++ kind_values k.
Proof.
  intros Hp. destruct k as [| v | v]; simpl.
  - by rewrite app_nil_r.
  - rewrite <- Hp, <- !app_assoc. f_equiv. apply Permutation_app_comm.
  - by rewrite <- Hp, app_assoc.
Qed.

(** The two-list loop and the one-list loop have the same effects and
    the same errors; their results differ by a permutation. *)
Lemma upload_loop_refines ps acc acc' s :
  acc.1 ++ acc.2 ≡ₚ acc' ->
  out_rel (fun r1 r2 => r1.1 ++ r1.2 ≡ₚ r2)
    (upload_loop ps acc s) (upload_loop_inorder ps acc' s).
Proof.
  induction ps as [| p ps IH] in acc, acc', s |- *; intros Hp; cbn [upload_loop upload_loop_inorder].
  - done.
  - destruct (classify p s) as [[k | e] s1 l1] eqn:Hc.
    + run_with (upload_step_via_classify p acc s k s1 l1 Hc). run_with Hc.
      destruct (IH (push_kind k acc) (acc' ++ kind_values k) s1 (push_kind_perm k acc acc' Hp))
        as (Hs & Hl & Hr).
      split_and!; simpl; [done | by rewrite Hl, app_nil_r | done].
    + fail_with (upload_step_via_classify_err p acc s e s1 l1 Hc). fail_with Hc. done.
Qed.
End ReorderProofs.

(** ** Postcondition and idempotence *)

Section Stable.
Context {S : Type} `{Platform S}.
Context (P : S -> Prop) (HP : upload_stable P).

(** Every computation of the uploader keeps a property that uploads keep. *)
Lemma upload_new_preserves p f m : preserves P (upload_new p f m).
Proof. unfold upload_new, uploadFile. solve_preserves. Qed.

Lemma upload_step_preserves p acc : preserves P (upload_step p acc).
Proof. unfold upload_step. solve_preserves. apply upload_new_preserves. Qed.

Lemma upload_loop_preserves ps acc : preserves P (upload_loop ps acc).
Proof.
  induction ps as [| p ps IH] in acc |- *; simpl; solve_preserves.
  apply upload_step_preserves.
Qed.

Lemma check_preserves fp : preserves P (checkFileExistsBeforeUpload fp).
Proof. unfold checkFileExistsBeforeUpload. solve_preserves. apply upload_loop_preserves. Qed.
End Stable.

Section Post.
Context {S : Type} `{Platform S} `{!PlatformLaws S}.

Lemma file_present_stable n : upload_stable (file_present n).
Proof. intros arg s r s' Hup. by eapply upload_keeps_files. Qed.

Lemma upload_new_keeps_present n p f m : preserves (file_present n) (upload_new p f m).
Proof. apply upload_new_preserves, file_present_stable. Qed.

Lemma upload_loop_keeps_present n ps acc : preserves (file_present n) (upload_loop ps acc).
Proof. apply upload_loop_preserves, file_present_stable. Qed.

(** A successful upload of a new entry leaves its name in the library. *)
Lemma upload_new_present p f n s v s' l :
  upload_new p f n s = Out (Ok v) s' l -> file_present n s'.
Proof.
  unfold upload_new. intros Hu. apply catch_ok_rethrow in Hu; [| done].
  inv_bind Hu fd Hfd. inv_bind Hu res Hup.
  assert (Hro : read_only (file ← lift (destruct_first res); st_log (EvUploaded f);; mret file
                           : M S value)) by solve_preserves.
  rewrite (read_only_out _ _ _ _ _ Hro Hu).
  unfold uploadFile, c_upload, st_update in Hup.
  destruct (upload_service (upload_arg fd n) _) as [[r s2] | e] eqn:E; [| done].
  injection Hup as <- <- <-. by eapply upload_registers.
Qed.

Lemma upload_step_present p acc s acc' s' l :
  upload_step p acc s = Out (Ok acc') s' l -> truthy p = true ->
  exists str, p = VStr str /\ file_present (entry_name str) s'.
Proof.
  intros Hs Ht. unfold upload_step in Hs. rewrite Ht in Hs. cbn [negb] in Hs.
  destruct p as [| | | | str | |]; try discriminate Ht;
    try (inv_bind Hs x Hx; by simpl in Hx).
  exists str. split; [done |]. rewrite parseFilePath_VStr in Hs.
  inv_bind Hs x Hx. injection Hx as <- <- <-. inv_bind Hs fw Hfw.
  unfold c_findOne, st_read in Hfw. injection Hfw as Hf <- <-.
  destruct (truthy fw) eqn:Ht0.
  - inv_bind Hs u Hu. injection Hu as _ <- _. injection Hs as _ <- _.
    by exists fw.
  - inv_bind Hs v Hv. injection Hs as _ <- _. by eapply upload_new_present.
Qed.
Lemma upload_loop_post ps acc s r s' l :
  upload_loop ps acc s = Out (Ok r) s' l ->
  Forall (fun p => truthy p = true ->
                   exists str, p = VStr str /\ file_present (entry_name str) s') ps.
Proof.
  induction ps as [| p ps IH] in acc, s, l |- *; simpl; intros Hl; [done |].
  inv_bind Hl acc1 Hstep. constructor; [| by eapply IH].
  intros Ht. destruct (upload_step_present _ _ _ _ _ _ Hstep Ht) as (str & -> & Hp).
  exists str. split; [done |].
  pose proof (upload_loop_keeps_present _ ps acc1 _ Hp) as Hk. by rewrite Hl in Hk.
Qed.

Lemma check_post fp s v s' l :
  checkFileExistsBeforeUpload fp s = Out (Ok v) s' l ->
  Forall (fun p => truthy p = true ->
                   exists str, p = VStr str /\ file_present (entry_name str) s')
         (files_array fp).
Proof.
  unfold checkFileExistsBeforeUpload. intros Hrun. inv_bind Hrun r Hr.
  destruct r as [ex up]. injection Hrun as _ <- _. by eapply upload_loop_post.
Qed.

Lemma present_found s ps :
  Forall (fun p => truthy p = true ->
                   exists str, p = VStr str /\ file_present (entry_name str) s) ps ->
  exists es, Forall2 (found_in s) (List.filter truthy ps) es.
Proof.
  induction ps as [| p ps IH]; simpl; intros Hall; [by exists [] |].
  apply Forall_cons in Hall as [Hp Hall]. destruct (IH Hall) as [es Hes].
  destruct (truthy p) eqn:Ht; [| by exists es].
  destruct (Hp eq_refl) as (str & -> & e & Hf & He).
  exists (e :: es). constructor; [| done]. by exists str.
Qed.
End Post.

Section MediaTheorems.
Context {S : Type} `{Platform S} `{!PlatformLaws S}.

(** C2. After a successful run, every non-empty entry of the input is a
    path string whose asset name is in the media library: each entry was
    either found or uploaded, and later uploads did not remove it. *)
Theorem check_all_present_after (fp : value) (s : S) v s' l :
  checkFileExistsBeforeUpload fp s = Out (Ok v) s' l ->
  forall p, p ∈ files_array fp -> truthy p = true ->
  exists str, p = VStr str /\ file_present (entry_name str) s'.
Proof.
  intros Hrun. apply check_post in Hrun. rewrite Forall_forall in Hrun.
  intros p Hp. by apply Hrun.
Qed.

(** C3. Idempotence: running the uploader again on the state a
    successful run left changes nothing (no second upload). *)
Theorem check_idempotent (fp : value) (s : S) v s' l :
  checkFileExistsBeforeUpload fp s = Out (Ok v) s' l ->
  exists v' l', checkFileExistsBeforeUpload fp s' = Out (Ok v') s' l'.
Proof.
  intros Hrun. apply check_post, present_found in Hrun as [es Hes].
  destruct (check_all_found fp s' es Hes) as [l' Hl']. by exists (unwrap_single es), l'.
Qed.
End MediaTheorems.

(** ** Error paths *)

Section Errors.
Context {S : Type} `{Platform S} `{!PlatformLaws S}.

Lemma upload_loop_app ps1 ps2 acc :
  upload_loop (ps1 ++ ps2) acc ≡ (upload_loop ps1 acc ≫= upload_loop ps2).
Proof.
  induction ps1 as [| p ps1 IH] in acc |- *; simpl.
  - symmetry. apply st_bind_ret_l.
  - rewrite st_bind_assoc. f_equiv. intros a. apply IH.
Qed.

Lemma upload_loop_skip ps acc s :
  Forall (fun p => truthy p = false) ps -> upload_loop ps acc s = Out (Ok acc) s [].
Proof.
  induction ps as [| p ps IH]; simpl; [done |]. intros [Hp Hps]%Forall_cons.
  run_with (upload_step_skip p acc s Hp). by rewrite IH.
Qed.

Lemma upload_step_invalid p acc s :
  truthy p = true -> as_string p = None ->
  upload_step p acc s = Out (Throw (mk_error ("Invalid file path: " ++ to_js_string p))) s [].
Proof. intros Ht Hs. unfold upload_step. rewrite Ht. by destruct p. Qed.

(** C4. A non-empty entry that is not a string makes the uploader throw
    [Invalid file path: ...] from [parseFilePath], which the code calls
    before its [try]: no "Failed to upload" line is logged and the state
    is unchanged (the falsy entries before it are skipped). *)
Theorem check_invalid_path (fp : value) ps1 v ps2 (s : S) :
  files_array fp = ps1 ++ v :: ps2 ->
  Forall (fun p => truthy p = false) ps1 -> truthy v = true -> as_string v = None ->
  checkFileExistsBeforeUpload fp s =
    Out (Throw (mk_error ("Invalid file path: " ++ to_js_string v))) s [].
Proof.
  intros Hfa Hps1 Hv Hs. unfold checkFileExistsBeforeUpload. rewrite Hfa.
  assert (Hloop : upload_loop (ps1 ++ v :: ps2) ([], []) s =
                  Out (Throw (mk_error ("Invalid file path: " ++ to_js_string v))) s []).
  { rewrite (upload_loop_app ps1 (v :: ps2) ([], []) s).
    run_with (upload_loop_skip ps1 ([], []) s Hps1). simpl.
    by fail_with (upload_step_invalid v ([], []) s Hv Hs). }
  by fail_with Hloop.
Qed.

(** C5. No rollback: when the loop fails on a later entry, the entries
    processed before it stay uploaded, and the error reaches the caller. *)
Theorem check_failure_keeps_uploads (fp : value) ps1 ps2 (s : S) acc s1 l1 e :
  files_array fp = ps1 ++ ps2 ->
  upload_loop ps1 ([], []) s = Out (Ok acc) s1 l1 ->
  out_res (upload_loop ps2 acc s1) = Throw e ->
  out_res (checkFileExistsBeforeUpload fp s) = Throw e /\
  forall p, p ∈ ps1 -> truthy p = true ->
    exists str, p = VStr str /\
      file_present (entry_name str) (out_st (checkFileExistsBeforeUpload fp s)).
Proof.
  intros Hfa H1 H2. pose proof (upload_loop_post _ _ _ _ _ _ H1) as Hpost.
  assert (Hrun : checkFileExistsBeforeUpload fp s =
                 Out (Throw e) (out_st (upload_loop ps2 acc s1))
                     (l1 ++ out_log (upload_loop ps2 acc s1))).
  { unfold checkFileExistsBeforeUpload. rewrite Hfa.
    apply bind_err. rewrite (upload_loop_app ps1 ps2 ([], []) s).
    run_with H1. by rewrite H2. }
  rewrite Hrun. split; [done |]. intros p Hp Ht.
  rewrite Forall_forall in Hpost. destruct (Hpost p Hp Ht) as (str & -> & Hpr).
  exists str. split; [done |]. by apply upload_loop_keeps_present.
Qed.
Lemma upload_new_not_found str f n s :
  fs_exists (full_path (path_dir str) (path_file str)) s = false ->
  let msg := ("File not found: " ++ full_path (path_dir str) (path_file str))%string in
  upload_new (VStr str) f n s = Out (Throw (mk_error msg)) s [EvUploadFailed (VStr str) msg].
Proof.
  intros Hex msg. unfold upload_new. erewrite catch_err; [| by fail_with (getFileData_not_found str s Hex)].
  done.
Qed.

Lemma upload_step_absent str acc s fw :
  truthy (VStr str) = true ->
  query_findOne upload_file_uid [("name", VStr (entry_name str))] s = Ok fw ->
  truthy fw = false ->
  upload_step (VStr str) acc s =
    (file ← upload_new (VStr str) (path_file str) (entry_name str);
     mret (acc.1, acc.2 ++ [file])) s.
Proof.
  intros Ht Hf Hfw. unfold upload_step. rewrite Ht, parseFilePath_VStr. cbn [negb].
  run_nil (eq_refl (Out (E := js_error) (L := event) (Ok (path_dir str, path_file str)) s [])).
  cbv beta iota zeta. unfold entry_name in Hf.
  run_nil (f_equal (fun r => Out (L := event) r s []) Hf). by rewrite Hfw.
Qed.

(** C6. A path whose asset name is not in the library and whose file is
    missing under [data/uploads] makes the uploader log
    "Failed to upload" and throw [File not found: <full path>], leaving
    the platform state unchanged. *)
Theorem check_missing_file (str : string) (s : S) fw :
  truthy (VStr str) = true ->
  query_findOne upload_file_uid [("name", VStr (entry_name str))] s = Ok fw ->
  truthy fw = false ->
  fs_exists (full_path (path_dir str) (path_file str)) s = false ->
  let msg := ("File not found: " ++ full_path (path_dir str) (path_file str))%string in
  checkFileExistsBeforeUpload (VStr str) s =
    Out (Throw (mk_error msg)) s [EvUploadFailed (VStr str) msg].
Proof.
  intros Ht Hf Hfw Hex msg. unfold checkFileExistsBeforeUpload. simpl files_array.
  apply bind_err. cbn [upload_loop]. apply bind_err.
  rewrite (upload_step_absent str ([], []) s fw Ht Hf Hfw).
  by fail_with (upload_new_not_found str (path_file str) (entry_name str) s Hex).
Qed.
End Errors.

Section RefinementTheorem.
Context {S : Type} `{Platform S}.

(** C7. Refinement up to permutation: the uploader has exactly the
    effects, console output and errors of a loop that collects results
    in input order; its result is that loop's result with the entries
    permuted (found entries first, then uploaded ones). *)
Theorem check_refines_inorder (fp : value) (s : S) :
  out_rel (fun v1 v2 => exists l1 l2, v1 = unwrap_single l1 /\ v2 = unwrap_single l2 /\ l1 ≡ₚ l2)
    (checkFileExistsBeforeUpload fp s) (checkFileExists_inorder fp s).
Proof.
  destruct (upload_loop_refines (files_array fp) ([], []) [] s) as (Hs & Hl & Hr); [done |].
  unfold checkFileExistsBeforeUpload, checkFileExists_inorder.
  destruct (upload_loop (files_array fp) ([], []) s) as [[[ex up] | e] s1 l1] eqn:E1;
  destruct (upload_loop_inorder (files_array fp) [] s) as [[acc | e'] s2 l2] eqn:E2;
    simpl in *; try done.
  - run_with E1. run_with E2. split_and!; simpl; [done | by subst |].
    by exists (ex ++ up), acc.
  - fail_with E1. fail_with E2. done.
Qed.
End RefinementTheorem.

(** ** Witnesses on the in-memory platform *)

Lemma check_present_no_upload_witness :
  exists l, checkFileExistsBeforeUpload (VArr [VStr "hero/b.jpg"; VNull]) demo_b =
            Out (Ok (VObj [("id", VNum 1); ("name", VStr "b")])) demo_b l.
Proof.
  apply (check_present_no_upload _ _ [VObj [("id", VNum 1); ("name", VStr "b")]]).
  constructor; [| constructor].
  exists "hero/b.jpg". split; [done |]. split; vm_compute; reflexivity.
Defined.

Lemma check_all_present_after_witness :
  exists str, VStr "hero/a.jpg" = VStr str /\
    file_present (entry_name str) (out_st (checkFileExistsBeforeUpload (VStr "hero/a.jpg") demo0)).
Proof.
  apply (check_all_present_after (VStr "hero/a.jpg") demo0
           (VObj [("id", VNum 1); ("name", VStr "a")])
           (out_st (checkFileExistsBeforeUpload (VStr "hero/a.jpg") demo0))
           (out_log (checkFileExistsBeforeUpload (VStr "hero/a.jpg") demo0))).
  - apply out_res_eta. vm_compute. reflexivity.
  - constructor.
  - reflexivity.
Defined.

Lemma check_idempotent_witness :
  exists v' l', checkFileExistsBeforeUpload (VStr "hero/a.jpg")
                  (out_st (checkFileExistsBeforeUpload (VStr "hero/a.jpg") demo0)) =
                Out (Ok v') (out_st (checkFileExistsBeforeUpload (VStr "hero/a.jpg") demo0)) l'.
Proof.
  apply (check_idempotent (VStr "hero/a.jpg") demo0 (VObj [("id", VNum 1); ("name", VStr "a")])
           _ (out_log (checkFileExistsBeforeUpload (VStr "hero/a.jpg") demo0))).
  apply out_res_eta. vm_compute. reflexivity.
Defined.

Lemma check_invalid_path_witness :
  checkFileExistsBeforeUpload (VArr [VNull; VNum 7; VStr "hero/a.jpg"]) demo0 =
    Out (Throw (mk_error ("Invalid file path: " ++ to_js_string (VNum 7)))) demo0 [].
Proof.
  apply (check_invalid_path _ [VNull] (VNum 7) [VStr "hero/a.jpg"]);
    [reflexivity | repeat constructor | reflexivity | reflexivity].
Defined.

Lemma check_failure_keeps_uploads_witness :
  out_res (checkFileExistsBeforeUpload (VArr [VStr "hero/a.jpg"; VStr "hero/c.jpg"]) demo0) =
    Throw (mk_error "File not found: data/uploads/hero/c.jpg") /\
  forall p, p ∈ [VStr "hero/a.jpg"] -> truthy p = true ->
    exists str, p = VStr str /\
      file_present (entry_name str)
        (out_st (checkFileExistsBeforeUpload (VArr [VStr "hero/a.jpg"; VStr "hero/c.jpg"]) demo0)).
Proof.
  apply (check_failure_keeps_uploads _ [VStr "hero/a.jpg"] [VStr "hero/c.jpg"] demo0
           ([], [VObj [("id", VNum 1); ("name", VStr "a")]])
           (out_st (upload_loop [VStr "hero/a.jpg"] ([], []) demo0))
           (out_log (upload_loop [VStr "hero/a.jpg"] ([], []) demo0))).
  - reflexivity.
  - apply out_res_eta. vm_compute. reflexivity.
  - vm_compute. reflexivity.
Defined.

Lemma check_missing_file_witness :
  checkFileExistsBeforeUpload (VStr "hero/c.jpg") demo0 =
    Out (Throw (mk_error "File not found: data/uploads/hero/c.jpg")) demo0
        [EvUploadFailed (VStr "hero/c.jpg") "File not found: data/uploads/hero/c.jpg"].
Proof.
  apply (check_missing_file "hero/c.jpg" demo0 VNull); vm_compute; reflexivity.
Defined.

(** The reordering on a concrete run: with [b] in the library, the
    input [a; b] comes back as [b; a], while the in-order loop returns
    [a; b]. *)
Example check_reorders_example :
  out_res (checkFileExistsBeforeUpload (VArr [VStr "hero/a.jpg"; VStr "hero/b.jpg"]) demo_b) =
    Ok (VArr [VObj [("id", VNum 1); ("name", VStr "b")]; VObj [("id", VNum 2); ("name", VStr "a")]]) /\
  out_res (checkFileExists_inorder (VArr [VStr "hero/a.jpg"; VStr "hero/b.jpg"]) demo_b) =
    Ok (VArr [VObj [("id", VNum 2); ("name", VStr "a")]; VObj [("id", VNum 1); ("name", VStr "b")]]).
Proof. split; vm_compute; reflexivity. Qed.
