(* ===== verification/Sections.v ===== *)
(** * Sections: the section processor

    Models [processSection] of src/src/bootstrap.js (lines 212-262): a
    shallow copy of the section object, a dispatch on its [__component]
    tag, and for the hero and Milan Design Week sections the replacement
    of each media field by the result of [checkFileExistsBeforeUpload],
    each under its own guard (a truthy value for single media, a non-empty
    array for the support image lists).

    The theorems: sections of every other type come back equal to the
    input with no effect; the result is an object with the same keys in
    the same order (so unique keys stay unique); a media field whose
    guard fails is copied unchanged; and only the media fields of the
    section's type can change. *)

From stdpp Require Import base list sets.
From Stdlib Require Import ZArith String Ascii.
From S2P Require Import Prelude JsString JsValue Platform MemPlatform FileResolver Media.

Local Open Scope string_scope.
Local Open Scope list_scope.

(** [x && Array.isArray(x) && x.length > 0] *)
Definition nonempty_array (v : value) : bool :=
  truthy v && is_array v && match v with VArr (_ :: _) => true | _ => false end.

(** The media fields of each section type, with their guards. *)
Definition hero_media : list (string * (value -> bool)) :=
  [("desktopHeroImage", truthy); ("desktopSupportImages", nonempty_array);
   ("mobileHeroImage", truthy); ("mobileSupportImages", nonempty_array)].

Definition milan_media : list (string * (value -> bool)) :=
  [("video", truthy); ("thumbnail", truthy)].

Section Processor.
Context {S : Type} `{Platform S}.

(** [section.k] *)
Definition read_field (section : value) (k : string) : M S value :=
  lift (get_prop section k).

(** [if (guard(section.k)) sectionCopy.k = await checkFileExistsBeforeUpload(section.k)] *)
Definition media_field (section : value) (copy : list (string * value))
    (kg : string * (value -> bool)) : M S (list (string * value)) :=
  v ← read_field section kg.1;
  if kg.2 v then
    r ← checkFileExistsBeforeUpload v;
    mret (field_set copy kg.1 r)
  else mret copy.

(** The guarded replacements of a section type, in source order. *)
Fixpoint media_fields (section : value) (copy : list (string * value))
    (fields : list (string * (value -> bool))) : M S (list (string * value)) :=
  match fields with
  | [] => mret copy
  | kg :: fields' => copy' ← media_field section copy kg; media_fields section copy' fields'
  end.

(** [processSection(section)] *)
Definition processSection (section : value) : M S value :=
  let sectionCopy := spread section in
  comp ← read_field section "__component";
  if strict_eq_str comp "sections.hero" then
    st_log EvProcessingHero;;
    copy ← media_fields section sectionCopy hero_media;
    mret (VObj copy)
  else if strict_eq_str comp "sections.milan-design-week" then
    st_log EvProcessingMilan;;
    copy ← media_fields section sectionCopy milan_media;
    mret (VObj copy)
  else if strict_eq_str comp "sections.faqs" then
    st_log EvProcessingFaqs;;
    mret (VObj sectionCopy)
  else
    comp' ← read_field section "__component";
    st_log (EvProcessingOther comp');;
    mret (VObj sectionCopy).
End Processor.

(** The media fields [processSection] handles for a [__component] tag. *)
Definition media_of (comp : value) : list (string * (value -> bool)) :=
  if strict_eq_str comp "sections.hero" then hero_media
  else if strict_eq_str comp "sections.milan-design-week" then milan_media
  else [].

(** ** Lemmas *)

(** Every guard of the code implies truthiness. *)
Definition guards_truthy (fields : list (string * (value -> bool))) : Prop :=
  Forall (fun kg => forall v, kg.2 v = true -> truthy v = true) fields.

Lemma hero_guards : guards_truthy hero_media.
Proof.
  repeat constructor; simpl; intros v; unfold nonempty_array; try done;
    by intros (? & ?)%andb_prop ; destruct (truthy v).
Qed.

Lemma milan_guards : guards_truthy milan_media.
Proof. by repeat constructor. Qed.

Lemma media_of_guards comp : guards_truthy (media_of comp).
Proof.
  unfold media_of. destruct (strict_eq_str comp _); [apply hero_guards |].
  destruct (strict_eq_str comp _); [apply milan_guards | constructor].
Qed.

(** The fields a guard does not select. *)
Definition untouched (fields : list (string * (value -> bool))) (fs : list (string * value))
    (k : string) : Prop :=
  forall g, (k, g) ∈ fields -> g (default VUndef (field_get fs k)) = false.

Lemma truthy_default_some fs k :
  truthy (default VUndef (field_get fs k)) = true -> k ∈ fs.*1.
Proof.
  destruct (field_get fs k) as [v |] eqn:E; simpl; [| done].
  intros _. by eapply field_get_in.
Qed.

Section ProcessorLemmas.
Context {S : Type} `{Platform S}.

Lemma read_field_obj fs k (s : S) :
  read_field (VObj fs) k s = Out (Ok (default VUndef (field_get fs k))) s [].
Proof. reflexivity. Qed.

Lemma media_field_spec fs copy k g (s : S) copy1 s1 l :
  media_field (VObj fs) copy (k, g) s = Out (Ok copy1) s1 l ->
  (forall v, g v = true -> truthy v = true) -> copy.*1 = fs.*1 ->
  copy1.*1 = fs.*1 /\
  (g (default VUndef (field_get fs k)) = false -> copy1 = copy) /\
  (forall k', k' <> k -> field_get copy1 k' = field_get copy k').
Proof.
  unfold media_field. intros Hrun Hg Hk. run_nil_in (read_field_obj fs k s) Hrun.
  cbn [fst snd] in Hrun. destruct (g _) eqn:Eg.
  - inv_bind Hrun r Hr. injection Hrun as <- _ _. split_and!.
    + rewrite field_set_keys_in; [done |]. rewrite Hk. by apply truthy_default_some, Hg.
    + done.
    + intros k' Hne. by apply field_get_set_ne.
  - injection Hrun as <- _ _. by split_and!.
Qed.

(** The guarded replacements keep the key list and leave the fields
    whose guard fails as they were. *)
Lemma media_fields_spec fs copy fields (s : S) copy' s' l :
  media_fields (VObj fs) copy fields s = Out (Ok copy') s' l ->
  guards_truthy fields -> copy.*1 = fs.*1 ->
  copy'.*1 = fs.*1 /\
  forall k, untouched fields fs k -> field_get copy' k = field_get copy k.
Proof.
  induction fields as [| [k g] fields IH] in copy, s, l |- *; simpl.
  - intros [= <- _ _] _ Hk. by split.
  - intros Hrun [Hg Hgs]%Forall_cons Hk. inv_bind Hrun copy1 Hstep.
    destruct (media_field_spec _ _ _ _ _ _ _ _ Hstep Hg Hk) as (Hk1 & Hsame & Hother).
    destruct (IH _ _ _ Hrun Hgs Hk1) as [Hk' Hrest]. split; [done |].
    intros k' Hu. rewrite Hrest; [| intros g' Hin; apply Hu; by right].
    destruct (String.eqb_spec k' k) as [-> |].
    + rewrite Hsame; [done |]. apply Hu. by left.
    + by apply Hother.
Qed.
End ProcessorLemmas.

Section ProcessorTheorems.
Context {S : Type} `{Platform S}.

(** C10. A section whose [__component] is neither the hero nor the Milan
    Design Week tag (FAQs, mission, impact, an unknown tag, no tag) comes
    back as an object equal to the input, with no platform effect. *)
Theorem processSection_passthrough fs (s : S) :
  let comp := default VUndef (field_get fs "__component") in
  strict_eq_str comp "sections.hero" = false ->
  strict_eq_str comp "sections.milan-design-week" = false ->
  exists l, processSection (VObj fs) s = Out (Ok (VObj fs)) s l.
Proof.
  intros comp Hh Hm. unfold processSection. run_nil (read_field_obj fs "__component" s).
  fold comp. rewrite Hh, Hm. destruct (strict_eq_str comp "sections.faqs"); by eexists.
Qed.

Lemma processSection_keys fs (s : S) v s' l :
  let comp := default VUndef (field_get fs "__component") in
  processSection (VObj fs) s = Out (Ok v) s' l ->
  exists fs', v = VObj fs' /\ fs'.*1 = fs.*1 /\
    forall k, untouched (media_of comp) fs k -> field_get fs' k = field_get fs k.
Proof.
  intros comp Hrun. unfold processSection in Hrun. run_nil_in (read_field_obj fs "__component" s) Hrun.
  fold comp in Hrun. pose proof (media_of_guards comp) as Hg. unfold media_of in *.
  destruct (strict_eq_str comp "sections.hero");
    [| destruct (strict_eq_str comp "sections.milan-design-week")].
  1,2: inv_bind Hrun u Hu; inv_bind Hrun copy Hc; injection Hrun as <- _ _;
       destruct (media_fields_spec _ _ _ _ _ _ _ Hc Hg eq_refl) as [Hk Hu'];
       by exists copy.
  destruct (strict_eq_str comp "sections.faqs").
  - injection Hrun as <- _ _. by exists fs.
  - inv_bind Hrun c Hc. inv_bind Hrun u Hu. injection Hrun as <- _ _. by exists fs.
Qed.

(** C11. The processed section is an object with the same keys in the
    same order as the input (so keys stay unique), and every field that
    is not a media field of the section's type, or whose guard fails
    (an empty support image list, a missing hero image), keeps its
    value. *)
Theorem processSection_shape fs (s : S) v s' l :
  let comp := default VUndef (field_get fs "__component") in
  processSection (VObj fs) s = Out (Ok v) s' l ->
  exists fs', v = VObj fs' /\ fs'.*1 = fs.*1 /\
    forall k, untouched (media_of comp) fs k -> field_get fs' k = field_get fs k.
Proof. apply processSection_keys. Qed.
End ProcessorTheorems.

(** ** Witnesses *)

(** An FAQ section with two items and no media fields. *)
Definition faq_section : list (string * value) :=
  [("__component", VStr "sections.faqs"); ("title", VStr "FAQ");
   ("items", VArr [VObj [("question", VStr "Q1")]; VObj [("question", VStr "Q2")]])].

Lemma processSection_passthrough_witness :
  exists l, processSection (VObj faq_section) demo0 = Out (Ok (VObj faq_section)) demo0 l.
Proof. apply processSection_passthrough; reflexivity. Defined.

(** A hero section whose support image list is empty: the hero image is
    uploaded, the empty list is kept. *)
Definition hero_section : list (string * value) :=
  [("__component", VStr "sections.hero"); ("heroCopy", VStr "Ocean");
   ("desktopHeroImage", VStr "hero/a.jpg"); ("desktopSupportImages", VArr [])].

Definition hero_processed : list (string * value) :=
  [("__component", VStr "sections.hero"); ("heroCopy", VStr "Ocean");
   ("desktopHeroImage", VObj [("id", VNum 1); ("name", VStr "a")]);
   ("desktopSupportImages", VArr [])].

Lemma processSection_shape_witness :
  exists fs', VObj hero_processed = VObj fs' /\ fs'.*1 = hero_section.*1 /\
    forall k, untouched (media_of (VStr "sections.hero")) hero_section k ->
      field_get fs' k = field_get hero_section k.
Proof.
  apply (processSection_shape hero_section demo0 (VObj hero_processed)
           (out_st (processSection (VObj hero_section) demo0))
           (out_log (processSection (VObj hero_section) demo0))).
  apply out_res_eta. vm_compute. reflexivity.
Defined.

(** ** Effects of the processor *)

Section SectionStable.
Context {S : Type} `{Platform S}.
Context (P : S -> Prop) (HP : upload_stable P).

Lemma media_fields_preserves section copy fields : preserves P (media_fields section copy fields).
Proof.
  induction fields as [| kg fields IH] in copy |- *; simpl; solve_preserves.
  unfold media_field, read_field. solve_preserves. by apply check_preserves.
Qed.

(** Every property that uploads keep is kept by [processSection]. *)
Lemma processSection_preserves section : preserves P (processSection section).
Proof.
  unfold processSection, read_field. solve_preserves; apply media_fields_preserves.
Qed.
End SectionStable.
