(* ===== verification/Guard.v ===== *)
(** * Guard: the run-once guard and the race of concurrent startups

    Models [isFirstRun] of src/src/bootstrap.js (lines 35-44): read the
    [initHasRun] flag of the plugin store, write [true] back whatever was
    read, and return the negation of the value read.

    The theorems: the functional behaviour on every branch; a second call
    after a successful one never answers "first run"; and, with the two
    calls of two concurrent startups interleaved by the step relation
    [gstep], the invariant that once a startup has finished the flag reads
    true, the refinement of a solo run of the step relation by
    [isFirstRun], and, from every state whose flag is unset, the race in
    which both startups answer "first run". *)

From stdpp Require Import base list gmap.
From Stdlib Require Import ZArith String Ascii.
From S2P Require Import Prelude JsString JsValue Platform MemPlatform.

Local Open Scope string_scope.
Local Open Scope list_scope.

(** [strapi.store({environment, type: 'type', name: 'setup'})] with
    [key: 'initHasRun']. *)
Definition init_key (env : string) : store_key := StoreKey env "type" "setup" "initHasRun".

Section Guard.
Context {S : Type} `{Platform S}.

(** [isFirstRun()] *)
Definition isFirstRun : M S bool :=
  env ← c_config_environment;
  initHasRun ← c_store_get (init_key env);
  c_store_set (init_key env) (VBool true);;
  mret (negb (truthy initHasRun)).

(** The flag key of a state. *)
Definition flag_key (s : S) : store_key := init_key (config_environment s).
End Guard.

(** ** Two startups interleaved *)

(** Where one startup is in [isFirstRun]: before the read, between the
    read and the write (holding the value read), or returned. *)
Inductive guard_pc : Type :=
| GStart
| GRead (v : value)
| GDone (b : bool).

Section Race.
Context {S : Type} `{Platform S}.

(** One step of one startup. *)
Inductive pstep : S * guard_pc -> S * guard_pc -> Prop :=
| pstep_read s v :
    store_get (flag_key s) s = Ok v -> pstep (s, GStart) (s, GRead v)
| pstep_write s s' v :
    store_set (flag_key s) (VBool true) s = Ok s' ->
    pstep (s, GRead v) (s', GDone (negb (truthy v))).

(** Either startup takes a step on the shared store. *)
Inductive gstep : S * guard_pc * guard_pc -> S * guard_pc * guard_pc -> Prop :=
| gstep_left s p1 p2 s' p1' :
    pstep (s, p1) (s', p1') -> gstep (s, p1, p2) (s', p1', p2)
| gstep_right s p1 p2 s' p2' :
    pstep (s, p2) (s', p2') -> gstep (s, p1, p2) (s', p1, p2').
End Race.

(** ** Lemmas *)

Section GuardLemmas.
Context {S : Type} `{Platform S}.

Lemma isFirstRun_run (s : S) v s' :
  store_get (flag_key s) s = Ok v ->
  store_set (flag_key s) (VBool true) s = Ok s' ->
  isFirstRun s = Out (Ok (negb (truthy v))) s' [].
Proof.
  unfold isFirstRun, flag_key. intros Hg Hs. calls_unfold. cbn. rewrite Hg. cbn.
  by rewrite Hs.
Qed.

Lemma isFirstRun_inv (s : S) b s1 l :
  isFirstRun s = Out (Ok b) s1 l ->
  exists v, store_get (flag_key s) s = Ok v /\
            store_set (flag_key s) (VBool true) s = Ok s1 /\
            b = negb (truthy v) /\ l = [].
Proof.
  unfold isFirstRun, flag_key. calls_unfold. cbn.
  destruct (store_get _ s) as [v | e]; cbn; [| done].
  destruct (store_set _ _ s) as [s' | e]; cbn; [| done].
  intros [= <- <- <-]. by exists v.
Qed.

(** After a write of [true], the flag reads [true] (or the read throws). *)
Definition flag_true (s : S) : Prop :=
  forall v, store_get (flag_key s) s = Ok v -> v = VBool true.
End GuardLemmas.

Section GuardTheorems.
Context {S : Type} `{Platform S} `{!PlatformLaws S}.

Lemma write_flag_true (s s' : S) :
  store_set (flag_key s) (VBool true) s = Ok s' -> flag_true s'.
Proof.
  intros Hs v Hv. unfold flag_key in Hv. rewrite (store_set_env _ _ _ _ Hs) in Hv.
  by eapply store_get_set.
Qed.

(** C12. A successful call writes the flag before returning, whatever it
    read: afterwards the flag reads [true], and the call answers the
    negation of the value it read. *)
Theorem isFirstRun_sets_flag (s : S) b s1 l :
  isFirstRun s = Out (Ok b) s1 l ->
  flag_true s1 /\ forall v, store_get (flag_key s) s = Ok v -> b = negb (truthy v).
Proof.
  intros (v & Hg & Hs & -> & _)%isFirstRun_inv. split; [by eapply write_flag_true |].
  intros v' Hv'. congruence.
Qed.

(** After a successful call, a second call never answers "first run"
    (it answers false, or throws). *)
Lemma isFirstRun_second_false (s : S) b s1 l b' s2 l' :
  isFirstRun s = Out (Ok b) s1 l ->
  isFirstRun s1 = Out (Ok b') s2 l' -> b' = false.
Proof.
  intros (v & _ & Hs & _ & _)%isFirstRun_inv (v' & Hg' & _ & -> & _)%isFirstRun_inv.
  by rewrite (write_flag_true _ _ Hs v' Hg').
Qed.

(** The interleaving invariant: once a startup has returned, the flag
    reads [true]. *)
Definition guard_inv (st : S * guard_pc * guard_pc) : Prop :=
  match st with
  | (s, p1, p2) =>
      (match p1 with GDone _ => True | _ => False end \/
       match p2 with GDone _ => True | _ => False end) -> flag_true s
  end.

Lemma pstep_flag s p s' p' :
  pstep (s, p) (s', p') ->
  (s' = s /\ match p' with GDone _ => False | _ => True end) \/ flag_true s'.
Proof.
  inversion 1; subst; [by left | right]. by eapply write_flag_true.
Qed.

(** C13. In every interleaving of two concurrent startups, once either
    has returned, the flag reads [true]. *)
Theorem guard_inv_reachable (s0 : S) st :
  star gstep (s0, GStart, GStart) st -> guard_inv st.
Proof.
  apply star_invariant; [| by intros [[] | []]].
  intros [[s p1] p2] [[s' p1'] p2'] Hinv Hstep.
  inversion Hstep as [? ? ? ? ? Hp | ? ? ? ? ? Hp]; subst;
    destruct (pstep_flag _ _ _ _ Hp) as [[-> Hd] | Hf]; simpl in *; try (intros; exact Hf);
    intros Hdone; apply Hinv; destruct Hdone as [Hd1 | Hd2];
    solve [by left | by right | destruct p1'; done | destruct p2'; done].
Qed.

(** C14. A startup running alone in the step relation goes from the
    start to "returned [b]" exactly when [isFirstRun] returns [b]. *)
Theorem pstep_solo_refines (s : S) s' b :
  star pstep (s, GStart) (s', GDone b) <-> exists l, isFirstRun s = Out (Ok b) s' l.
Proof.
  split.
  - intros Hst. inversion Hst as [| ? [s1 p1] ? H1 Hst1]; subst.
    inversion H1 as [? v Hg |]; subst.
    inversion Hst1 as [| ? [s2 p2] ? H2 Hst2]; subst.
    inversion H2 as [| ? ? ? Hs]; subst.
    inversion Hst2 as [| ? ? ? H3]; subst; [| inversion H3].
    exists []. by apply isFirstRun_run.
  - intros [l (v & Hg & Hs & -> & ->)%isFirstRun_inv].
    eapply star_step; [by constructor |].
    eapply star_step; [by constructor |]. constructor.
Qed.
(** Both startups read before either writes: each answers the negation
    of the value both read. *)
Lemma race_path (s : S) v s1 s2 :
  store_get (flag_key s) s = Ok v ->
  store_set (flag_key s) (VBool true) s = Ok s1 ->
  store_set (flag_key s1) (VBool true) s1 = Ok s2 ->
  star gstep (s, GStart, GStart) (s2, GDone (negb (truthy v)), GDone (negb (truthy v))).
Proof.
  intros Hg Hs1 Hs2.
  eapply star_step; [apply gstep_left; by apply pstep_read |].
  eapply star_step; [apply gstep_right; by apply pstep_read |].
  eapply star_step; [apply gstep_left; by apply pstep_write |].
  eapply star_step; [apply gstep_right; by apply pstep_write |].
  constructor.
Qed.

(** C15. The guard is not atomic.  From every state whose flag reads
    unset (or any falsy value), where the writes succeed, two concurrent
    startups can both read before either writes and then both answer
    "first run"; run one after the other, the first answers "first run"
    and the second does not. *)
Theorem guard_race_both_first (s : S) v s1 s2 :
  store_get (flag_key s) s = Ok v -> truthy v = false ->
  store_set (flag_key s) (VBool true) s = Ok s1 ->
  store_set (flag_key s1) (VBool true) s1 = Ok s2 ->
  star gstep (s, GStart, GStart) (s2, GDone true, GDone true) /\
  isFirstRun s = Out (Ok true) s1 [] /\
  (forall b s3 l, isFirstRun s1 = Out (Ok b) s3 l -> b = false).
Proof.
  intros Hg Hv Hs1 Hs2. assert (Ht : negb (truthy v) = true) by (by rewrite Hv).
  split_and!.
  - rewrite <- Ht. by apply (race_path s v s1 s2).
  - rewrite <- Ht. by apply isFirstRun_run.
  - intros b s3 l Hrun. apply (isFirstRun_second_false s true s1 [] b s3 l); [| done].
    rewrite <- Ht. by apply isFirstRun_run.
Qed.
End GuardTheorems.

(** ** Witnesses on the in-memory platform *)

Lemma isFirstRun_sets_flag_witness :
  flag_true (out_st (isFirstRun demo0)) /\
  forall v, store_get (flag_key demo0) demo0 = Ok v -> true = negb (truthy v).
Proof.
  apply (isFirstRun_sets_flag demo0 true _ (out_log (isFirstRun demo0))).
  apply out_res_eta. vm_compute. reflexivity.
Defined.

(** The store after the first and after the second write of the flag. *)
Definition race_s1 : mem :=
  match mem_store_set (init_key "development") (VBool true) demo0 with Ok s => s | Throw _ => demo0 end.
Definition race_s2 : mem :=
  match mem_store_set (init_key "development") (VBool true) race_s1 with Ok s => s | Throw _ => demo0 end.

Lemma guard_inv_reachable_witness : guard_inv (race_s2, GDone true, GDone true).
Proof.
  apply (guard_inv_reachable demo0). apply (race_path demo0 VUndef race_s1 race_s2); reflexivity.
Defined.

Lemma guard_race_both_first_witness :
  store_get (flag_key demo0) demo0 = Ok VUndef /\ truthy VUndef = false /\
  store_set (flag_key demo0) (VBool true) demo0 = Ok race_s1 /\
  store_set (flag_key race_s1) (VBool true) race_s1 = Ok race_s2 /\
  star gstep (demo0, GStart, GStart) (race_s2, GDone true, GDone true) /\
  isFirstRun demo0 = Out (Ok true) race_s1 [] /\
  (forall b s3 l, isFirstRun race_s1 = Out (Ok b) s3 l -> b = false).
Proof.
  assert (H1 : store_get (flag_key demo0) demo0 = Ok VUndef) by reflexivity.
  assert (H2 : store_set (flag_key demo0) (VBool true) demo0 = Ok race_s1) by reflexivity.
  assert (H3 : store_set (flag_key race_s1) (VBool true) race_s1 = Ok race_s2) by reflexivity.
  destruct (guard_race_both_first demo0 VUndef race_s1 race_s2 H1 eq_refl H2 H3) as (Hr & Hf & Hs).
  split_and!; assumption || reflexivity.
Defined.
