(* ===== verification/HomePage.v ===== *)
(** * HomePage: the home page importer

    Models [importHomePage] (src/src/bootstrap.js, lines 268-326) and the
    unused helper [createEntry] (lines 196-206).  The importer is split
    along the code's own blocks: [process_seo] (lines 273-284),
    [process_sections] (the loop of lines 288-295), [prepare_home_page]
    (lines 272-301, the body of the outer [try] up to the document),
    [create_home_page] (the inner [try] of lines 305-321), and
    [importHomePage], which wraps them in the outer [try]/[catch] that
    logs and rethrows.

    The fixture [homePage] is a JS value: [homePage.sections.length] is
    read as the code reads it (a [TypeError] on undefined or null; the
    number of characters of a string; for an object, its [length]
    converted to a number as [i < length] converts it: numbers, booleans,
    null and decimal strings, with NaN, hence no iteration, for the rest). *)

From stdpp Require Import base list sets pretty.
From Stdlib Require Import ZArith String Ascii.
From S2P Require Import Prelude JsString JsValue Platform MemPlatform FileResolver Media Sections.

Local Open Scope string_scope.
Local Open Scope list_scope.

Definition home_page_uid : string := "api::home-page.home-page".

(** [error.message && error.message.includes('already exists')] *)
Definition already_exists (e : js_error) : bool :=
  truthy (VStr (err_message e)) && includes (err_message e) "already exists".

(** [Number(s)] for a string of decimal digits (the empty string is 0);
    [None] for a string that is not such a numeral. *)
Fixpoint digits_value (s : string) (acc : Z) : option Z :=
  match s with
  | EmptyString => Some acc
  | String c s' =>
      let n := Z.of_N (N_of_ascii c) in
      if ((48 <=? n) && (n <=? 57))%Z then digits_value s' (10 * acc + (n - 48))%Z else None
  end.

(** The bound of [i < len] as a number: [ToNumber(len)] for numbers,
    booleans, null and decimal strings; [None], NaN, for which the loop
    never runs, otherwise. *)
Definition loop_bound (len : value) : option Z :=
  match len with
  | VNum n => Some n
  | VBool b => Some (if b then 1 else 0)%Z
  | VNull => Some 0%Z
  | VStr s => digits_value s 0
  | _ => None
  end.

(** The elements [homePage.sections[i]] for [i < homePage.sections.length],
    once [length] has been read without throwing. *)
Definition sections_list (sections : value) : list value :=
  match sections with
  | VArr xs => xs
  | VStr s => map VStr (string_chars s)
  | VObj fs =>
      match loop_bound (default VUndef (field_get fs "length")) with
      | Some n =>
          map (fun i => default VUndef (field_get fs (pretty (N.of_nat i)))) (seq 0 (Z.to_nat n))
      | None => []
      end
  | _ => []
  end.

Section Importer.
Context {S : Type} `{Platform S}.

(** Lines 273-284: copy the SEO block, upload its share image or delete
    the field. *)
Definition process_seo (homePage : value) : M S value :=
  seo ← lift (get_prop homePage "seo");
  if truthy seo then
    st_log EvProcessingSeo;;
    let seoData := spread seo in
    shareImage ← lift (get_prop seo "shareImage");
    if truthy shareImage then
      r ← checkFileExistsBeforeUpload shareImage;
      mret (VObj (field_set seoData "shareImage" r))
    else mret (VObj (field_delete seoData "shareImage"))
  else mret VNull.

(** Lines 290-295: [for (let i = 0; i < homePage.sections.length; i++)],
    sequentially. *)
Fixpoint process_sections (count : value) (i : nat) (items : list value) : M S (list value) :=
  match items with
  | [] => mret []
  | section :: rest =>
      comp ← lift (get_prop section "__component");
      st_log (EvProcessingSection (Z.of_nat i + 1)%Z count comp);;
      processed ← processSection section;
      processedRest ← process_sections count (Nat.succ i) rest;
      mret (processed :: processedRest)
  end.

(** Lines 272-301: the data of the home page document. *)
Definition prepare_home_page (homePage : value) : M S value :=
  seoData ← process_seo homePage;
  sections ← lift (get_prop homePage "sections");
  count ← lift (get_prop sections "length");
  st_log (EvProcessingSections count);;
  processedSections ← process_sections count 0 (sections_list sections);
  mret (VObj [("seo", seoData); ("sections", VArr processedSections)]).

(** Lines 305-321: create the document; an error whose message contains
    "already exists" is logged and swallowed, any other is rethrown. *)
Definition create_home_page (homePageData : value) : M S unit :=
  st_log EvCreatingHomePage;;
  st_catch
    (_ ← c_documents_create home_page_uid homePageData;
     st_log EvHomePageCreated)
    (fun error =>
       if already_exists error then
         st_log EvHomePageExists;; st_log EvHomePageExistsWarn
       else st_throw error).

(** [importHomePage()] *)
Definition importHomePage (homePage : value) : M S unit :=
  st_log EvImportingHomePage;;
  st_catch
    (homePageData ← prepare_home_page homePage;
     create_home_page homePageData)
    (fun error => st_log (EvHomePageFailed error);; st_throw error).

(** [createEntry({model, entry})] (never called by the seed code). *)
Definition createEntry (model : string) (entry : value) : M S unit :=
  st_catch
    (_ ← c_documents_create ("api::" ++ model ++ "." ++ model) entry;
     st_log (EvEntryCreated model))
    (fun error => st_log (EvEntryFailed model (err_message error));; st_throw error).
End Importer.

(** ** Effects of the importer *)

Section ImporterStable.
Context {S : Type} `{Platform S}.
Context (P : S -> Prop) (HP : upload_stable P).

Lemma process_seo_preserves hp : preserves P (process_seo hp).
Proof. unfold process_seo. solve_preserves. by apply check_preserves. Qed.

Lemma process_sections_preserves count i items : preserves P (process_sections count i items).
Proof.
  induction items as [| sec items IH] in i |- *; simpl; solve_preserves.
  by apply processSection_preserves.
Qed.

(** Preparing the document keeps every property that uploads keep. *)
Lemma prepare_preserves hp : preserves P (prepare_home_page hp).
Proof.
  unfold prepare_home_page. solve_preserves;
    [apply process_seo_preserves | apply process_sections_preserves].
Qed.
End ImporterStable.

Section ImporterCreateStable.
Context {S : Type} `{Platform S}.
Context (P : S -> Prop) (HP : doc_stable P).

(** The whole importer keeps every property that uploads and document
    creations keep. *)
Lemma importHomePage_preserves hp : preserves P (importHomePage hp).
Proof.
  unfold importHomePage, create_home_page. solve_preserves.
  apply prepare_preserves. by apply doc_upload_stable.
Qed.
End ImporterCreateStable.

#[export] Hint Resolve importHomePage_preserves : pelagic.

Section ImporterLemmas.
Context {S : Type} `{Platform S} `{!PlatformLaws S}.

Lemma documents_stable uid (D : list value) : upload_stable (fun s => document_list uid s = D).
Proof. intros arg s r s' Hup <-. by eapply upload_documents. Qed.

(** Preparing the document creates no document. *)
Lemma prepare_documents hp (s : S) :
  document_list home_page_uid (out_st (prepare_home_page hp s)) = document_list home_page_uid s.
Proof. by apply (prepare_preserves _ (documents_stable home_page_uid _)). Qed.

Lemma create_home_page_error data (s : S) e :
  documents_create home_page_uid data s = Throw e ->
  create_home_page data s =
    if already_exists e
    then Out (Ok tt) s [EvCreatingHomePage; EvHomePageExists; EvHomePageExistsWarn]
    else Out (Throw e) s [EvCreatingHomePage].
Proof.
  intros Hc. unfold create_home_page. rewrite bind_log.
  erewrite catch_err; [| apply bind_err; unfold c_documents_create, st_update; by rewrite Hc].
  by destruct (already_exists e).
Qed.

Lemma create_home_page_ok data (s : S) r s' :
  documents_create home_page_uid data s = Ok (r, s') ->
  create_home_page data s = Out (Ok tt) s' [EvCreatingHomePage; EvHomePageCreated].
Proof.
  intros Hc. unfold create_home_page. rewrite bind_log.
  erewrite catch_ok; [done |]. run_nil (f_equal (fun x => st_update_out (L := event) x s) Hc). done.
Qed.

(** The importer is the preparation, then the creation, inside a
    [try] that logs and rethrows. *)
Lemma importHomePage_run hp (s : S) data s1 l1 r s2 l2 :
  prepare_home_page hp s = Out (Ok data) s1 l1 ->
  create_home_page data s1 = Out r s2 l2 ->
  importHomePage hp s =
    match r with
    | Ok u => Out (Ok u) s2 (EvImportingHomePage :: l1 ++ l2)
    | Throw e => Out (Throw e) s2 (EvImportingHomePage :: (l1 ++ l2) ++ [EvHomePageFailed e])
    end.
Proof.
  intros Hp Hc. unfold importHomePage. rewrite bind_log.
  destruct r as [u | e].
  - erewrite catch_ok; [done |]. run_with Hp. by rewrite Hc.
  - erewrite catch_err; [done |]. run_with Hp. by rewrite Hc.
Qed.

Lemma importHomePage_prepare_err hp (s : S) e s1 l1 :
  prepare_home_page hp s = Out (Throw e) s1 l1 ->
  importHomePage hp s = Out (Throw e) s1 (EvImportingHomePage :: l1 ++ [EvHomePageFailed e]).
Proof.
  intros Hp. unfold importHomePage. rewrite bind_log.
  erewrite catch_err; [done |]. by fail_with Hp.
Qed.
End ImporterLemmas.

(** ** Theorems *)

Section ImporterTheorems.
Context {S : Type} `{Platform S} `{!PlatformLaws S}.

(** C16. When preparing the document fails (a missing media file, a
    failed upload, a malformed section), [importHomePage] logs the failure
    and rethrows the same error, and no home page document is created. *)
Theorem importHomePage_no_document_on_error hp (s : S) e s1 l1 :
  prepare_home_page hp s = Out (Throw e) s1 l1 ->
  importHomePage hp s = Out (Throw e) s1 (EvImportingHomePage :: l1 ++ [EvHomePageFailed e]) /\
  document_list home_page_uid s1 = document_list home_page_uid s.
Proof.
  intros Hp. split; [by apply importHomePage_prepare_err |].
  pose proof (prepare_documents hp s) as Hd. by rewrite Hp in Hd.
Qed.

(** C17. When the document service throws, the importer completes
    (logging that the page exists) exactly when the error message contains
    "already exists", and otherwise logs and rethrows; either way no
    document is created and the existing one is not updated. *)
Theorem importHomePage_create_error hp (s : S) data s1 l1 e :
  prepare_home_page hp s = Out (Ok data) s1 l1 ->
  documents_create home_page_uid data s1 = Throw e ->
  importHomePage hp s =
    (if already_exists e
     then Out (Ok tt) s1 (EvImportingHomePage :: l1 ++
                           [EvCreatingHomePage; EvHomePageExists; EvHomePageExistsWarn])
     else Out (Throw e) s1 (EvImportingHomePage :: (l1 ++ [EvCreatingHomePage]) ++
                            [EvHomePageFailed e])) /\
  document_list home_page_uid s1 = document_list home_page_uid s.
Proof.
  intros Hp Hc. split.
  - pose proof (create_home_page_error data s1 e Hc) as Hcr.
    destruct (already_exists e); by rewrite (importHomePage_run _ _ _ _ _ _ _ _ Hp Hcr).
  - pose proof (prepare_documents hp s) as Hd. by rewrite Hp in Hd.
Qed.

(** C18. When preparation succeeds and the document service accepts the
    prepared data, the importer logs the import, the creation and its
    success and resolves, in the state the service left, and the document
    the service returned is stored under the home page (created, or, for
    a single type, possibly replacing the existing one). *)
Theorem importHomePage_stores_document hp (s : S) data s1 l1 r s2 :
  prepare_home_page hp s = Out (Ok data) s1 l1 ->
  documents_create home_page_uid data s1 = Ok (r, s2) ->
  importHomePage hp s =
    Out (Ok tt) s2 (EvImportingHomePage :: l1 ++ [EvCreatingHomePage; EvHomePageCreated]) /\
  (r ∈ document_list home_page_uid s2).
Proof.
  intros Hp Hc. split.
  - by rewrite (importHomePage_run _ _ _ _ _ _ _ _ Hp (create_home_page_ok data s1 r s2 Hc)).
  - by eapply documents_create_stores.
Qed.

(** What the importer keeps of a fixture section in the document. *)
Definition same_shape (section processed : value) : Prop :=
  forall fs, section = VObj fs -> exists fs', processed = VObj fs' /\ fs'.*1 = fs.*1.

Lemma lift_ok_inv {A} (r : result js_error A) (s : S) a s1 l :
  lift r s = Out (Ok a) s1 l -> r = Ok a /\ s1 = s /\ l = [].
Proof. unfold lift, st_read. destruct r; by intros [= -> -> ->]. Qed.

Lemma process_sections_shape count i items (s : S) ps s' l :
  process_sections count i items s = Out (Ok ps) s' l -> Forall2 same_shape items ps.
Proof.
  induction items as [| sec items IH] in i, s, ps, s', l |- *; simpl; intros Hrun.
  - injection Hrun as <- _ _. constructor.
  - inv_bind Hrun comp Hc. inv_bind Hrun u Hu. inv_bind Hrun p Hp. inv_bind Hrun ps' Hps.
    injection Hrun as <- _ _. constructor; [| by eapply IH].
    intros fs ->. destruct (processSection_keys fs _ _ _ _ Hp) as (fs' & -> & Hk & _).
    by exists fs'.
Qed.

(** C19. The document's [sections] are the fixture's sections processed
    one by one, in order and one-to-one: the [i]-th processed section is
    an object with exactly the keys of the [i]-th fixture section. *)
Theorem prepare_sections_shape hp (s : S) data s1 l1 :
  prepare_home_page hp s = Out (Ok data) s1 l1 ->
  exists seo sections ps,
    get_prop hp "sections" = Ok sections /\
    data = VObj [("seo", seo); ("sections", VArr ps)] /\
    Forall2 same_shape (sections_list sections) ps.
Proof.
  unfold prepare_home_page. intros Hrun.
  inv_bind Hrun seo Hseo. inv_bind Hrun sections Hsec. inv_bind Hrun count Hcount.
  inv_bind Hrun u Hu. inv_bind Hrun ps Hps. injection Hrun as <- _ _.
  apply lift_ok_inv in Hsec as (Hsec & _ & _).
  exists seo, sections, ps. split_and!; [done | done |]. by eapply process_sections_shape.
Qed.

(** C20. An SEO block whose share image is missing or falsy is copied
    with the [shareImage] field deleted, not left null, and nothing is
    uploaded. *)
Theorem process_seo_delete hfs sfs (s : S) :
  field_get hfs "seo" = Some (VObj sfs) ->
  truthy (default VUndef (field_get sfs "shareImage")) = false ->
  process_seo (VObj hfs) s = Out (Ok (VObj (field_delete sfs "shareImage"))) s [EvProcessingSeo].
Proof.
  intros Hseo Hshare. unfold process_seo.
  run_nil (f_equal (fun v => Out (E := js_error) (L := event) (Ok (default VUndef v)) s []) Hseo).
  cbn [default truthy spread id]. rewrite bind_log. simpl.
  erewrite bind_ok_nil; [| reflexivity]. by rewrite Hshare.
Qed.
End ImporterTheorems.

(** ** Witnesses on the in-memory platform *)

Definition demo_seo : list (string * value) :=
  [("metaTitle", VStr "Pelagic"); ("metaDescription", VStr "Ocean"); ("shareImage", VNull)].

(** A fixture with an SEO block without share image, a hero section and an
    FAQ section. *)
Definition demo_home_fields : list (string * value) :=
  [("seo", VObj demo_seo); ("sections", VArr [VObj hero_section; VObj faq_section])].

(** A fixture whose hero image is not on disk. *)
Definition demo_home_missing : value :=
  VObj [("seo", VNull);
        ("sections", VArr [VObj [("__component", VStr "sections.hero");
                                 ("desktopHeroImage", VStr "hero/missing.jpg")]])].

Definition demo_data : value := ok_or VNull (out_res (prepare_home_page (VObj demo_home_fields) demo0)).
Definition demo_s1 : mem := out_st (prepare_home_page (VObj demo_home_fields) demo0).
Definition demo_l1 : list event := out_log (prepare_home_page (VObj demo_home_fields) demo0).

(** The document service of [demo_exists] refuses the home page. *)
Definition demo_exists : mem :=
  with_faults demo0 [FailDocumentCreate home_page_uid "Document home page already exists"].

Lemma importHomePage_no_document_on_error_witness :
  let o := prepare_home_page demo_home_missing demo0 in
  importHomePage demo_home_missing demo0 =
    Out (Throw (mk_error "File not found: data/uploads/hero/missing.jpg")) (out_st o)
        (EvImportingHomePage :: out_log o ++
           [EvHomePageFailed (mk_error "File not found: data/uploads/hero/missing.jpg")]) /\
  document_list home_page_uid (out_st o) = document_list home_page_uid demo0.
Proof.
  apply importHomePage_no_document_on_error. apply out_res_eta. vm_compute. reflexivity.
Defined.

Lemma importHomePage_create_error_witness :
  let o := prepare_home_page (VObj demo_home_fields) demo_exists in
  let e := mk_error "Document home page already exists" in
  importHomePage (VObj demo_home_fields) demo_exists =
    (if already_exists e
     then Out (Ok tt) (out_st o) (EvImportingHomePage :: out_log o ++
                           [EvCreatingHomePage; EvHomePageExists; EvHomePageExistsWarn])
     else Out (Throw e) (out_st o) (EvImportingHomePage :: (out_log o ++ [EvCreatingHomePage]) ++
                            [EvHomePageFailed e])) /\
  document_list home_page_uid (out_st o) = document_list home_page_uid demo_exists.
Proof.
  apply (importHomePage_create_error _ _ (ok_or VNull (out_res (prepare_home_page (VObj demo_home_fields) demo_exists)))).
  - apply out_res_eta. vm_compute. reflexivity.
  - vm_compute. reflexivity.
Defined.

Lemma importHomePage_stores_document_witness :
  let r := ok_or (VNull, demo0) (documents_create home_page_uid demo_data demo_s1) in
  importHomePage (VObj demo_home_fields) demo0 =
    Out (Ok tt) r.2 (EvImportingHomePage :: demo_l1 ++ [EvCreatingHomePage; EvHomePageCreated]) /\
  (r.1 ∈ document_list home_page_uid r.2).
Proof.
  apply (importHomePage_stores_document _ _ demo_data demo_s1 demo_l1).
  - apply out_res_eta. vm_compute. reflexivity.
  - vm_compute. reflexivity.
Defined.

Lemma prepare_sections_shape_witness :
  exists seo sections ps,
    get_prop (VObj demo_home_fields) "sections" = Ok sections /\
    demo_data = VObj [("seo", seo); ("sections", VArr ps)] /\
    Forall2 same_shape (sections_list sections) ps.
Proof.
  apply (prepare_sections_shape (VObj demo_home_fields) demo0 demo_data demo_s1 demo_l1).
  apply out_res_eta. vm_compute. reflexivity.
Defined.

Lemma process_seo_delete_witness :
  process_seo (VObj demo_home_fields) demo0 =
    Out (Ok (VObj (field_delete demo_seo "shareImage"))) demo0 [EvProcessingSeo].
Proof. apply process_seo_delete; reflexivity. Defined.
