(* ===== verification/Permissions.v ===== *)
(** * Permissions: the public role's permissions

    Models [setPublicPermissions] of src/src/bootstrap.js (lines 50-80):
    the lookup of the public role, the early return with a warning when
    there is none, the nested [Object.keys(...).forEach] / [actions.map]
    that issues one [strapi.query(permission).create] per (controller,
    action) pair, and the [await Promise.all] on the issued promises.

    The loops are synchronous: they only start creates, in a fixed order,
    and are modelled with the list of started creates as their state
    ([Issue]); the promise [map] collects is the number of its create.
    A [TypeError] thrown by a later controller (actions that are not an
    array) leaves the creates started before it running.  The started
    creates then complete in the order the event loop chooses (the
    platform's [schedule], a permutation of the start order), each one
    settling to a [result]; [Promise.all] rejects with the first
    rejection in that order, the first in time.  Each create is one
    atomic database call; the creates left running after a [TypeError]
    or a rejection are run to completion before the rejection is
    returned, which no later step of the seed code can tell apart, since
    after it the code only logs. *)

From stdpp Require Import base list sets.
From Stdlib Require Import ZArith String Ascii.
From S2P Require Import Prelude JsString JsValue Platform MemPlatform.

Local Open Scope string_scope.
Local Open Scope list_scope.

Definition role_uid : string := "plugin::users-permissions.role".
Definition permission_uid : string := "plugin::users-permissions.permission".

(** [Object.keys(v)] paired with [v[k]]. *)
Definition object_entries (v : value) : result js_error (list (string * value)) :=
  match v with
  | VUndef | VNull => Throw (type_error "Cannot convert undefined or null to object")
  | _ => Ok (spread v)
  end.

(** [`api::${controller}.${controller}.${action}`] *)
Definition permission_action (controller : string) (action : value) : string :=
  "api::" ++ controller ++ "." ++ controller ++ "." ++ to_js_string action.

(** [{ action: ..., role: publicRole.id }] *)
Definition permission_data (controller : string) (action roleId : value) : value :=
  VObj [("action", VStr (permission_action controller action)); ("role", roleId)].

(** [actions.map] on something that is not an array. *)
Definition map_error (actions : value) : js_error :=
  match actions with
  | VUndef | VNull =>
      type_error ("Cannot read properties of " ++ to_js_string actions ++ " (reading 'map')")
  | _ => type_error "actions.map is not a function"
  end.

(** [await Promise.all(ps)] once every promise has settled: the values,
    or the first rejection. *)
Fixpoint promise_all {A} (ps : list (result js_error A)) : result js_error (list A) :=
  match ps with
  | [] => Ok []
  | Ok v :: ps' => result_map (cons v) (promise_all ps')
  | Throw e :: _ => Throw e
  end.

(** The synchronous part of [setPublicPermissions]: its state is the
    list of the creates started so far, in start order. *)
Abbreviation Issue := (ST js_error (list value) event).

(** [strapi.query(permission).create({data})], started and not awaited:
    the promise is the number of the started create. *)
Definition start_create (data : value) : Issue nat :=
  fun started => Out (Ok (List.length started)) (started ++ [data]) [].

(** The callback of [actions.map]: read [publicRole.id], start the create. *)
Definition create_permission (publicRole : value) (controller : string) (action : value)
    : Issue nat :=
  roleId ← lift (get_prop publicRole "id");
  start_create (permission_data controller action roleId).

(** [const permissionsToCreate = actions.map(...)] *)
Definition map_actions (publicRole : value) (controller : string) (actions : value)
    : Issue (list nat) :=
  match actions with
  | VArr xs => st_mapM (create_permission publicRole controller) xs
  | _ => st_throw (map_error actions)
  end.

(** [Object.keys(newPermissions).forEach(...)] with
    [allPermissionsToCreate.push(...permissionsToCreate)]. *)
Fixpoint issue_all (publicRole : value) (entries : list (string * value)) : Issue (list nat) :=
  match entries with
  | [] => mret []
  | (controller, actions) :: entries' =>
      ps ← map_actions publicRole controller actions;
      rest ← issue_all publicRole entries';
      mret (ps ++ rest)
  end.

Section Seeder.
Context {S : Type} `{Platform S}.

(** A promise whose outcome is kept, whether it fulfils or rejects. *)
Definition settle {A} (m : M S A) : M S (result js_error A) :=
  st_catch (x ← m; mret (Ok x)) (fun e => mret (Throw e)).

(** The started creates run to completion in the order the event loop
    chooses; their outcomes, in that order. *)
Definition run_started (started : list value) : M S (list (result js_error value)) :=
  order ← c_schedule (List.length started);
  st_mapM (fun i => settle (c_query_create permission_uid (nth i started VUndef))) order.

(** [setPublicPermissions(newPermissions)] *)
Definition setPublicPermissions (newPermissions : value) : M S unit :=
  publicRole ← c_findOne role_uid [("type", VStr "public")];
  if negb (truthy publicRole) then st_log EvPublicRoleMissing
  else
    entries ← lift (object_entries newPermissions);
    '(issued, started) ← st_local (issue_all publicRole entries) [];
    settled ← run_started started;
    match issued with
    | Throw e => st_throw e
    | Ok _ =>
        _ ← lift (promise_all settled);
        st_log EvPermissionsConfigured
    end.
End Seeder.

Section SeederStable.
Context {S : Type} `{Platform S}.
Context (P : S -> Prop) (HP : create_stable P).

Lemma run_started_preserves started : preserves P (run_started started).
Proof. unfold run_started, settle. solve_preserves. Qed.

(** [setPublicPermissions] keeps every property that creations keep. *)
Lemma setPublicPermissions_preserves np : preserves P (setPublicPermissions np).
Proof. unfold setPublicPermissions. solve_preserves; apply run_started_preserves. Qed.
End SeederStable.

(** ** The requests, flattened

    The reference the nested loops implement: the data of every create in
    start order, and the [TypeError] that stops the loop, if any. *)
Fixpoint permission_requests (roleId : value) (entries : list (string * value))
    : list value * option js_error :=
  match entries with
  | [] => ([], None)
  | (controller, VArr xs) :: entries' =>
      let '(reqs, err) := permission_requests roleId entries' in
      (map (fun a => permission_data controller a roleId) xs ++ reqs, err)
  | (_, actions) :: _ => ([], Some (map_error actions))
  end.

(** Start the given creates one after the other, then throw the loop's
    error if it had one. *)
Definition issue_requests (reqs : list value) (err : option js_error) : Issue (list nat) :=
  ps ← st_mapM start_create reqs;
  match err with Some e => st_throw e | None => mret ps end.

(** The started creates in the order given by their numbers. *)
Definition apply_order (order : list nat) (started : list value) : list value :=
  map (fun i => nth i started VUndef) order.

(** ** The loops implement the flattened requests *)

Lemma create_permission_id publicRole roleId controller a :
  get_prop publicRole "id" = Ok roleId ->
  create_permission publicRole controller a ≡ start_create (permission_data controller a roleId).
Proof. intros Hid. unfold create_permission. by rewrite Hid, lift_Ok_bind. Qed.

Lemma issue_all_flat publicRole roleId entries :
  get_prop publicRole "id" = Ok roleId ->
  issue_all publicRole entries
    ≡ (let '(reqs, err) := permission_requests roleId entries in issue_requests reqs err).
Proof.
  intros Hid. unfold issue_requests.
  induction entries as [| [controller actions] entries IH]; simpl.
  - by rewrite !st_bind_ret_l.
  - destruct actions as [| | | | | xs |]; simpl;
      try by rewrite st_bind_throw, st_bind_ret_l.
    destruct (permission_requests roleId entries) as [reqs err].
    rewrite (st_mapM_ext (create_permission publicRole controller)
               (start_create ∘ (fun a => permission_data controller a roleId)));
      [| intros a; by apply create_permission_id].
    setoid_rewrite IH.
    rewrite st_mapM_app, st_mapM_map, st_bind_assoc.
    apply st_bind_Proper; [intros a | done].
    rewrite !st_bind_assoc. apply st_bind_Proper; [intros b | done].
    destruct err; by rewrite ?st_bind_throw, ?st_bind_ret_l.
Qed.

(** C21. The nested [forEach]/[map]/[push] loops start exactly the
    flattened list of permission creates, (controller, action) pairs in
    key order then action order, each with the public role's id, and stop
    with the [TypeError] of the first controller whose actions are not an
    array, after the creates started before it. *)
Theorem issue_all_refines publicRole roleId entries :
  get_prop publicRole "id" = Ok roleId ->
  issue_all publicRole entries
    ≡ (let '(reqs, err) := permission_requests roleId entries in issue_requests reqs err).
Proof. apply issue_all_flat. Qed.

Lemma start_all_run reqs started :
  st_mapM start_create reqs started =
    Out (Ok (seq (List.length started) (List.length reqs))) (started ++ reqs) [].
Proof.
  induction reqs as [| d reqs IH] in started |- *; simpl.
  - by rewrite app_nil_r.
  - cbv [mbind st_mbind st_bind mret st_mret st_ret start_create] in *.
    rewrite IH, length_app, Nat.add_1_r, <- app_assoc. done.
Qed.

(** The loops run from no started create: they start [reqs], and then
    return their promises or throw the loop's error. *)
Lemma issue_all_started publicRole roleId entries reqs err :
  get_prop publicRole "id" = Ok roleId -> permission_requests roleId entries = (reqs, err) ->
  issue_all publicRole entries [] =
    Out (match err with Some e => Throw e | None => Ok (seq 0 (List.length reqs)) end) reqs [].
Proof.
  intros Hid Hreq. rewrite (issue_all_flat _ _ entries Hid []), Hreq. unfold issue_requests.
  cbv [mbind st_mbind st_bind]. rewrite start_all_run. by destruct err.
Qed.

Lemma map_nth_seq_self (l : list value) : map (fun i => nth i l VUndef) (seq 0 (List.length l)) = l.
Proof.
  induction l as [| a l IH]; [done |]. cbn [List.length seq map nth]. f_equal.
  by rewrite <- seq_shift, map_map.
Qed.

(** Completing the started creates in any order of their numbers runs
    each of them once. *)
Lemma apply_order_perm order started :
  order ≡ₚ seq 0 (List.length started) -> apply_order order started ≡ₚ started.
Proof.
  intros Hp. unfold apply_order. etrans; [by apply Permutation_map |].
  by rewrite map_nth_seq_self.
Qed.

(** ** What the creates write *)

(** A settled create of [req]: a row with a fresh [id] before the data,
    or a rejection. *)
Definition settled_row (req : value) (p : result js_error value) : Prop :=
  match p with Ok row => exists id, row = VObj (("id", id) :: spread req) | Throw _ => True end.

Definition is_object (v : value) : Prop := match v with VObj _ => True | _ => False end.

(** A row without its leading [id]. *)
Definition strip_id (row : value) : value :=
  match row with VObj (_ :: fs) => VObj fs | _ => row end.

(** The fulfilled values among settled promises. *)
Definition oks {A} (ps : list (result js_error A)) : list A :=
  omap (fun p => match p with Ok r => Some r | Throw _ => None end) ps.

Section Rows.
Context {S : Type} `{PlatformLaws S}.

Lemma settle_create_run uid d (s : S) :
  settle (c_query_create uid d) s =
    match query_create uid d s with
    | Ok (r, s') => Out (Ok (Ok r)) s' []
    | Throw e => Out (Ok (Throw e)) s []
    end.
Proof. unfold settle, c_query_create. st_unfold. by destruct (query_create uid d s) as [[r s'] | e]. Qed.

(** Settled creates never throw, log nothing, and append the fulfilled
    rows to the permission table in the order they run. *)
Lemma settle_all_run reqs (s : S) :
  exists ps s',
    st_mapM (fun d => settle (c_query_create permission_uid d)) reqs s = Out (Ok ps) s' [] /\
    Forall2 settled_row reqs ps /\
    query_rows permission_uid s' = query_rows permission_uid s ++ oks ps.
Proof.
  induction reqs as [| d reqs IH] in s |- *; simpl.
  - exists [], s. by rewrite app_nil_r.
  - destruct (query_create permission_uid d s) as [[r s1] | e] eqn:E;
      [ destruct (IH s1) as (ps & s' & Hrun & Hrows & Hq)
      | destruct (IH s) as (ps & s' & Hrun & Hrows & Hq) ].
    + exists (Ok r :: ps), s'. erewrite bind_ok_nil; [| by rewrite settle_create_run, E].
      run_nil Hrun. split_and!; [done | constructor; [| done] |].
      * by eapply query_create_row.
      * simpl. by rewrite Hq, (query_create_rows _ _ _ _ _ E), <- app_assoc.
    + exists (Throw e :: ps), s'. erewrite bind_ok_nil; [| by rewrite settle_create_run, E].
      run_nil Hrun. split_and!; [done | by constructor | done].
Qed.

(** The started creates complete in the platform's order: one outcome
    per create in that order, and the fulfilled rows appended in it. *)
Lemma run_started_run started (s : S) :
  exists ps s',
    run_started started s = Out (Ok ps) s' [] /\
    Forall2 settled_row (apply_order (schedule (List.length started) s) started) ps /\
    query_rows permission_uid s' = query_rows permission_uid s ++ oks ps.
Proof.
  destruct (settle_all_run (apply_order (schedule (List.length started) s) started) s)
    as (ps & s' & Hrun & Hrows & Hq).
  exists ps, s'. split_and!; [| done | done].
  unfold run_started, c_schedule. erewrite bind_ok_nil; [| done].
  unfold apply_order in Hrun. rewrite st_mapM_map in Hrun. exact Hrun.
Qed.
End Rows.

Section Seeding.
Context {S : Type} `{PlatformLaws S}.

Lemma setPublicPermissions_spec newPermissions (s : S) role roleId entries reqs err :
  query_findOne role_uid [("type", VStr "public")] s = Ok role -> truthy role = true ->
  get_prop role "id" = Ok roleId -> object_entries newPermissions = Ok entries ->
  permission_requests roleId entries = (reqs, err) ->
  exists ps s',
    Forall2 settled_row (apply_order (schedule (List.length reqs) s) reqs) ps /\
    query_rows permission_uid s' = query_rows permission_uid s ++ oks ps /\
    setPublicPermissions newPermissions s =
      match err, promise_all ps with
      | Some e, _ => Out (Throw e) s' []
      | None, Ok _ => Out (Ok tt) s' [EvPermissionsConfigured]
      | None, Throw e => Out (Throw e) s' []
      end.
Proof.
  intros Hfind Htr Hid Hent Hreq.
  destruct (run_started_run reqs s) as (ps & s' & Hrun & Hrows & Hq).
  exists ps, s'. split_and!; [done | done |].
  unfold setPublicPermissions.
  erewrite bind_ok_nil; [| unfold c_findOne, st_read; by rewrite Hfind].
  rewrite Htr. cbn [negb]. rewrite Hent, (lift_Ok_bind _ _ s).
  erewrite bind_ok_nil; [| unfold st_local; by rewrite (issue_all_started _ _ _ _ _ Hid Hreq)].
  cbv beta iota. run_nil Hrun. destruct err as [e |]; [done |].
  destruct (promise_all ps) as [vs | e]; [| done].
  by rewrite (lift_Ok_bind _ _ s').
Qed.

(** C22. With a public role, every create the loops start runs, even
    after a rejection or a [TypeError] of the loop, in the order the event
    loop completes them (a permutation of the start order), and appends
    its row, the request's data with a fresh [id], to the permission
    table in that order; [setPublicPermissions] then throws the loop's
    [TypeError], or else the first rejection in completion order, or
    logs success. *)
Theorem setPublicPermissions_run newPermissions (s : S) role roleId entries reqs err :
  query_findOne role_uid [("type", VStr "public")] s = Ok role -> truthy role = true ->
  get_prop role "id" = Ok roleId -> object_entries newPermissions = Ok entries ->
  permission_requests roleId entries = (reqs, err) ->
  apply_order (schedule (List.length reqs) s) reqs ≡ₚ reqs /\
  exists ps s',
    Forall2 settled_row (apply_order (schedule (List.length reqs) s) reqs) ps /\
    query_rows permission_uid s' = query_rows permission_uid s ++ oks ps /\
    setPublicPermissions newPermissions s =
      match err, promise_all ps with
      | Some e, _ => Out (Throw e) s' []
      | None, Ok _ => Out (Ok tt) s' [EvPermissionsConfigured]
      | None, Throw e => Out (Throw e) s' []
      end.
Proof.
  intros Hfind Htr Hid Hent Hreq. split; [apply apply_order_perm, schedule_perm |].
  by apply (setPublicPermissions_spec _ _ _ _ _ _ _ Hfind Htr Hid Hent Hreq).
Qed.

(** C23. Without a public role (the lookup returns null or another falsy
    value), [setPublicPermissions] warns and returns, creating nothing. *)
Theorem setPublicPermissions_no_role newPermissions (s : S) role :
  query_findOne role_uid [("type", VStr "public")] s = Ok role -> truthy role = false ->
  setPublicPermissions newPermissions s = Out (Ok tt) s [EvPublicRoleMissing].
Proof.
  intros Hfind Htr. unfold setPublicPermissions.
  erewrite bind_ok_nil; [| unfold c_findOne, st_read; by rewrite Hfind].
  by rewrite Htr.
Qed.
End Seeding.

(** When [Promise.all] fulfils, every create fulfilled, and the rows
    without their ids are the requests in completion order. *)
Lemma promise_all_rows reqs ps vs :
  Forall2 settled_row reqs ps -> promise_all ps = Ok vs -> Forall is_object reqs ->
  oks ps = vs /\ map strip_id vs = reqs.
Proof.
  intros Hrows. induction Hrows as [| d p reqs ps Hp Hrows IH] in vs |- *; simpl.
  - by intros [= <-].
  - destruct p as [row | e]; [| done]. destruct (promise_all ps) as [vs' |] eqn:E; [| done].
    intros [= <-] [Hd Hobj]%Forall_cons. destruct (IH vs' eq_refl Hobj) as [Hoks Hmap].
    simpl. rewrite Hoks, Hmap. split; [done |]. destruct Hp as [id ->].
    destruct d; cbn in Hd; try contradiction; done.
Qed.

(** ** Witnesses on the in-memory platform *)

(** The argument [importSeedData] passes (bootstrap.js, lines 335-340). *)
Definition seed_permissions : value :=
  VObj [("home-page", VArr [VStr "find"; VStr "findOne"]);
        ("global-setting", VArr [VStr "find"; VStr "findOne"]);
        ("journal-article", VArr [VStr "find"; VStr "findOne"]);
        ("journal-page", VArr [VStr "find"; VStr "findOne"])].

(** [demo0] with the public role (id 1). *)
Definition demo_role : mem := (insert_row role_uid [("type", VStr "public")] demo0).2.
Definition public_role : value := VObj [("id", VNum 1); ("type", VStr "public")].

Lemma issue_all_refines_witness :
  get_prop public_role "id" = Ok (VNum 1) /\
  issue_all public_role (spread seed_permissions)
    ≡ (let '(reqs, err) := permission_requests (VNum 1) (spread seed_permissions) in
       issue_requests reqs err).
Proof. split; [reflexivity |]. apply issue_all_refines. reflexivity. Defined.

Lemma setPublicPermissions_run_witness :
  let '(reqs, err) := permission_requests (VNum 1) (spread seed_permissions) in
  apply_order (schedule (List.length reqs) demo_role) reqs ≡ₚ reqs /\
  exists ps s',
    Forall2 settled_row (apply_order (schedule (List.length reqs) demo_role) reqs) ps /\
    query_rows permission_uid s' = query_rows permission_uid demo_role ++ oks ps /\
    setPublicPermissions seed_permissions demo_role =
      match err, promise_all ps with
      | Some e, _ => Out (Throw e) s' []
      | None, Ok _ => Out (Ok tt) s' [EvPermissionsConfigured]
      | None, Throw e => Out (Throw e) s' []
      end.
Proof.
  apply (setPublicPermissions_run seed_permissions demo_role public_role (VNum 1)
           (spread seed_permissions)
           (permission_requests (VNum 1) (spread seed_permissions)).1
           (permission_requests (VNum 1) (spread seed_permissions)).2); reflexivity.
Defined.

Lemma setPublicPermissions_no_role_witness :
  setPublicPermissions seed_permissions demo0 = Out (Ok tt) demo0 [EvPublicRoleMissing].
Proof. apply (setPublicPermissions_no_role _ _ VNull); reflexivity. Defined.

#[export] Hint Resolve setPublicPermissions_preserves : pelagic.
