(* ===== verification/Bootstrap.v ===== *)
(** * Bootstrap: the entry point

    Models [importSeedData] (src/src/bootstrap.js, lines 331-349) and
    [seedPelagicApp] (lines 12-29), the function the module exports: the
    run-once guard, then, on a first run, the permissions and the home
    page inside a [try] whose [catch] only logs.  The fixture [homePage]
    (the [homePage] of data.json, required at line 6) is a parameter.

    The theorems: the bootstrap rejects exactly when the guard does (an
    import error is logged and swallowed); after a bootstrap whose guard
    succeeded, every later bootstrap only logs that the data was imported,
    even when the import failed, so a failed import is never retried; a
    permission error stops the import before the home page; a successful
    import appends one row per requested permission, each once, in the
    order the creates completed; and two concurrent startups whose guards
    race can both import, which duplicates every permission. *)

From stdpp Require Import base list sets.
From Stdlib Require Import ZArith String Ascii.
From S2P Require Import Prelude JsString JsValue Platform MemPlatform FileResolver Media Sections Guard HomePage Permissions.

Local Open Scope string_scope.
Local Open Scope list_scope.

Section Entry.
Context {S : Type} `{Platform S}.

(** [importSeedData()] *)
Definition importSeedData (homePage : value) : M S unit :=
  st_log EvStartingImport;;
  setPublicPermissions seed_permissions;;
  importHomePage homePage;;
  st_log EvImportComplete.

(** Lines 16-23: the import inside its [try]/[catch]. *)
Definition seed_import (homePage : value) : M S unit :=
  st_catch
    (st_log EvSettingUp;; importSeedData homePage;; (st_log EvBootstrapComplete : M S unit))
    (fun error => st_log EvImportFailed;; st_log (EvErrorObject error)).

(** [seedPelagicApp()] *)
Definition seedPelagicApp (homePage : value) : M S unit :=
  shouldImportSeedData ← isFirstRun;
  if (shouldImportSeedData : bool) then seed_import homePage
  else st_log EvAlreadyImported.
End Entry.

(** ** Lemmas *)

Section EntryLemmas.
Context {S : Type} `{Platform S}.

(** The bootstrap once the guard has answered. *)
Lemma seedPelagicApp_after_guard hp (s : S) b s1 l1 :
  isFirstRun s = Out (Ok b) s1 l1 ->
  let m := if b then seed_import hp else st_log EvAlreadyImported in
  seedPelagicApp hp s = Out (out_res (m s1)) (out_st (m s1)) (l1 ++ out_log (m s1)).
Proof. intros Hg. unfold seedPelagicApp. by rewrite (bind_ok _ _ _ _ _ _ Hg). Qed.

(** The [catch] only logs: the import inside its [try] never throws. *)
Lemma seed_import_ok hp (s : S) : is_ok (out_res (seed_import hp s)) = true.
Proof.
  unfold seed_import, st_catch. rewrite bind_log.
  by destruct ((importSeedData hp;; (st_log EvBootstrapComplete : M S unit)) s) as [[u | e] s1 l1].
Qed.

(** The bootstrap resolves exactly when the guard does. *)
Lemma seedPelagicApp_is_ok hp (s : S) :
  is_ok (out_res (seedPelagicApp hp s)) = is_ok (out_res (isFirstRun s)).
Proof.
  destruct (isFirstRun s) as [[b | e] s1 l1] eqn:E.
  - rewrite (seedPelagicApp_after_guard _ _ _ _ _ E). destruct b; [apply seed_import_ok | done].
  - unfold seedPelagicApp. by rewrite (bind_err _ _ _ _ _ _ E).
Qed.
End EntryLemmas.

Section EntryStable.
Context {S : Type} `{Platform S}.
Context (P : S -> Prop) (HP : create_stable P).

Lemma importSeedData_preserves hp : preserves P (importSeedData hp).
Proof. unfold importSeedData. solve_preserves. Qed.

Lemma seed_import_preserves hp : preserves P (seed_import hp).
Proof. unfold seed_import. solve_preserves. apply importSeedData_preserves. Qed.
End EntryStable.

Section EntryLaws.
Context {S : Type} `{PlatformLaws S}.

(** A plugin store entry and the configuration are kept by every creation. *)
Lemma store_env_stable k c env :
  create_stable (fun s : S => store_get k s = c /\ config_environment s = env).
Proof.
  split; [split |].
  - intros arg s r s' Hup [<- <-]. split; [by eapply upload_store | by eapply upload_env].
  - intros uid d s r s' Hc [<- <-]. split; [by eapply documents_create_store | by eapply documents_create_env].
  - intros uid d s r s' Hc [<- <-]. split; [by eapply query_create_store | by eapply query_create_env].
Qed.

(** The permission table is kept by uploads and document creations. *)
Lemma permission_rows_stable R : doc_stable (fun s : S => query_rows permission_uid s = R).
Proof.
  split.
  - intros arg s r s' Hup <-. by eapply upload_rows.
  - intros uid d s r s' Hc <-. by eapply documents_create_rows.
Qed.

Lemma isFirstRun_log (s : S) : out_log (isFirstRun s) = [].
Proof.
  unfold isFirstRun. calls_unfold. cbn.
  destruct (store_get _ s); cbn; [| done]. by destruct (store_set _ _ s).
Qed.

(** After a successful guard, the flag reads [true] at the end of the
    bootstrap, whatever the import did. *)
Lemma seed_flag_true hp (s : S) b s1 l1 :
  isFirstRun s = Out (Ok b) s1 l1 -> flag_true (out_st (seedPelagicApp hp s)).
Proof.
  intros Hg. pose proof Hg as (v & _ & Hs & _ & _)%isFirstRun_inv.
  rewrite (seedPelagicApp_after_guard _ _ _ _ _ Hg). cbn [out_st].
  set (m := if b then seed_import hp else st_log EvAlreadyImported).
  assert (Hm : preserves (fun x => store_get (flag_key s1) x = store_get (flag_key s1) s1 /\
                                   config_environment x = config_environment s1) m).
  { unfold m. destruct b; solve_preserves. apply seed_import_preserves, store_env_stable. }
  destruct (Hm s1 (conj eq_refl eq_refl)) as [Hget Henv].
  intros w Hw. unfold flag_key in Hw. rewrite Henv in Hw. fold (flag_key s1) in Hw. rewrite Hget in Hw.
  by apply (write_flag_true _ _ Hs).
Qed.
End EntryLaws.

(** ** Theorems *)

Section EntryTheorems.
Context {S : Type} `{PlatformLaws S}.

(** C24. The bootstrap rejects exactly when the run-once guard does (a
    plugin store error, outside the [try]); every error of the import is
    caught. *)
Theorem seedPelagicApp_rejects hp (s : S) e s' l :
  seedPelagicApp hp s = Out (Throw e) s' l <-> isFirstRun s = Out (Throw e) s' l.
Proof.
  destruct (isFirstRun s) as [[b | e'] s1 l1] eqn:E.
  - rewrite (seedPelagicApp_after_guard _ _ _ _ _ E). split; [| done]. intros [= He _ _].
    destruct b; [| done]. pose proof (seed_import_ok hp s1) as Hok. by rewrite He in Hok.
  - unfold seedPelagicApp. rewrite (bind_err _ _ _ _ _ _ E). by split; intros [= -> -> ->].
Qed.

Lemma seedPelagicApp_import_error_run hp (s : S) s1 l1 e s2 l2 :
  isFirstRun s = Out (Ok true) s1 l1 ->
  importSeedData hp s1 = Out (Throw e) s2 l2 ->
  seedPelagicApp hp s = Out (Ok tt) s2 (l1 ++ EvSettingUp :: l2 ++ [EvImportFailed; EvErrorObject e]).
Proof.
  intros Hg Hi. rewrite (seedPelagicApp_after_guard _ _ _ _ _ Hg). cbv zeta.
  unfold seed_import. rewrite (catch_err _ _ _ e s2 (EvSettingUp :: l2)).
  - by rewrite bind_log.
  - rewrite bind_log. by rewrite (bind_err _ _ _ _ _ _ Hi).
Qed.

(** C25. On a first run, an import error is logged ("Could not import
    seed data" and the error) and swallowed: the bootstrap resolves, in
    the state the failed import left. *)
Theorem seedPelagicApp_import_error hp (s : S) s1 l1 e s2 l2 :
  isFirstRun s = Out (Ok true) s1 l1 ->
  importSeedData hp s1 = Out (Throw e) s2 l2 ->
  seedPelagicApp hp s = Out (Ok tt) s2 (l1 ++ EvSettingUp :: l2 ++ [EvImportFailed; EvErrorObject e]).
Proof. apply seedPelagicApp_import_error_run. Qed.

(** C26. Once a bootstrap's guard has succeeded, every later bootstrap
    only logs that the seed data was imported (or rejects with a store
    error): the import is never run again, even when the first one
    failed. *)
Theorem seedPelagicApp_runs_once hp (s : S) b s1 l1 r s2 l2 r' s3 l3 :
  isFirstRun s = Out (Ok b) s1 l1 ->
  seedPelagicApp hp s = Out r s2 l2 ->
  seedPelagicApp hp s2 = Out r' s3 l3 ->
  (r' = Ok tt /\ l3 = [EvAlreadyImported]) \/ (exists e, r' = Throw e /\ l3 = []).
Proof.
  intros Hg Hrun Hrun'. pose proof (seed_flag_true hp s _ _ _ Hg) as Hflag.
  rewrite Hrun in Hflag. cbn [out_st] in Hflag.
  destruct (isFirstRun s2) as [[b' | e] s4 l4] eqn:E.
  - left. pose proof E as (v & Hv & _ & -> & ->)%isFirstRun_inv.
    rewrite (Hflag v Hv) in E. rewrite (seedPelagicApp_after_guard _ _ _ _ _ E) in Hrun'.
    by injection Hrun' as <- _ <-.
  - right. exists e. pose proof (isFirstRun_log s2) as Hl. rewrite E in Hl. cbn in Hl; subst l4.
    unfold seedPelagicApp in Hrun'. rewrite (bind_err _ _ _ _ _ _ E) in Hrun'.
    by injection Hrun' as <- _ <-.
Qed.

(** C27. The permissions come first: when [setPublicPermissions] throws,
    the import stops with its error before the home page is imported. *)
Theorem importSeedData_permissions_error hp (s : S) e s1 l1 :
  setPublicPermissions seed_permissions s = Out (Throw e) s1 l1 ->
  importSeedData hp s = Out (Throw e) s1 (EvStartingImport :: l1).
Proof. intros Hp. unfold importSeedData. rewrite bind_log. by rewrite (bind_err _ _ _ _ _ _ Hp). Qed.

(** The rows one successful import adds: the requested permissions, in
    the order their creates completed. *)
Lemma importSeedData_rows hp (s : S) role roleId s' l :
  query_findOne role_uid [("type", VStr "public")] s = Ok role -> truthy role = true ->
  get_prop role "id" = Ok roleId ->
  importSeedData hp s = Out (Ok tt) s' l ->
  exists added,
    query_rows permission_uid s' = query_rows permission_uid s ++ added /\
    map strip_id added ≡ₚ (permission_requests roleId (spread seed_permissions)).1.
Proof.
  intros Hfind Htr Hid Hrun. unfold importSeedData in Hrun.
  apply bind_log_inv in Hrun as (l0 & Hrun & _).
  inv_bind Hrun u Hperm. inv_bind Hrun u' Hhome. injection Hrun as <- _.
  destruct (setPublicPermissions_spec seed_permissions s role roleId (spread seed_permissions)
              (permission_requests roleId (spread seed_permissions)).1 None
              Hfind Htr Hid eq_refl eq_refl) as (ps & sp & Hrows & Hq & Hspec).
  rewrite Hspec in Hperm. destruct (promise_all ps) as [vs | e] eqn:Hall; [| done].
  injection Hperm; intros; subst.
  pose proof (apply_order_perm _ _ (schedule_perm (List.length (permission_requests roleId (spread seed_permissions)).1) s)) as Hord.
  destruct (promise_all_rows _ _ _ Hrows Hall) as [Hoks Hmap]; [rewrite Hord; repeat constructor |].
  exists vs. split; [| by rewrite Hmap].
  rewrite <- Hoks, <- Hq.
  pose proof (importHomePage_preserves _ (permission_rows_stable (query_rows permission_uid s0)) hp s0 eq_refl) as Hh.
  by rewrite Hhome in Hh.
Qed.

(** C28. A successful import with a public role appends to the
    permission table one row per requested permission (the four content
    types, [find] and [findOne]), each once, in the order the creates
    completed; nothing else touches the table. *)
Theorem importSeedData_permission_rows hp (s : S) role roleId s' l :
  query_findOne role_uid [("type", VStr "public")] s = Ok role -> truthy role = true ->
  get_prop role "id" = Ok roleId ->
  importSeedData hp s = Out (Ok tt) s' l ->
  exists added,
    query_rows permission_uid s' = query_rows permission_uid s ++ added /\
    map strip_id added ≡ₚ (permission_requests roleId (spread seed_permissions)).1.
Proof. apply importSeedData_rows. Qed.

Lemma seed_import_ok_run hp (s : S) s' l :
  importSeedData hp s = Out (Ok tt) s' l ->
  seed_import hp s = Out (Ok tt) s' (EvSettingUp :: l ++ [EvBootstrapComplete]).
Proof.
  intros Hi. unfold seed_import. erewrite catch_ok; [done |].
  rewrite bind_log. by rewrite (bind_ok _ _ _ _ _ _ Hi).
Qed.

(** C29. Two startups on a fresh database can both import: their guards
    interleave so that both read the flag unset and both answer "first
    run"; each then runs the whole import, and when both imports succeed
    the permission table has gained every requested permission twice. *)
Theorem concurrent_bootstraps_duplicate hp (s : S) v s1 s2 role roleId s3 l3 s4 l4 :
  store_get (flag_key s) s = Ok v -> truthy v = false ->
  store_set (flag_key s) (VBool true) s = Ok s1 ->
  store_set (flag_key s1) (VBool true) s1 = Ok s2 ->
  query_findOne role_uid [("type", VStr "public")] s2 = Ok role -> truthy role = true ->
  get_prop role "id" = Ok roleId ->
  importSeedData hp s2 = Out (Ok tt) s3 l3 ->
  query_findOne role_uid [("type", VStr "public")] s3 = Ok role ->
  importSeedData hp s3 = Out (Ok tt) s4 l4 ->
  star gstep (s, GStart, GStart) (s2, GDone true, GDone true) /\
  seed_import hp s2 = Out (Ok tt) s3 (EvSettingUp :: l3 ++ [EvBootstrapComplete]) /\
  seed_import hp s3 = Out (Ok tt) s4 (EvSettingUp :: l4 ++ [EvBootstrapComplete]) /\
  exists added,
    query_rows permission_uid s4 = query_rows permission_uid s ++ added /\
    map strip_id added ≡ₚ (permission_requests roleId (spread seed_permissions)).1 ++
                          (permission_requests roleId (spread seed_permissions)).1.
Proof.
  intros Hg Hv Hs1 Hs2 Hf2 Htr Hid Hi3 Hf3 Hi4.
  split; [replace true with (negb (truthy v)) by (by rewrite Hv); by apply (race_path s v s1 s2) |].
  split; [by apply seed_import_ok_run |]. split; [by apply seed_import_ok_run |].
  destruct (importSeedData_rows _ _ _ _ _ _ Hf2 Htr Hid Hi3) as (a1 & Hq3 & Hp3).
  destruct (importSeedData_rows _ _ _ _ _ _ Hf3 Htr Hid Hi4) as (a2 & Hq4 & Hp4).
  exists (a1 ++ a2). split.
  - by rewrite Hq4, Hq3, (store_set_rows _ _ _ _ _ Hs2), (store_set_rows _ _ _ _ _ Hs1), app_assoc.
  - by rewrite map_app, Hp3, Hp4.
Qed.
End EntryTheorems.

(** ** Witnesses on the in-memory platform *)

Definition demo_home : value := VObj demo_home_fields.

(** [demo_role] whose permission creates fail. *)
Definition demo_db_down : mem :=
  with_faults demo_role [FailQueryCreate permission_uid "connect ECONNREFUSED"].

Lemma seedPelagicApp_import_error_witness :
  let s1 := out_st (isFirstRun demo0) in
  let o := importSeedData demo_home_missing s1 in
  seedPelagicApp demo_home_missing demo0 =
    Out (Ok tt) (out_st o)
        ([] ++ EvSettingUp :: out_log o ++
            [EvImportFailed; EvErrorObject (mk_error "File not found: data/uploads/hero/missing.jpg")]).
Proof.
  apply (seedPelagicApp_import_error _ _ (out_st (isFirstRun demo0)) []).
  - vm_compute. reflexivity.
  - apply out_res_eta. vm_compute. reflexivity.
Defined.

Lemma seedPelagicApp_runs_once_witness :
  let o1 := seedPelagicApp demo_home demo0 in
  let o2 := seedPelagicApp demo_home (out_st o1) in
  (out_res o2 = Ok tt /\ out_log o2 = [EvAlreadyImported]) \/
  (exists e, out_res o2 = Throw e /\ out_log o2 = []).
Proof.
  assert (Hg : isFirstRun demo0 = Out (Ok true) (out_st (isFirstRun demo0)) []).
  { vm_compute. reflexivity. }
  exact (seedPelagicApp_runs_once demo_home demo0 true _ _ _ _ _ _ _ _ Hg
           (out_eta (seedPelagicApp demo_home demo0))
           (out_eta (seedPelagicApp demo_home (out_st (seedPelagicApp demo_home demo0))))).
Defined.

Lemma importSeedData_permissions_error_witness :
  let o := setPublicPermissions seed_permissions demo_db_down in
  importSeedData demo_home demo_db_down =
    Out (Throw (mk_error "connect ECONNREFUSED")) (out_st o) (EvStartingImport :: out_log o).
Proof.
  intros o. apply (importSeedData_permissions_error demo_home demo_db_down _ (out_st o) (out_log o)).
  apply out_res_eta. vm_compute. reflexivity.
Defined.

Lemma importSeedData_permission_rows_witness :
  exists added,
    query_rows permission_uid (out_st (importSeedData demo_home demo_role)) =
      query_rows permission_uid demo_role ++ added /\
    map strip_id added ≡ₚ (permission_requests (VNum 1) (spread seed_permissions)).1.
Proof.
  apply (importSeedData_permission_rows demo_home demo_role public_role (VNum 1) _
           (out_log (importSeedData demo_home demo_role)));
    [vm_compute; reflexivity | vm_compute; reflexivity | vm_compute; reflexivity |].
  apply out_res_eta. vm_compute. reflexivity.
Defined.

(** The flag written once and twice on [demo_role]. *)
Definition dup_s1 : mem := ok_or demo_role (store_set (flag_key demo_role) (VBool true) demo_role).
Definition dup_s2 : mem := ok_or demo_role (store_set (flag_key dup_s1) (VBool true) dup_s1).
Definition dup_s3 : mem := out_st (importSeedData demo_home dup_s2).
Definition dup_s4 : mem := out_st (importSeedData demo_home dup_s3).

Lemma concurrent_bootstraps_duplicate_witness :
  star gstep (demo_role, GStart, GStart) (dup_s2, GDone true, GDone true) /\
  seed_import demo_home dup_s2 =
    Out (Ok tt) dup_s3 (EvSettingUp :: out_log (importSeedData demo_home dup_s2) ++ [EvBootstrapComplete]) /\
  seed_import demo_home dup_s3 =
    Out (Ok tt) dup_s4 (EvSettingUp :: out_log (importSeedData demo_home dup_s3) ++ [EvBootstrapComplete]) /\
  exists added,
    query_rows permission_uid dup_s4 = query_rows permission_uid demo_role ++ added /\
    map strip_id added ≡ₚ (permission_requests (VNum 1) (spread seed_permissions)).1 ++
                          (permission_requests (VNum 1) (spread seed_permissions)).1.
Proof.
  apply (concurrent_bootstraps_duplicate demo_home demo_role VUndef dup_s1 dup_s2 public_role (VNum 1));
    try (vm_compute; reflexivity); apply out_res_eta; vm_compute; reflexivity.
Defined.
