(* ===== verification/Admin.v ===== *)
(** * Admin: the admin panel configuration and its preview handler

    Models src/config/admin.js: [getPreviewPathname] (lines 4-31), the
    configuration function of lines 33-89 with Strapi's [env] helper (a
    variable of [process.env], or the default; [env.bool] is [true]
    exactly for the string "true"), and the async preview [handler] of
    lines 58-85: read the document through the document service, map its
    content type to a front-end path, and build the draft-mode URL with
    the path percent-encoded.  Errors inside the handler's [try] are
    logged and answered with [null].

    The URL is read back by the front end with
    [new URL(url).searchParams]; the reference [url_param] models that
    reader after the URL standard: ASCII tabs and newlines removed, the
    fragment from the first '#' cut off, the query after the first '?',
    pairs split at '&' (empty ones skipped), name and value at the first
    '=', each with '+' read as a space and then percent-decoded (a '%'
    without two hex digits is kept).  The reader takes the URL as the
    browser requested it, so it assumes the URL parses; the parser's
    percent-encoding of the query, which the decoding undoes, is left
    out.  The theorems: the [path] parameter
    of every preview URL is the pathname, provided the client URL has no
    '?' nor '#' and the secret no '&' nor '#'; a secret holding
    '&path=' replaces it, whatever the document. *)

From stdpp Require Import base list.
From Stdlib Require Import ZArith NArith String Ascii Lia.
From S2P Require Import Prelude JsString JsValue Platform MemPlatform UriCodec.

Local Open Scope list_scope.
Local Open Scope string_scope.

(** [document?.k] *)
Definition optional_prop (v : value) (k : string) : value :=
  match v with
  | VUndef | VNull => VUndef
  | _ => match get_prop v k with Ok x => x | Throw _ => VUndef end
  end.

(** [getPreviewPathname(uid, { locale, document })]; [None] is [null]. *)
Definition getPreviewPathname (uid : string) (document : value) : option string :=
  if String.eqb uid "api::home-page.home-page" then Some "/"
  else if String.eqb uid "api::journal-article.journal-article" then
    let slug := optional_prop document "slug" in
    if negb (truthy slug) then Some "/journal"
    else Some ("/journal/" ++ to_js_string slug)
  else if String.eqb uid "api::journal-page.journal-page" then Some "/journal"
  else if String.eqb uid "api::global-setting.global-setting" then None
  else None.

(** ** Configuration *)

(** [process.env], in definition order. *)
Definition env_vars : Type := list (string * string).

Fixpoint env_lookup (e : env_vars) (k : string) : option string :=
  match e with
  | [] => None
  | (k', v) :: e' => if String.eqb k' k then Some v else env_lookup e' k
  end.

(** [env(key, default)]: [None] is [undefined]. *)
Definition env (e : env_vars) (k : string) (d : option string) : option string :=
  match env_lookup e k with Some v => Some v | None => d end.

(** [env.bool(key, default)] *)
Definition env_bool (e : env_vars) (k : string) (d : bool) : bool :=
  match env_lookup e k with Some v => String.eqb v "true" | None => d end.

(** The configuration object, without the handler (below). *)
Record admin_config : Type := AdminConfig {
  auth_secret : option string;
  api_token_salt : option string;
  transfer_token_salt : option string;
  flag_nps : bool;
  flag_promoteEE : bool;
  preview_enabled : bool;
  allowed_origins : string
}.

(** Lines 35-36 *)
Definition client_url (e : env_vars) : string := default "" (env e "CLIENT_URL" (Some "http://localhost:3000")).
Definition preview_secret (e : env_vars) : string :=
  default "" (env e "PREVIEW_SECRET" (Some "your-secret-key-change-in-production")).

(** Lines 38-57 *)
Definition admin (e : env_vars) : admin_config :=
  AdminConfig (env e "ADMIN_JWT_SECRET" None) (env e "API_TOKEN_SALT" None)
    (env e "TRANSFER_TOKEN_SALT" None)
    (env_bool e "FLAG_NPS" true) (env_bool e "FLAG_PROMOTE_EE" true)
    true (client_url e).

(** ** The preview handler *)

(** Line 76 *)
Definition preview_url (clientUrl previewSecret pathname : string) : string :=
  clientUrl ++ "/api/draft?secret=" ++ previewSecret ++ "&path=" ++ encodeURIComponent pathname.

Section Handler.
Context {S : Type} `{Platform S}.

(** [handler(uid, { documentId, locale, status })]: the parameter is
    destructured before the [try], so a missing parameter object rejects. *)
Definition preview_handler (clientUrl previewSecret uid : string) (params : value) : M S value :=
  documentId ← lift (get_prop params "documentId");
  st_catch
    (document ← c_documents_findOne uid documentId;
     if negb (truthy document) then mret VNull
     else
       match getPreviewPathname uid document with
       | None => mret VNull
       | Some pathname =>
           if negb (truthy (VStr pathname)) then mret VNull
           else mret (VStr (preview_url clientUrl previewSecret pathname))
       end)
    (fun error => st_log (EvPreviewError uid error);; mret VNull).

(** The handler of the configuration built from [e]. *)
Definition admin_handler (e : env_vars) (uid : string) (params : value) : M S value :=
  preview_handler (client_url e) (preview_secret e) uid params.
End Handler.

(** ** How the front end reads the URL *)

(** Split at the first [c]: the part before, and the part after if [c] occurs. *)
Fixpoint split_first (c : ascii) (s : string) : string * option string :=
  match s with
  | EmptyString => (EmptyString, None)
  | String a s' =>
      if ascii_dec a c then (EmptyString, Some s')
      else let '(l, r) := split_first c s' in (String a l, r)
  end.

Fixpoint plus_to_space (s : string) : string :=
  match s with
  | EmptyString => EmptyString
  | String a s' => String (if ascii_dec a "+" then " "%char else a) (plus_to_space s')
  end.

(** [application/x-www-form-urlencoded] decoding of a name or a value:
    '+' is a space, then percent-decoding. *)
Definition form_decode (s : string) : string := percent_decode (plus_to_space s).

(** ASCII tab, line feed and carriage return, which the URL parser
    removes from its input. *)
Definition is_tab_newline (a : ascii) : bool :=
  Ascii.eqb a "009"%char || Ascii.eqb a "010"%char || Ascii.eqb a "013"%char.

Fixpoint strip_tab_newline (s : string) : string :=
  match s with
  | EmptyString => EmptyString
  | String a s' => if is_tab_newline a then strip_tab_newline s' else String a (strip_tab_newline s')
  end.

(** The query of [new URL(url)]: tabs and newlines removed, the fragment
    from the first '#' cut off, what follows the first '?'. *)
Definition url_query (url : string) : option string :=
  (split_first "?" (split_first "#" (strip_tab_newline url)).1).2.

(** [URLSearchParams.get(name)] on the pairs of a query: the decoded
    value of the first non-empty pair whose decoded name is [name]. *)
Fixpoint first_param (pairs : list string) (name : string) : option string :=
  match pairs with
  | [] => None
  | p :: ps =>
      if String.eqb p "" then first_param ps name
      else
        let '(k, v) := split_first "=" p in
        if String.eqb (form_decode k) name then Some (form_decode (default "" v))
        else first_param ps name
  end.

(** [new URL(url).searchParams.get(name)] *)
Definition url_param (url name : string) : option string :=
  query ← url_query url; first_param (split_on "&" query) name.

(** ** Lemmas *)

Lemma split_first_app c s t :
  has_char c s = false -> split_first c (s ++ t) = ((s ++ (split_first c t).1), (split_first c t).2).
Proof.
  induction s as [| a s IH]; intros Hs.
  - change (("" ++ t)%string) with t. by destruct (split_first c t).
  - change ((String a s ++ t)%string) with (String a (s ++ t)). simpl in Hs |- *.
    destruct (ascii_dec a c); [done |]. by rewrite IH.
Qed.

Lemma plus_to_space_id s : has_char "+" s = false -> plus_to_space s = s.
Proof.
  induction s as [| a s IH]; simpl; [done |].
  destruct (ascii_dec a "+"); [done |]. intros Hs. by rewrite IH.
Qed.

Lemma getPreviewPathname_nonempty uid document p :
  getPreviewPathname uid document = Some p -> truthy (VStr p) = true.
Proof.
  unfold getPreviewPathname.
  repeat (destruct (String.eqb _ _); [try destruct (negb _)|]); by intros [= <-].
Qed.

Lemma split_first_none c s : has_char c s = false -> split_first c s = (s, None).
Proof.
  induction s as [| a s IH]; simpl; [done |].
  destruct (ascii_dec a c); [done |]. intros Hs. by rewrite IH.
Qed.

Lemma strip_app s t : strip_tab_newline (s ++ t) = (strip_tab_newline s ++ strip_tab_newline t)%string.
Proof.
  induction s as [| a s IH]; [done |].
  change ((String a s ++ t)%string) with (String a (s ++ t)). simpl. rewrite IH.
  by destruct (is_tab_newline a).
Qed.

Lemma strip_has_char c s : has_char c s = false -> has_char c (strip_tab_newline s) = false.
Proof.
  induction s as [| a s IH]; simpl; [done |].
  destruct (ascii_dec a c); [done |]. intros Hs.
  destruct (is_tab_newline a); simpl; [by apply IH |].
  destruct (ascii_dec a c); [done | by apply IH].
Qed.

Lemma tab_newline_not_uri c : is_tab_newline c = true -> uri_char c = false.
Proof.
  unfold is_tab_newline. intros [[H | H]%orb_true_iff | H]%orb_true_iff;
    apply Ascii.eqb_eq in H as ->; reflexivity.
Qed.

Lemma strip_uri s : string_forall uri_char s = true -> strip_tab_newline s = s.
Proof.
  induction s as [| a s IH]; simpl; [done |].
  intros [Ha Hs]%andb_prop. destruct (is_tab_newline a) eqn:E.
  - by rewrite tab_newline_not_uri in Ha.
  - by rewrite IH.
Qed.

(** The encoded path holds no '&', '+' nor '#', and no tab or newline. *)
Lemma encode_separators p :
  has_char "&" (encodeURIComponent p) = false /\ has_char "+" (encodeURIComponent p) = false /\
  has_char "#" (encodeURIComponent p) = false /\
  strip_tab_newline (encodeURIComponent p) = encodeURIComponent p.
Proof. split_and!; try (apply encode_no_char; reflexivity). apply strip_uri, encode_uri_chars. Qed.

(** The query of a preview URL. *)
Lemma preview_url_query cu sec p :
  has_char "?" cu = false -> has_char "#" cu = false -> has_char "#" sec = false ->
  url_query (preview_url cu sec p) =
    Some ("secret=" ++ strip_tab_newline sec ++ "&path=" ++ encodeURIComponent p).
Proof.
  intros Hq Hh Hs. destruct (encode_separators p) as (_ & _ & He & Hst).
  unfold url_query, preview_url. rewrite !strip_app, Hst.
  change (strip_tab_newline "/api/draft?secret=") with "/api/draft?secret=".
  change (strip_tab_newline "&path=") with "&path=".
  rewrite (split_first_none "#"%char).
  2: { rewrite !has_char_app, (strip_has_char _ _ Hh), (strip_has_char _ _ Hs), He. reflexivity. }
  cbn [fst]. rewrite split_first_app by (by apply strip_has_char). reflexivity.
Qed.

(** [URLSearchParams] skips the [secret] pair and reads a [path] pair. *)
Lemma first_param_secret x rest :
  first_param (("secret=" ++ x) :: rest) "path" = first_param rest "path".
Proof. reflexivity. Qed.

Lemma first_param_path x rest : first_param (("path=" ++ x) :: rest) "path" = Some (form_decode x).
Proof. reflexivity. Qed.

Lemma form_decode_encoded p : form_decode (encodeURIComponent p) = p.
Proof.
  destruct (encode_separators p) as (_ & Hplus & _ & _).
  unfold form_decode. rewrite plus_to_space_id by done. apply uri_roundtrip.
Qed.

(** A query pair that ends at "&path=". *)
Lemma split_amp_path x rest :
  has_char "&" x = false -> split_on "&" (x ++ "&path=" ++ rest) = x :: split_on "&" ("path=" ++ rest).
Proof.
  intros Hx. change ("&path=" ++ rest)%string with (String "&" ("path=" ++ rest)).
  by rewrite split_on_sep_app, (split_on_no_char _ x).
Qed.

Lemma preview_url_reads_back cu sec p :
  has_char "?" cu = false -> has_char "#" cu = false ->
  has_char "&" sec = false -> has_char "#" sec = false ->
  url_param (preview_url cu sec p) "path" = Some p.
Proof.
  intros Hq Hh Ha Hs. destruct (encode_separators p) as (Hea & _ & _ & _).
  unfold url_param. rewrite preview_url_query by done. cbn [mbind option_bind].
  rewrite (string_app_assoc "secret="), split_amp_path, (split_on_no_char _ ("path=" ++ _)).
  - rewrite first_param_secret, first_param_path. by rewrite form_decode_encoded.
  - by rewrite has_char_app, Hea.
  - by rewrite has_char_app, (strip_has_char _ _ Ha).
Qed.

Section HandlerTheorems.
Context {S : Type} `{Platform S}.

Lemma preview_handler_run cu sec uid params id (s : S) :
  get_prop params "documentId" = Ok id ->
  preview_handler cu sec uid params s =
    match documents_findOne uid id s with
    | Throw e => Out (Ok VNull) s [EvPreviewError uid e]
    | Ok doc =>
        Out (Ok (if truthy doc then
                   match getPreviewPathname uid doc with
                   | Some p => VStr (preview_url cu sec p)
                   | None => VNull
                   end
                 else VNull)) s []
    end.
Proof.
  intros Hid. unfold preview_handler. rewrite Hid, (lift_Ok_bind _ _ s).
  unfold st_catch, c_documents_findOne.
  destruct (documents_findOne uid id s) as [doc | e] eqn:E.
  - erewrite bind_ok_nil; [| unfold st_read; by rewrite E].
    destruct (truthy doc); [| done]. cbn [negb].
    destruct (getPreviewPathname uid doc) as [p |] eqn:Ep; [| done].
    by rewrite (getPreviewPathname_nonempty _ _ _ Ep).
  - erewrite bind_err; [| unfold st_read; by rewrite E]. done.
Qed.
End HandlerTheorems.

(** ** Theorems *)

(** C30. The [path] parameter of a preview URL reads back, through the
    front end's [new URL(url).searchParams], as the pathname that was
    encoded, provided the client URL has no '?' and no '#' and the
    preview secret no '&' and no '#'. *)
Theorem preview_url_path cu sec p :
  has_char "?" cu = false -> has_char "#" cu = false ->
  has_char "&" sec = false -> has_char "#" sec = false ->
  url_param (preview_url cu sec p) "path" = Some p.
Proof. apply preview_url_reads_back. Qed.

Section AdminTheorems.
Context {S : Type} `{Platform S}.

(** C31. The preview handler resolves on every document and changes no
    state: [null] after logging when the document service throws, [null]
    without a document or without a preview for its content type, and
    the draft-mode URL of the pathname otherwise. *)
Theorem preview_handler_spec cu sec uid params id (s : S) :
  get_prop params "documentId" = Ok id ->
  preview_handler cu sec uid params s =
    match documents_findOne uid id s with
    | Throw e => Out (Ok VNull) s [EvPreviewError uid e]
    | Ok doc =>
        Out (Ok (if truthy doc then
                   match getPreviewPathname uid doc with
                   | Some p => VStr (preview_url cu sec p)
                   | None => VNull
                   end
                 else VNull)) s []
    end.
Proof. apply preview_handler_run. Qed.

(** C32. End to end: with the configuration built from the environment,
    when the client URL has no '?' nor '#' and the secret no '&' nor '#',
    the handler
    answers a document that has a preview with a URL whose [path]
    parameter is the document's pathname. *)
Theorem admin_handler_path e uid params id doc p (s : S) :
  get_prop params "documentId" = Ok id ->
  documents_findOne uid id s = Ok doc -> truthy doc = true ->
  getPreviewPathname uid doc = Some p ->
  has_char "?" (client_url e) = false -> has_char "#" (client_url e) = false ->
  has_char "&" (preview_secret e) = false -> has_char "#" (preview_secret e) = false ->
  exists url, admin_handler e uid params s = Out (Ok (VStr url)) s [] /\ url_param url "path" = Some p.
Proof.
  intros Hid Hdoc Htr Hp Hcu Hcu' Hsec Hsec'. exists (preview_url (client_url e) (preview_secret e) p).
  unfold admin_handler. rewrite (preview_handler_run _ _ _ _ _ _ Hid), Hdoc, Htr, Hp.
  split; [done |]. by apply preview_url_reads_back.
Qed.
End AdminTheorems.

(** C33. The secret is put into the URL unencoded: for every client URL
    without '?' and '#', a secret [s0 & path= q] (with no '&' nor '#' in
    [s0] and [q]) makes the front end read [q] as the [path] parameter,
    whatever the pathname of the document. *)
Theorem preview_secret_injection cu s0 q p :
  has_char "?" cu = false -> has_char "#" cu = false ->
  has_char "&" s0 = false -> has_char "#" s0 = false ->
  has_char "&" q = false -> has_char "#" q = false ->
  url_param (preview_url cu (s0 ++ "&path=" ++ q) p) "path" = Some (form_decode (strip_tab_newline q)).
Proof.
  intros Hq Hh Ha0 Hh0 Haq Hhq.
  unfold url_param. rewrite preview_url_query; [| done | done |].
  2: { rewrite !has_char_app, Hh0, Hhq. reflexivity. }
  cbn [mbind option_bind]. rewrite !strip_app.
  change (strip_tab_newline "&path=") with "&path=".
  rewrite <- !string_app_assoc, (string_app_assoc "secret="), split_amp_path,
    (string_app_assoc "path="), split_amp_path.
  - by rewrite first_param_secret, first_param_path.
  - by rewrite has_char_app, (strip_has_char _ _ Haq).
  - by rewrite has_char_app, (strip_has_char _ _ Ha0).
Qed.

(** ** Witnesses on the in-memory platform *)

Definition article_uid : string := "api::journal-article.journal-article".

(** A platform holding one journal article (document id 1). *)
Definition demo_article : mem :=
  (ok_or (VNull, demo0) (mem_documents_create article_uid (VObj [("slug", VStr "deep sea")]) demo0)).2.

Definition article_params : value := VObj [("documentId", VStr "1")].

Lemma preview_url_path_witness :
  url_param (preview_url "http://localhost:3000" "s3cret" "/journal/deep sea") "path" = Some "/journal/deep sea".
Proof. apply preview_url_path; reflexivity. Defined.

Lemma preview_handler_spec_witness :
  preview_handler "http://localhost:3000" "s3cret" article_uid article_params demo_article =
    match documents_findOne article_uid (VStr "1") demo_article with
    | Throw e => Out (Ok VNull) demo_article [EvPreviewError article_uid e]
    | Ok doc =>
        Out (Ok (if truthy doc then
                   match getPreviewPathname article_uid doc with
                   | Some p => VStr (preview_url "http://localhost:3000" "s3cret" p)
                   | None => VNull
                   end
                 else VNull)) demo_article []
    end.
Proof. apply preview_handler_spec. reflexivity. Defined.

Lemma preview_secret_injection_witness :
  url_param (preview_url "http://localhost:3000" ("k" ++ "&path=" ++ "/admin") "/journal/deep sea") "path" =
    Some (form_decode (strip_tab_newline "/admin")).
Proof. apply preview_secret_injection; reflexivity. Defined.

Lemma admin_handler_path_witness :
  exists url, admin_handler [] article_uid article_params demo_article = Out (Ok (VStr url)) demo_article [] /\
              url_param url "path" = Some "/journal/deep sea".
Proof.
  apply (admin_handler_path [] article_uid article_params (VStr "1")
           (VObj [("documentId", VStr "1"); ("slug", VStr "deep sea")])); vm_compute; reflexivity.
Defined.
