(* ===== verification/SeedScript.v ===== *)
(** * SeedScript: the standalone seed script

    Models [main] of src/scripts/seed.js (lines 22-55): compile the
    Strapi application, create and load an instance, run the exported
    bootstrap ([seedPelagicApp]), destroy the instance and exit with 0; on
    any error, log it and exit with 1.  The calls into @strapi/strapi
    ([compileStrapi], [createStrapi(...).load()], [app.destroy()]) are
    external: [runtime] records whether each of them resolves or rejects.
    The platform state is that of the loaded instance, which the bootstrap
    reads through the global [strapi].  [app.log.level = 'error'] (line
    35) sets Strapi's logger, not the console, and is not modelled; the
    script's result is its exit code.

    The theorems: the script always exits, with 0 exactly when the three
    runtime calls and the run-once guard succeed; so it exits with 0 when
    the seed import itself failed, which the bootstrap swallows. *)

From stdpp Require Import base list.
From Stdlib Require Import ZArith String.
From S2P Require Import Prelude JsString JsValue Platform MemPlatform Guard HomePage Permissions Bootstrap.

Local Open Scope string_scope.
Local Open Scope list_scope.

(** What the external calls of the script do. *)
Record runtime : Type := Runtime {
  rt_compile : result js_error unit;   (** [await compileStrapi()] *)
  rt_load : result js_error unit;      (** [await createStrapi(appContext).load()] *)
  rt_destroy : result js_error unit    (** [await app.destroy()] *)
}.

Section Script.
Context {S : Type} `{Platform S}.

(** [main()]; the value is the code given to [process.exit]. *)
Definition main (rt : runtime) (homePage : value) : M S Z :=
  st_catch
    (st_log EvSeedStarting;;
     st_log EvSeedCompiling;;
     _ ← lift (rt_compile rt);
     st_log EvSeedCreatingInstance;;
     _ ← lift (rt_load rt);
     st_log EvSeedRunning;;
     seedPelagicApp homePage;;
     st_log EvSeedCompleted;;
     st_log EvSeedDestroying;;
     _ ← lift (rt_destroy rt);
     st_log EvSeedAllDone;;
     mret 0%Z)
    (fun error => st_log EvSeedFailed;; st_log (EvErrorObject error);; mret 1%Z).
End Script.

(** ** Theorems *)

Section ScriptTheorems.
Context {S : Type} `{Platform S}.

Lemma main_run rt hp (s : S) :
  exists s' l, main rt hp s =
    Out (Ok (if is_ok (rt_compile rt) && is_ok (rt_load rt) && is_ok (out_res (isFirstRun s))
                && is_ok (rt_destroy rt) then 0%Z else 1%Z)) s' l.
Proof.
  pose proof (seedPelagicApp_is_ok hp s) as Hok.
  unfold main, lift. st_unfold.
  destruct (rt_compile rt); simpl; [| by eexists _, _].
  destruct (rt_load rt); simpl; [| by eexists _, _].
  destruct (seedPelagicApp hp s) as [[u | e] s1 l1]; simpl in Hok |- *; rewrite <- Hok; simpl;
    [| by eexists _, _].
  by destruct (rt_destroy rt); eexists _, _.
Qed.
End ScriptTheorems.

Section ScriptClaims.
Context {S : Type} `{Platform S}.

(** C34. The script always reaches [process.exit]: with 0 exactly when
    compiling, loading, the bootstrap's run-once guard and destroying
    succeed, with 1 otherwise. *)
Theorem main_exit_code rt hp (s : S) :
  exists s' l, main rt hp s =
    Out (Ok (if is_ok (rt_compile rt) && is_ok (rt_load rt) && is_ok (out_res (isFirstRun s))
                && is_ok (rt_destroy rt) then 0%Z else 1%Z)) s' l.
Proof. apply main_run. Qed.

(** C35. When the seed import fails on a first run, the script still
    reports success and exits with 0: the bootstrap logged and swallowed
    the error. *)
Theorem main_import_failure_exit_zero rt hp (s : S) s1 l1 e s2 l2 :
  rt_compile rt = Ok tt -> rt_load rt = Ok tt -> rt_destroy rt = Ok tt ->
  isFirstRun s = Out (Ok true) s1 l1 ->
  importSeedData hp s1 = Out (Throw e) s2 l2 ->
  main rt hp s =
    Out (Ok 0%Z) s2
      ([EvSeedStarting; EvSeedCompiling; EvSeedCreatingInstance; EvSeedRunning] ++
       (l1 ++ EvSettingUp :: l2 ++ [EvImportFailed; EvErrorObject e]) ++
       [EvSeedCompleted; EvSeedDestroying; EvSeedAllDone]).
Proof.
  intros Hc Hl Hd Hg Hi. pose proof (seedPelagicApp_import_error_run hp s s1 l1 e s2 l2 Hg Hi) as Hs.
  unfold main, lift. st_unfold. rewrite Hc, Hl. simpl. rewrite Hs. simpl. rewrite Hd. simpl.
  by rewrite <- !app_assoc.
Qed.
End ScriptClaims.

(** ** Witnesses on the in-memory platform *)

Definition rt_ok : runtime := Runtime (Ok tt) (Ok tt) (Ok tt).

Lemma main_import_failure_exit_zero_witness :
  let s1 := out_st (isFirstRun demo0) in
  let o := importSeedData demo_home_missing s1 in
  main rt_ok demo_home_missing demo0 =
    Out (Ok 0%Z) (out_st o)
      ([EvSeedStarting; EvSeedCompiling; EvSeedCreatingInstance; EvSeedRunning] ++
       ([] ++ EvSettingUp :: out_log o ++
           [EvImportFailed; EvErrorObject (mk_error "File not found: data/uploads/hero/missing.jpg")]) ++
       [EvSeedCompleted; EvSeedDestroying; EvSeedAllDone]).
Proof.
  intros s1 o.
  apply (main_import_failure_exit_zero rt_ok demo_home_missing demo0 s1 []);
    [reflexivity | reflexivity | reflexivity | vm_compute; reflexivity |].
  apply out_res_eta. vm_compute. reflexivity.
Defined.
