(* ===== verification/Schema.v ===== *)
(** * Schema: the generated component schemas

    Models src/types/generated/components.d.ts: the TypeScript
    declarations that Strapi generates from the component schemas, one
    [Struct.ComponentSchema] interface per component (its collection name,
    its [info] and its [attributes]), and the [ComponentSchemas] registry
    that names them (lines 322-348).  Each interface is a
    [component_schema] value; each attribute type ([Schema.Attribute.*])
    a constructor of [attr_type], with its [Required] and [DefaultTo]
    modifiers.

    The lemmas check the transcribed data against the seed code: the registry is well
    formed (unique names, every nested component registered, unique
    attribute names); for every section type, the media fields that
    [processSection] replaces are exactly the section's own media
    attributes, with the guard that fits their multiplicity; the media
    reachable through nested components (application cards, responsive
    images) are never replaced; and the search through nested components
    reaches its fixpoint at depth 2, so any larger fuel gives the same
    answer.  They are facts of the constant data, evaluated, and carry
    no claim. *)

From stdpp Require Import base list strings.
From Stdlib Require Import ZArith String.
From S2P Require Import Prelude JsString JsValue Platform MemPlatform Media Sections.

Local Open Scope list_scope.
Local Open Scope string_scope.

Inductive media_kind : Type := Images | Videos.

(** [Schema.Attribute.*] *)
Inductive attribute_type : Type :=
| AString
| AText
| ARichText
| AEmail
| ABoolean
| AEnumeration (values : list string)
| AMedia (kind : media_kind) (multiple : bool)
| AComponent (component : string) (repeatable : bool)
| ARelation (relation : string) (target : string).

Record attribute : Type := Attr {
  attr_name : string;
  attr_type : attribute_type;
  attr_required : bool;
  attr_default : option value
}.

(** [Struct.ComponentSchema]: [collectionName], [info] and [attributes]. *)
Record component_schema : Type := Component {
  collectionName : string;
  info_description : string;
  info_displayName : string;
  info_icon : string;
  attributes : list attribute
}.

(** [SectionsApplications] (lines 3-14) *)
Definition SectionsApplications : component_schema :=
  Component "components_sections_applications" "Applications grid" "Applications" "apps"
    [Attr "applications" (AComponent "shared.application-card" true) false None;
     Attr "title" AString false None].

(** [SectionsContact] (lines 16-27) *)
Definition SectionsContact : component_schema :=
  Component "components_sections_contacts" "Contact section with blocks" "Contact" "envelope"
    [Attr "blocks" (AComponent "shared.contact-block" true) false None;
     Attr "title" AString true None].

(** [SectionsFaqs] (lines 29-40) *)
Definition SectionsFaqs : component_schema :=
  Component "components_sections_faqs" "Frequently asked questions section" "FAQs" "question"
    [Attr "items" (AComponent "shared.faq-item" true) false None;
     Attr "title" AString true None].

(** [SectionsHero] (lines 42-57) *)
Definition SectionsHero : component_schema :=
  Component "components_sections_heros" "Homepage hero section" "Hero" "sun"
    [Attr "desktopHeroImage" (AMedia Images false) true None;
     Attr "desktopSupportImages" (AMedia Images true) false None;
     Attr "heroCopy" AText true None;
     Attr "mobileHeroImage" (AMedia Images false) false None;
     Attr "mobileSupportImages" (AMedia Images true) false None].

(** [SectionsImpact] (lines 59-74) *)
Definition SectionsImpact : component_schema :=
  Component "components_sections_impacts" "Impact callout and testimonial" "Impact" "chart"
    [Attr "calloutLabel" AString false None;
     Attr "calloutNumber" AString false None;
     Attr "description" ARichText false None;
     Attr "testimonialName" AString false None;
     Attr "testimonialQuote" ARichText false None;
     Attr "title" AString true None].

(** [SectionsMilanDesignWeek] (lines 76-91) *)
Definition SectionsMilanDesignWeek : component_schema :=
  Component "components_sections_milan_design_weeks" "Promo section for Milan Design Week" "Milan Design Week" "calendar"
    [Attr "buttonLabel" AString true None;
     Attr "buttonUrl" AString true None;
     Attr "description" ARichText false None;
     Attr "thumbnail" (AMedia Images false) false None;
     Attr "title" AString true None;
     Attr "video" (AMedia Videos false) false None].

(** [SectionsMission] (lines 93-104) *)
Definition SectionsMission : component_schema :=
  Component "components_sections_missions" "Mission statement section" "Mission" "compass"
    [Attr "body" ARichText false None;
     Attr "taglineText" AString true None].

(** [SectionsOverview] (lines 106-118) *)
Definition SectionsOverview : component_schema :=
  Component "components_sections_overviews" "Overview section with repeatable items" "Overview" "list"
    [Attr "description" ARichText false None;
     Attr "items" (AComponent "shared.overview-item" true) false None;
     Attr "title" AString true None].

(** [SectionsProduct] (lines 120-141) *)
Definition SectionsProduct : component_schema :=
  Component "components_sections_products" "Product call-to-action block" "Product CTA" "cart"
    [Attr "buttonAction" (AEnumeration ["openModal"; "internalLink"; "externalLink"]) true None;
     Attr "buttonLabel" AString true None;
     Attr "description" ARichText false None;
     Attr "externalUrl" AString false None;
     Attr "internalLink" (ARelation "oneToOne" "api::journal-article.journal-article") false None;
     Attr "title" AString true None].

(** [SectionsSmallGallery] (lines 143-153) *)
Definition SectionsSmallGallery : component_schema :=
  Component "components_sections_small_galleries" "Small gallery with responsive images" "Small gallery" "images"
    [Attr "items" (AComponent "shared.responsive-image" true) false None].

(** [SharedApplicationCard] (lines 155-167) *)
Definition SharedApplicationCard : component_schema :=
  Component "components_shared_application_cards" "Card for applications grid" "Application card" "grid"
    [Attr "description" ARichText false None;
     Attr "image" (AMedia Images false) false None;
     Attr "title" AString true None].

(** [SharedContactBlock] (lines 169-182) *)
Definition SharedContactBlock : component_schema :=
  Component "components_shared_contact_blocks" "Contact entry with description and optional link" "Contact block" "user"
    [Attr "description" ARichText false None;
     Attr "email" AEmail false None;
     Attr "externalLink" (AComponent "shared.external-link" false) false None;
     Attr "label" AString true None].

(** [SharedExternalLink] (lines 184-196) *)
Definition SharedExternalLink : component_schema :=
  Component "components_shared_external_links" "Reusable external link with optional new tab" "External link" "link"
    [Attr "label" AString true None;
     Attr "openInNewTab" ABoolean false (Some (VBool true));
     Attr "url" AString true None].

(** [SharedFaqItem] (lines 198-210) *)
Definition SharedFaqItem : component_schema :=
  Component "components_shared_faq_items" "Question and answer pair" "FAQ item" "question"
    [Attr "answer" ARichText false None;
     Attr "email" AString false None;
     Attr "question" AString true None].

(** [SharedImagePair] (lines 212-224) *)
Definition SharedImagePair : component_schema :=
  Component "components_shared_image_pairs" "Side-by-side images with optional caption" "Image pair" "images"
    [Attr "caption" AString false None;
     Attr "left_image" (AMedia Images false) false None;
     Attr "right_image" (AMedia Images false) false None].

(** [SharedImageText] (lines 226-240) *)
Definition SharedImageText : component_schema :=
  Component "components_shared_image_texts" "Image with aligned text" "Image + text" "picture"
    [Attr "alignment" (AEnumeration ["imageLeft"; "imageRight"]) false (Some (VStr "imageLeft"));
     Attr "body" ARichText false None;
     Attr "image" (AMedia Images false) false None;
     Attr "title" AString false None].

(** [SharedMediaBlock] (lines 242-253) *)
Definition SharedMediaBlock : component_schema :=
  Component "components_shared_media_blocks" "Full-width image with caption" "Media block" "image"
    [Attr "caption" AString false None;
     Attr "image" (AMedia Images false) false None].

(** [SharedOverviewItem] (lines 255-266) *)
Definition SharedOverviewItem : component_schema :=
  Component "components_shared_overview_items" "Title + description item for overview sections" "Overview item" "bulletList"
    [Attr "description" ARichText false None;
     Attr "title" AString true None].

(** [SharedResponsiveImage] (lines 268-279) *)
Definition SharedResponsiveImage : component_schema :=
  Component "components_shared_responsive_images" "Desktop and mobile image variants" "Responsive image" "picture"
    [Attr "desktopImage" (AMedia Images false) false None;
     Attr "mobileImage" (AMedia Images false) false None].

(** [SharedRichText] (lines 281-291) *)
Definition SharedRichText : component_schema :=
  Component "components_shared_rich_texts" "Rich text content block" "Rich text" "alignLeft"
    [Attr "content" ARichText false None].

(** [SharedSeo] (lines 293-305) *)
Definition SharedSeo : component_schema :=
  Component "components_shared_seos" "SEO metadata" "SEO" "search"
    [Attr "metaDescription" AText true None;
     Attr "metaTitle" AString true None;
     Attr "shareImage" (AMedia Images false) false None].

(** [SharedVideoBlock] (lines 307-320) *)
Definition SharedVideoBlock : component_schema :=
  Component "components_shared_video_blocks" "Video with optional thumbnail and caption" "Video block" "video"
    [Attr "caption" AString false None;
     Attr "thumbnail" (AMedia Images false) false None;
     Attr "videoMedia" (AMedia Videos false) false None;
     Attr "videoUrl" AString false None].

(** [ComponentSchemas] (lines 322-348) *)
Definition ComponentSchemas : list (string * component_schema) :=
  [("sections.applications", SectionsApplications);
   ("sections.contact", SectionsContact);
   ("sections.faqs", SectionsFaqs);
   ("sections.hero", SectionsHero);
   ("sections.impact", SectionsImpact);
   ("sections.milan-design-week", SectionsMilanDesignWeek);
   ("sections.mission", SectionsMission);
   ("sections.overview", SectionsOverview);
   ("sections.product", SectionsProduct);
   ("sections.small-gallery", SectionsSmallGallery);
   ("shared.application-card", SharedApplicationCard);
   ("shared.contact-block", SharedContactBlock);
   ("shared.external-link", SharedExternalLink);
   ("shared.faq-item", SharedFaqItem);
   ("shared.image-pair", SharedImagePair);
   ("shared.image-text", SharedImageText);
   ("shared.media-block", SharedMediaBlock);
   ("shared.overview-item", SharedOverviewItem);
   ("shared.responsive-image", SharedResponsiveImage);
   ("shared.rich-text", SharedRichText);
   ("shared.seo", SharedSeo);
   ("shared.video-block", SharedVideoBlock)].

(** ** Reading the schemas *)

Fixpoint assoc {A} (k : string) (l : list (string * A)) : option A :=
  match l with
  | [] => None
  | (k', v) :: l' => if String.eqb k' k then Some v else assoc k l'
  end.

Definition schema_of (name : string) : option component_schema := assoc name ComponentSchemas.

(** The media attributes of a component, with their multiplicity. *)
Definition media_attrs (c : component_schema) : list (string * bool) :=
  omap (fun a => match attr_type a with AMedia _ m => Some (attr_name a, m) | _ => None end)
    (attributes c).

(** The guard that suits a media attribute: a non-empty array for a
    multiple one, a truthy value for a single one. *)
Definition media_guard (multiple : bool) : value -> bool :=
  if multiple then nonempty_array else truthy.

(** The paths to every media attribute reachable from a component through
    nested components, searched to depth [fuel]. *)
Fixpoint media_paths (fuel : nat) (c : component_schema) : list (list string) :=
  match fuel with
  | O => []
  | Datatypes.S f =>
      List.concat (map (fun a =>
        match attr_type a with
        | AMedia _ _ => [[attr_name a]]
        | AComponent n _ =>
            match schema_of n with
            | Some c' => map (cons (attr_name a)) (media_paths f c')
            | None => []
            end
        | _ => []
        end) (attributes c))
  end.

(** The media below a nested component. *)
Definition nested_media (fuel : nat) (c : component_schema) : list (list string) :=
  List.filter (fun p => Nat.leb 2 (List.length p)) (media_paths fuel c).

(** A nested component is registered. *)
Definition component_registered (a : attribute) : bool :=
  match attr_type a with
  | AComponent n _ => bool_decide (is_Some (schema_of n))
  | _ => true
  end.

(** ** Lemmas *)

Lemma assoc_in {A} k (l : list (string * A)) v : assoc k l = Some v -> (k, v) ∈ l.
Proof.
  induction l as [| [k' v'] l IH]; simpl; [done |].
  destruct (String.eqb_spec k' k) as [-> |]; [intros [= ->]; by left |].
  intros H. right. by apply IH.
Qed.

(** The search at [f + 1] only uses the search at [f] on registered
    components: once these agree at [f] and [f + 1], so do all components
    at [f + 1] and [f + 2]. *)
Lemma media_paths_step f :
  (forall nc, nc ∈ ComponentSchemas -> media_paths f nc.2 = media_paths (Datatypes.S f) nc.2) ->
  forall c, media_paths (Datatypes.S f) c = media_paths (Datatypes.S (Datatypes.S f)) c.
Proof.
  intros Hreg c. cbn [media_paths]. f_equal. apply map_ext. intros a.
  destruct (attr_type a) as [| | | | | | | n r |]; try done.
  destruct (schema_of n) as [c' |] eqn:E; [| done].
  by rewrite (Hreg (n, c') (assoc_in _ _ _ E) : media_paths f c' = media_paths (Datatypes.S f) c').
Qed.

Lemma media_paths_base :
  forall nc, nc ∈ ComponentSchemas -> media_paths 2 nc.2 = media_paths 3 nc.2.
Proof.
  apply Forall_forall. repeat constructor.
Qed.

Lemma media_paths_stable n :
  forall c, media_paths (3 + n) c = media_paths (4 + n) c.
Proof.
  induction n as [| n IH].
  - apply media_paths_step, media_paths_base.
  - apply (media_paths_step (3 + n)). intros nc _. apply IH.
Qed.

(** ** Facts of the registry *)

(** The registry is well formed: component names and collection
    names are unique, attribute names are unique within each component,
    and every nested component is registered. *)
Lemma ComponentSchemas_wf :
  NoDup ComponentSchemas.*1 /\ NoDup (map (collectionName ∘ snd) ComponentSchemas) /\
  Forall (fun nc => NoDup (map attr_name (attributes nc.2)) /\
                    Forall (fun a => component_registered a = true) (attributes nc.2)) ComponentSchemas.
Proof.
  split; [refine (bool_decide_eq_true_1 _ _); vm_compute; reflexivity |].
  split; [refine (bool_decide_eq_true_1 _ _); vm_compute; reflexivity |].
  repeat constructor; refine (bool_decide_eq_true_1 _ _); vm_compute; reflexivity.
Qed.

(** For every section type, the media fields that [processSection]
    replaces are exactly the section's own media attributes, each with
    the guard of its multiplicity (a truthy value for a single medium, a
    non-empty array for a multiple one). *)
Lemma media_of_schema :
  Forall (fun nc => String.prefix "sections." nc.1 = true ->
                    media_of (VStr nc.1) ≡ₚ map (fun km => (km.1, media_guard km.2)) (media_attrs nc.2))
    ComponentSchemas.
Proof.
  repeat constructor; intros Hp; cbn in Hp |- *; try discriminate; solve_Permutation.
Qed.

(** The search for media through nested components reaches its
    fixpoint: every fuel from 3 on gives the same paths, for every
    component. *)
Lemma media_paths_fuel n c : media_paths (3 + n) c = media_paths 3 c.
Proof.
  induction n as [| n IH]; [done |].
  rewrite <- IH. symmetry. apply media_paths_stable.
Qed.

Section NestedMedia.
Context {S : Type} `{Platform S}.

(** Two section types reach media only through nested components
    (the application cards' images, the gallery's responsive images), and
    [processSection] copies such sections field for field: the media paths
    of the fixture stay strings, they are never uploaded. *)
Lemma nested_media_not_uploaded tag fs (s : S) v s' l :
  tag = "sections.applications" \/ tag = "sections.small-gallery" ->
  field_get fs "__component" = Some (VStr tag) ->
  processSection (VObj fs) s = Out (Ok v) s' l ->
  (exists c, schema_of tag = Some c /\ nested_media 3 c <> []) /\
  exists fs', v = VObj fs' /\ forall k, field_get fs' k = field_get fs k.
Proof.
  intros Htag Hc Hrun. apply processSection_keys in Hrun as (fs' & -> & _ & Hu).
  rewrite Hc in Hu. cbn [default] in Hu.
  split; [destruct Htag as [-> | ->]; by eexists |].
  exists fs'. split; [done |]. intros k. apply Hu.
  destruct Htag as [-> | ->]; intros g Hin; by apply elem_of_nil in Hin.
Qed.
End NestedMedia.
