(* ===== verification/Middlewares.v ===== *)
(** * Middlewares: the HTTP middleware stack

    Models src/config/middlewares.js: the list of Strapi middlewares, each
    a name or a name with a configuration object (only [strapi::security]
    has one: a content security policy on top of the defaults, whose
    [img-src] and [media-src] directives let the admin panel show media
    served by the local Strapi origin).

    The lemma, a fact of the constant list that carries no claim: the
    stack is Strapi's default stack, in its order, with
    only the security middleware configured, and the policy admits the
    Strapi origin for images and media.  Strapi's default stack
    ([strapi_default_middlewares]) is taken from its documentation. *)

From stdpp Require Import base list sets.
From Stdlib Require Import String.
From S2P Require Import Prelude JsValue.

Local Open Scope list_scope.
Local Open Scope string_scope.

(** A middleware entry: its name, or an object [{ name, config }]. *)
Inductive middleware : Type :=
| MwName (name : string)
| MwConfig (name : string) (config : value).

Definition mw_name (m : middleware) : string :=
  match m with MwName n => n | MwConfig n _ => n end.

Definition mw_config (m : middleware) : option value :=
  match m with MwName _ => None | MwConfig _ c => Some c end.

(** Lines 4-36: the configuration of [strapi::security]. *)
Definition security_config : value :=
  VObj [("contentSecurityPolicy",
         VObj [("useDefaults", VBool true);
               ("directives",
                VObj [("img-src", VArr [VStr "'self'"; VStr "data:"; VStr "blob:";
                                        VStr "http://localhost:1337"; VStr "https:"]);
                      ("media-src", VArr [VStr "'self'"; VStr "data:"; VStr "blob:";
                                          VStr "http://localhost:1337"; VStr "https:"]);
                      ("script-src", VArr [VStr "'self'"; VStr "'unsafe-inline'"; VStr "'unsafe-eval'"]);
                      ("style-src", VArr [VStr "'self'"; VStr "'unsafe-inline'"])])])].

(** [module.exports] (lines 1-44) *)
Definition middlewares : list middleware :=
  [MwName "strapi::logger";
   MwName "strapi::errors";
   MwConfig "strapi::security" security_config;
   MwName "strapi::cors";
   MwName "strapi::poweredBy";
   MwName "strapi::query";
   MwName "strapi::body";
   MwName "strapi::session";
   MwName "strapi::favicon";
   MwName "strapi::public"].

(** Strapi's default middleware stack, in order. *)
Definition strapi_default_middlewares : list string :=
  ["strapi::logger"; "strapi::errors"; "strapi::security"; "strapi::cors";
   "strapi::poweredBy"; "strapi::query"; "strapi::body"; "strapi::session";
   "strapi::favicon"; "strapi::public"].

(** The sources a directive of the security policy allows. *)
Definition csp_sources (directive : string) : list value :=
  match field_get (match security_config with VObj fs => fs | _ => [] end) "contentSecurityPolicy" with
  | Some (VObj csp) =>
      match field_get csp "directives" with
      | Some (VObj ds) => match field_get ds directive with Some (VArr xs) => xs | _ => [] end
      | _ => []
      end
  | _ => []
  end.

(** The stack is Strapi's default stack in its order, only
    [strapi::security] is configured, and its policy admits the local
    Strapi origin for images and media. *)
Lemma middlewares_default_order :
  map mw_name middlewares = strapi_default_middlewares /\
  Forall (fun m => mw_config m <> None -> mw_name m = "strapi::security") middlewares /\
  VStr "http://localhost:1337" ∈ csp_sources "img-src" /\
  VStr "http://localhost:1337" ∈ csp_sources "media-src".
Proof.
  split_and!; [reflexivity | | cbn; by repeat constructor | cbn; by repeat constructor].
  repeat constructor; cbn; by intros [].
Qed.
